(** * claude-session-logger: a shallow embedding of [hooks/scripts/log-command.py]

    The development follows the layout of the script: a small library of
    Python string operations, then one module per component
    (atomic append writer, session naming resolver, directory/file reconciler,
    run/marker tracker, hook entry point).  Text is modelled as [string]
    (the UTF-8 bytes of the Python [str]); files are finite maps from
    paths to text; a directory listing is an ordered list of entries. *)

From Stdlib Require Import ZArith Ascii String List Lia DecimalString DecimalN.
From Stdlib Require Import Sorted Permutation.
From stdpp Require Import gmap strings list.

Local Open Scope string_scope.
Local Open Scope Z_scope.

(** ** Python string operations

    White space, digits, letters and word characters are the ASCII ones:
    the code points outside ASCII that Python also counts among them
    (they vary with the version of the Unicode tables) are left out. *)

Module Py.

(** [needle in hay] *)
Fixpoint contains (needle hay : string) : bool :=
  String.prefix needle hay ||
  match hay with
  | EmptyString => false
  | String _ t => contains needle t
  end.

(** [s.replace(c, "")] for a one-character [c] *)
Fixpoint remove_char (c : ascii) (s : string) : string :=
  match s with
  | EmptyString => EmptyString
  | String a t => if Ascii.eqb a c then remove_char c t else String a (remove_char c t)
  end.

Definition nul : ascii := Ascii.ascii_of_nat 0.
Definition LF : ascii := Ascii.ascii_of_nat 10.
Definition newline : string := String LF EmptyString.

Definition is_digit (a : ascii) : bool :=
  let n := nat_of_ascii a in (Nat.leb 48 n && Nat.leb n 57)%bool.

Definition digit_val (a : ascii) : Z := Z.of_nat (nat_of_ascii a) - 48.

(** ASCII white space, as removed by [str.strip()] and matched by [\s] *)
Definition is_space (a : ascii) : bool :=
  let n := nat_of_ascii a in
  (Nat.eqb n 32 || (Nat.leb 9 n && Nat.leb n 13) || (Nat.leb 28 n && Nat.leb n 31))%bool.

Fixpoint lstrip (s : string) : string :=
  match s with
  | String a t => if is_space a then lstrip t else s
  | EmptyString => EmptyString
  end.

Fixpoint rstrip (s : string) : string :=
  match s with
  | EmptyString => EmptyString
  | String a t =>
      match rstrip t with
      | EmptyString => if is_space a then EmptyString else String a EmptyString
      | r => String a r
      end
  end.

Definition strip (s : string) : string := lstrip (rstrip s).

Definition CR : ascii := Ascii.ascii_of_nat 13.

(** What a file opened in text mode gives for its bytes: with universal
    newlines, a carriage return, alone or before a line feed, is read as
    a line feed. *)
Fixpoint read_text (s : string) : string :=
  match s with
  | EmptyString => EmptyString
  | String a t =>
      if Ascii.eqb a CR then
        match t with
        | String b t' =>
            if Ascii.eqb b LF then String LF (read_text t') else String LF (read_text t)
        | EmptyString => String LF EmptyString
        end
      else String a (read_text t)
  end.

(** [f.readlines()] on a file opened in text mode: the text cut after
    every line feed, terminators kept *)
Fixpoint readlines_go (cur : string) (s : string) : list string :=
  match s with
  | EmptyString => match cur with EmptyString => [] | _ => [String.rev cur] end
  | String a t =>
      if Ascii.eqb a LF then String.rev (String a cur) :: readlines_go EmptyString t
      else readlines_go (String a cur) t
  end.

Definition readlines (s : string) : list string := readlines_go EmptyString (read_text s).

Fixpoint smap (f : ascii -> ascii) (s : string) : string :=
  match s with
  | EmptyString => EmptyString
  | String a t => String (f a) (smap f t)
  end.

(** [s.replace(old, new)] for a non-empty [old]: the occurrences are
    replaced from the left, without overlap; [skip] characters of an
    occurrence just replaced are still to be passed over. *)
Fixpoint replace_go (old new : string) (s : string) (skip : nat) : string :=
  match s with
  | EmptyString => EmptyString
  | String a t =>
      match skip with
      | S k => replace_go old new t k
      | O =>
          if String.prefix old s then new +:+ replace_go old new t (String.length old - 1)
          else String a (replace_go old new t 0)
      end
  end.

Definition replace (old new s : string) : string := replace_go old new s 0.

(** the text before the last occurrence of [sep], as [s.rsplit(sep, 1)[0]]
    gives it when [sep] occurs *)
Fixpoint before_last (sep s : string) : option string :=
  match s with
  | EmptyString => None
  | String a t =>
      match before_last sep t with
      | Some pre => Some (String a pre)
      | None => if String.prefix sep s then Some EmptyString else None
      end
  end.

(** [s.rsplit(sep, 1)[0]] *)
Definition rsplit_head (sep s : string) : string :=
  match before_last sep s with
  | Some pre => pre
  | None => s
  end.

(** [s.split(c)] for a one-character separator *)
Fixpoint split_go (c : ascii) (cur : string) (s : string) : list string :=
  match s with
  | EmptyString => [String.rev cur]
  | String a t =>
      if Ascii.eqb a c then String.rev cur :: split_go c EmptyString t
      else split_go c (String a cur) t
  end.

Definition split (c : ascii) (s : string) : list string := split_go c EmptyString s.

(** [sep.join(parts)] *)
Fixpoint join (sep : string) (parts : list string) : string :=
  match parts with
  | [] => EmptyString
  | [x] => x
  | x :: rest => x +:+ sep +:+ join sep rest
  end.

(** [s.lower()], as far as ASCII is concerned: the ASCII letters, and the
    two characters outside ASCII whose lower case holds an ASCII letter,
    U+0130 (lower case "i" and U+0307) and U+212A (lower case "k").  The
    other characters outside ASCII are left as they are; their lower case
    holds no ASCII character either. *)
Definition lower_char (a : ascii) : ascii :=
  let n := nat_of_ascii a in
  if (Nat.leb 65 n && Nat.leb n 90)%bool then ascii_of_nat (n + 32) else a.

Fixpoint lower (s : string) : string :=
  match s with
  | EmptyString => EmptyString
  | String a t =>
      match t with
      | String b t1 =>
          if Ascii.eqb a "196" && Ascii.eqb b "176"
          then String "i" (String "204" (String "135" (lower t1)))
          else
            match t1 with
            | String c t2 =>
                if Ascii.eqb a "226" && Ascii.eqb b "132" && Ascii.eqb c "170"
                then String "k" (lower t2)
                else String (lower_char a) (lower t)
            | EmptyString => String (lower_char a) (lower t)
            end
      | EmptyString => String (lower_char a) EmptyString
      end
  end.

(** [s.strip(chars)] and [s.rstrip(chars)] for a set of characters *)
Fixpoint lstrip_chars (p : ascii -> bool) (s : string) : string :=
  match s with
  | String a t => if p a then lstrip_chars p t else s
  | EmptyString => EmptyString
  end.

Fixpoint rstrip_chars (p : ascii -> bool) (s : string) : string :=
  match s with
  | EmptyString => EmptyString
  | String a t =>
      match rstrip_chars p t with
      | EmptyString => if p a then EmptyString else String a EmptyString
      | r => String a r
      end
  end.

(** [s[:n]] *)
Definition take (n : nat) (s : string) : string := String.substring 0 n s.

(** [int(s)] for the ASCII forms of a decimal integer: white space
    around it, a sign, decimal digits, single underscores between
    digits.  Digits of other scripts and the interpreter's limit on the
    number of digits are left out. *)
Fixpoint int_digits (acc : Z) (s : string) (after_digit : bool) : option Z :=
  match s with
  | EmptyString => if after_digit then Some acc else None
  | String a t =>
      if is_digit a then int_digits (10 * acc + digit_val a) t true
      else if Ascii.eqb a "_" && after_digit then int_digits acc t false
      else None
  end.

Definition int (s : string) : option Z :=
  match strip s with
  | String "+" t => int_digits 0 t false
  | String "-" t => option_map Z.opp (int_digits 0 t false)
  | t => int_digits 0 t false
  end.

(** [str(n)] for a non-negative integer *)
Definition str_N (n : N) : string := NilZero.string_of_uint (N.to_uint n).

(** [raw.decode('utf-8')]: the bytes are well-formed UTF-8 (no overlong
    form, no surrogate, nothing above U+10FFFF); the text is then kept as
    its bytes.  [None] stands for [UnicodeDecodeError]. *)
Definition byte_in (lo hi : nat) (a : ascii) : bool :=
  let n := nat_of_ascii a in (Nat.leb lo n && Nat.leb n hi)%bool.

Fixpoint utf8_valid (s : string) : bool :=
  match s with
  | EmptyString => true
  | String a t =>
      if byte_in 0 127 a then utf8_valid t
      else if byte_in 194 223 a then
        match t with
        | String b t1 => byte_in 128 191 b && utf8_valid t1
        | _ => false
        end
      else if byte_in 224 239 a then
        match t with
        | String b (String c t2) =>
            (if byte_in 224 224 a then byte_in 160 191 b
             else if byte_in 237 237 a then byte_in 128 159 b
             else byte_in 128 191 b)
            && byte_in 128 191 c && utf8_valid t2
        | _ => false
        end
      else if byte_in 240 244 a then
        match t with
        | String b (String c (String d t3)) =>
            (if byte_in 240 240 a then byte_in 144 191 b
             else if byte_in 244 244 a then byte_in 128 143 b
             else byte_in 128 191 b)
            && byte_in 128 191 c && byte_in 128 191 d && utf8_valid t3
        | _ => false
        end
      else false
  end.

Definition decode_utf8 (raw : string) : option string :=
  if utf8_valid raw then Some raw else None.

(** [s[-1]], when there is one *)
Fixpoint last_char (s : string) : option ascii :=
  match s with
  | EmptyString => None
  | String a t => match last_char t with None => Some a | r => r end
  end.

(** [s.isdigit()] on ASCII, true of the empty string too *)
Fixpoint all_digits (s : string) : bool :=
  match s with
  | EmptyString => true
  | String a t => is_digit a && all_digits t
  end.

(** [str(z)] *)
Definition str_Z (z : Z) : string :=
  if z <? 0 then "-" +:+ str_N (Z.to_N (- z)) else str_N (Z.to_N z).

End Py.

(** ** 4.3 Atomic append writer and time-gap marker *)

Module Writer.

(** A naive [datetime] is a point on the proleptic Gregorian time line,
    counted in microseconds; [timedelta.total_seconds()] compares as the
    difference of two such counts. *)
Definition datetime := Z.

Definition usec_per_sec : Z := 1000000.

Definition is_leap (y : Z) : bool :=
  ((y mod 4 =? 0) && (negb (y mod 100 =? 0) || (y mod 400 =? 0)))%bool.

Definition days_in_month (y m : Z) : Z :=
  if m =? 2 then (if is_leap y then 29 else 28)
  else if (m =? 4) || (m =? 6) || (m =? 9) || (m =? 11) then 30 else 31.

Definition days_before_year (y : Z) : Z :=
  let p := y - 1 in p * 365 + p / 4 - p / 100 + p / 400.

Fixpoint days_before_month_go (y : Z) (m : nat) : Z :=
  match m with
  | O => 0
  | S k => days_before_month_go y k + days_in_month y (Z.of_nat (S k))
  end.

Definition days_before_month (y m : Z) : Z := days_before_month_go y (Z.to_nat (m - 1)).

(** [datetime(y, m, d, H, M, S)], or [None] where the constructor raises
    [ValueError] *)
Definition mk_datetime (y m d H M sec : Z) : option datetime :=
  if (1 <=? y) && (y <=? 9999) && (1 <=? m) && (m <=? 12) && (1 <=? d) &&
     (d <=? days_in_month y m) && (0 <=? H) && (H <=? 23) && (0 <=? M) && (M <=? 59) &&
     (0 <=? sec) && (sec <=? 59)
  then Some (((((days_before_year y + days_before_month y m + d) * 24 + H) * 60 + M) * 60 + sec)
              * usec_per_sec)
  else None.

(** *** [datetime.strptime] for the two formats of the writer *)

(** [\d\d\d\d] *)
Definition take_year (s : string) : option (Z * string) :=
  match s with
  | String a (String b (String c (String d r))) =>
      if Py.is_digit a && Py.is_digit b && Py.is_digit c && Py.is_digit d
      then Some (((Py.digit_val a * 10 + Py.digit_val b) * 10 + Py.digit_val c) * 10
                 + Py.digit_val d, r)
      else None
  | _ => None
  end.

(** A one- or two-digit field ([%m], [%d], [%H], [%M], [%S]).  The
    directive's alternation tries the two-digit forms first and every
    field is followed by a non-digit or by the end of the text, so the
    field is the whole run of at most two digits; [lo] and [hi] bound the
    values the alternation admits. *)
Definition take_field (lo hi : Z) (s : string) : option (Z * string) :=
  match s with
  | String a r =>
      if Py.is_digit a then
        match r with
        | String b r' =>
            if Py.is_digit b then
              let v := Py.digit_val a * 10 + Py.digit_val b in
              if (lo <=? v) && (v <=? hi) then Some (v, r') else None
            else
              let v := Py.digit_val a in
              if (lo <=? v) && (v <=? hi) then Some (v, r) else None
        | EmptyString =>
            let v := Py.digit_val a in
            if (lo <=? v) && (v <=? hi) then Some (v, r) else None
        end
      else None
  | EmptyString => None
  end.

(** [%d] also admits a blank followed by one digit 1-9 *)
Definition take_day (s : string) : option (Z * string) :=
  match s with
  | String " " (String b r) =>
      if Py.is_digit b && (1 <=? Py.digit_val b) then Some (Py.digit_val b, r) else None
  | _ => take_field 1 31 s
  end.

Definition take_lit (c : ascii) (s : string) : option string :=
  match s with
  | String a r => if Ascii.eqb a c then Some r else None
  | EmptyString => None
  end.

(** a blank in the format matches [\s+] *)
Definition take_spaces (s : string) : option string :=
  match s with
  | String a r => if Py.is_space a then Some (Py.lstrip r) else None
  | EmptyString => None
  end.

Definition take_date (s : string) : option (Z * Z * Z * string) :=
  match take_year s with
  | Some (y, s1) =>
      match take_lit "-" s1 with
      | Some s2 =>
          match take_field 1 12 s2 with
          | Some (m, s3) =>
              match take_lit "-" s3 with
              | Some s4 =>
                  match take_day s4 with
                  | Some (d, s5) => Some (y, m, d, s5)
                  | None => None
                  end
              | None => None
              end
          | None => None
          end
      | None => None
      end
  | None => None
  end.

(** [datetime.strptime(s, "%Y-%m-%d %H:%M:%S")] *)
Definition strptime_full (s : string) : option datetime :=
  match take_date s with
  | Some (y, m, d, s1) =>
      match take_spaces s1 with
      | Some s2 =>
          match take_field 0 23 s2 with
          | Some (H, s3) =>
              match take_lit ":" s3 with
              | Some s4 =>
                  match take_field 0 59 s4 with
                  | Some (M, s5) =>
                      match take_lit ":" s5 with
                      | Some s6 =>
                          match take_field 0 61 s6 with
                          | Some (sec, EmptyString) => mk_datetime y m d H M sec
                          | _ => None
                          end
                      | None => None
                      end
                  | None => None
                  end
              | None => None
              end
          | None => None
          end
      | None => None
      end
  | None => None
  end.

(** [datetime.strptime(s, "%Y-%m-%d")] *)
Definition strptime_date (s : string) : option datetime :=
  match take_date s with
  | Some (y, m, d, EmptyString) => mk_datetime y m d 0 0 0
  | _ => None
  end.

(** The [for fmt in (...)] loop of [check_time_gap]: first format that parses *)
Definition parse_timestamp (s : string) : option datetime :=
  match strptime_full s with
  | Some t => Some t
  | None => strptime_date s
  end.

(** *** [re.search(r"\[\[([^\]]+)\]\]", line)] *)

Fixpoint span_not_rbracket (s : string) : string * string :=
  match s with
  | String a t =>
      if Ascii.eqb a "]" then (EmptyString, s)
      else let '(g, r) := span_not_rbracket t in (String a g, r)
  | EmptyString => (EmptyString, EmptyString)
  end.

Definition match_stamp_here (s : string) : option string :=
  match s with
  | String "[" (String "[" r) =>
      let '(g, rest) := span_not_rbracket r in
      match g with
      | EmptyString => None
      | _ => if String.prefix "]]" rest then Some g else None
      end
  | _ => None
  end.

Fixpoint find_stamp (s : string) : option string :=
  match match_stamp_here s with
  | Some g => Some g
  | None => match s with
            | EmptyString => None
            | String _ t => find_stamp t
            end
  end.

(** The time stamp carried by the last line of a log, when it has one
    that parses.  A file that is not UTF-8 makes [f.readlines()] raise,
    and the handler answers "no gap". *)
Definition last_timestamp (text : string) : option datetime :=
  if Py.utf8_valid text then
    match last (Py.readlines text) with
    | Some line =>
        match find_stamp line with
        | Some ts => parse_timestamp ts
        | None => None
        end
    | None => None
    end
  else None.

(** [check_time_gap(file_path, datetime_mode, event_time, gap_seconds)] *)
Definition check_time_gap (files : gmap string string) (file_path datetime_mode : string)
    (event_time : datetime) (gap_seconds : Z) : bool :=
  if String.eqb datetime_mode "none" then false
  else
    match files !! file_path with
    | None => false
    | Some text =>
        match last_timestamp text with
        | Some last_time => gap_seconds * usec_per_sec <=? event_time - last_time
        | None => false
        end
    end.

(** *** [atomic_append] and [_write_to_overflow] *)

(** What the operating system may refuse.  Each flag makes the named call
    of [atomic_append] raise; a refused write leaves the characters
    already stored. *)
Inductive write_fault :=
| NoFault
| OpenFails
| WriteFails (stored : nat).

Record faults := {
  f_mkdir : bool;              (* [file_path.parent.mkdir] *)
  f_mkstemp : bool;            (* [tempfile.mkstemp] *)
  f_read : bool;               (* [file_path.read_text] *)
  f_write : option nat;        (* writing the temporary file, after so many characters *)
  f_move : bool;               (* [shutil.move] *)
  f_overflow : write_fault     (* the append to the overflow file *)
}.

Definition no_faults : faults :=
  {| f_mkdir := false; f_mkstemp := false; f_read := false; f_write := None;
     f_move := false; f_overflow := NoFault |}.

(** [file_path.read_text(encoding="utf-8")] raises: the system refuses
    the read, or the file is not UTF-8 *)
Definition read_fails (F : faults) (old : string) : bool :=
  f_read F || negb (Py.utf8_valid old).

(** [st_size] of a text *)
Definition st_size (text : string) : N := N.of_nat (String.length text).

(** [file_path.parent / f"{file_path.name}.overflow.{n}"] *)
Definition overflow_path (file_path : string) (n : N) : string :=
  file_path +:+ ".overflow." +:+ Py.str_N n.

(** the name [mkstemp(suffix=".tmp", prefix=file_path.name + ".", dir=file_path.parent)]
    returns, [tok] being the random part *)
Definition temp_path (file_path tok : string) : string :=
  file_path +:+ "." +:+ tok +:+ ".tmp".

Definition overflow_usable (files : gmap string string) (p : string) : bool :=
  match files !! p with
  | None => true
  | Some text => (st_size text <? 1000000)%N
  end.

(** The [while True] loop of [_write_to_overflow]: [k] numbers are still
    to be tried, starting at [n]; [None] when the loop returns at
    [n > 100]. *)
Fixpoint find_overflow_from (files : gmap string string) (file_path : string)
    (k : nat) (n : N) : option N :=
  match k with
  | O => None
  | S k' =>
      if overflow_usable files (overflow_path file_path n) then Some n
      else find_overflow_from files file_path k' (n + 1)%N
  end.

Definition find_overflow (files : gmap string string) (file_path : string) : option N :=
  find_overflow_from files file_path 100 1%N.

(** What one append writes: the optional gap line, the entry, a line feed *)
Definition entry_text (content : string) (add_gap : bool) : string :=
  (if add_gap then Py.newline else "") +:+ content +:+ Py.newline.

Definition text_of (o : option string) : string := default "" o.

(** [_write_to_overflow(file_path, content, add_gap)] *)
Definition write_to_overflow (F : faults) (files : gmap string string)
    (file_path content : string) (add_gap : bool) : gmap string string :=
  match find_overflow files file_path with
  | None => files
  | Some n =>
      let p := overflow_path file_path n in
      match f_overflow F with
      | NoFault => <[p := text_of (files !! p) +:+ entry_text content add_gap]> files
      | OpenFails => files
      | WriteFails k =>
          <[p := text_of (files !! p) +:+
                 String.substring 0 k (entry_text content add_gap)]> files
      end
  end.

(** The result of a call: every state of the file system the call went
    through, oldest first, and whether an exception left the call. *)
Record outcome := {
  trace : list (gmap string string);
  raised : bool
}.

Definition final (files : gmap string string) (o : outcome) : gmap string string :=
  default files (last (trace o)).

(** The [except] and [finally] clauses once the temporary file exists *)
Definition recover (F : faults) (s : gmap string string) (temp file_path content : string)
    (add_gap : bool) : list (gmap string string) :=
  let s' := write_to_overflow F s file_path content add_gap in
  [s'; delete temp s'].

(** [atomic_append(file_path, content, add_gap)]; [tok] is the random part
    of the temporary name. *)
Definition atomic_append (F : faults) (tok : string) (files : gmap string string)
    (file_path content : string) (add_gap : bool) : outcome :=
  if f_mkdir F then {| trace := [files]; raised := true |}
  else
    let content := Py.remove_char Py.nul content in
    if f_mkstemp F then
      {| trace := [files; write_to_overflow F files file_path content add_gap];
         raised := false |}
    else
      let temp := temp_path file_path tok in
      let s1 := <[temp := ""]> files in
      let existing :=
        match s1 !! file_path with
        | Some old =>
            if read_fails F old then None
            else Some (Py.remove_char Py.nul (Py.read_text old))
        | None => Some ""
        end in
      match existing with
      | None =>
          {| trace := files :: s1 :: recover F s1 temp file_path content add_gap;
             raised := false |}
      | Some old =>
          let text := old +:+ entry_text content add_gap in
          match f_write F with
          | Some k =>
              let s2 := <[temp := String.substring 0 k text]> s1 in
              {| trace := files :: s1 :: s2 :: recover F s2 temp file_path content add_gap;
                 raised := false |}
          | None =>
              let s2 := <[temp := text]> s1 in
              if f_move F then
                {| trace := files :: s1 :: s2 :: recover F s2 temp file_path content add_gap;
                   raised := false |}
              else
                {| trace := [files; s1; s2; delete temp (<[file_path := text]> s2)];
                   raised := false |}
          end
      end.


End Writer.

(** ** Outcomes of the append, as the specification tells them apart *)

Module WriterSpec.
Import Writer.

(** some step between [mkstemp] and [shutil.move] raises *)
Definition guarded_failure (F : faults) (files : gmap string string) (p : string) : bool :=
  f_mkstemp F
  || match files !! p with
     | Some old => read_fails F old
     | None => false
     end
  || bool_decide (is_Some (f_write F))
  || f_move F.

(** the file system after the fallback, seen from the state before the call *)
Definition overflow_result (F : faults) (files : gmap string string) (p entry : string)
    : gmap string string :=
  match find_overflow files p with
  | Some n =>
      let q := overflow_path p n in
      match f_overflow F with
      | NoFault => <[q := text_of (files !! q) +:+ entry]> files
      | OpenFails => files
      | WriteFails k => <[q := text_of (files !! q) +:+ String.substring 0 k entry]> files
      end
  | None => files
  end.

End WriterSpec.

(** ** Regular expressions, as the script uses them

    A backtracking matcher for the fragment of [re] that occurs in the
    script: literals, character classes, greedy repetition of a class,
    optional and capturing groups, and [$].  Alternatives are tried in
    Python's order (longest repetition first), so the captured groups are
    the ones [re.match] reports. *)

Module Re.

Inductive re :=
| Lit (s : string)                      (* [re.escape(s)], literal text *)
| Cls (p : ascii -> bool)               (* one character of a class *)
| Many (p : ascii -> bool) (least : nat) (* class* (least 0), class+ (least 1) *)
| Seq (r1 r2 : re)
| Opt (r : re)                          (* (r)? *)
| Grp (r : re)                          (* (r), capturing *)
| Eos.                                  (* $ *)

Fixpoint strip_lit (lit s : string) : option string :=
  match lit with
  | EmptyString => Some s
  | String c lit' =>
      match s with
      | String a t => if Ascii.eqb a c then strip_lit lit' t else None
      | EmptyString => None
      end
  end.

Section Matcher.
Context {A : Type}.

Fixpoint many (p : ascii -> bool) (least : nat) (s : string) (n : nat)
    (k : string -> option A) : option A :=
  match s with
  | String a t =>
      if p a then
        match many p least t (S n) k with
        | Some x => Some x
        | None => if Nat.leb least n then k s else None
        end
      else if Nat.leb least n then k s else None
  | EmptyString => if Nat.leb least n then k s else None
  end.

Fixpoint run (r : re) (s : string) (caps : list string)
    (k : string -> list string -> option A) : option A :=
  match r with
  | Lit l => match strip_lit l s with Some t => k t caps | None => None end
  | Cls p =>
      match s with
      | String a t => if p a then k t caps else None
      | EmptyString => None
      end
  | Many p least => many p least s 0 (fun t => k t caps)
  | Seq r1 r2 => run r1 s caps (fun t c => run r2 t c k)
  | Opt r1 =>
      match run r1 s caps k with
      | Some x => Some x
      | None => k s caps
      end
  | Grp r1 =>
      run r1 s caps
        (fun t c => k t (c ++ [String.substring 0 (String.length s - String.length t) s])%list)
  | Eos =>
      match s with
      | EmptyString => k s caps
      | String a EmptyString => if Ascii.eqb a Py.LF then k s caps else None
      | _ => None
      end
  end.

End Matcher.

(** [re.match(r, s)]: the captured groups and the text left after the match *)
Definition rmatch (r : re) (s : string) : option (list string * string) :=
  run r s [] (fun t c => Some (c, t)).

Definition matches (r : re) (s : string) : bool :=
  match rmatch r s with Some _ => true | None => false end.

(** [re.search(r, s)] *)
Fixpoint search (r : re) (s : string) : option (list string * string) :=
  match rmatch r s with
  | Some x => Some x
  | None =>
      match s with
      | EmptyString => None
      | String _ t => search r t
      end
  end.

Definition is_lower (a : ascii) : bool :=
  let n := nat_of_ascii a in (Nat.leb 97 n && Nat.leb n 122)%bool.
Definition is_upper (a : ascii) : bool :=
  let n := nat_of_ascii a in (Nat.leb 65 n && Nat.leb n 90)%bool.

(** [\w], [\d], [.], [[^_]], [[\w.]] on ASCII text *)
Definition word (a : ascii) : bool :=
  is_lower a || is_upper a || Py.is_digit a || Ascii.eqb a "_".
Definition digit (a : ascii) : bool := Py.is_digit a.
Definition dot (a : ascii) : bool := negb (Ascii.eqb a Py.LF).
Definition not_underscore (a : ascii) : bool := negb (Ascii.eqb a "_").
Definition word_or_dot (a : ascii) : bool := word a || Ascii.eqb a ".".

Fixpoint seq (rs : list re) : re :=
  match rs with
  | [] => Lit ""
  | [r] => r
  | r :: rs' => Seq r (seq rs')
  end.

End Re.

(** ** [json.loads]

    The values [json.loads] builds, and a parser for the JSON grammar as
    the [json] module reads it (strict mode; [NaN] and [Infinity]
    accepted).  A number keeps its lexeme; an object keeps its members in
    source order, and [dict] look-up takes the last member of a name. *)

Module Json.

#[local] Set Warnings "-register-all".

Inductive json :=
| JNull
| JBool (b : bool)
| JNum (lexeme : string)
| JStr (s : string)
| JArr (items : list json)
| JObj (members : list (string * json)).

Definition dquote : ascii := Ascii.ascii_of_nat 34.
Definition backslash : ascii := Ascii.ascii_of_nat 92.

(** a text between double quotes *)
Definition quoted (s : string) : string :=
  String dquote s +:+ String dquote EmptyString.

Definition is_ws (a : ascii) : bool :=
  let n := nat_of_ascii a in
  (Nat.eqb n 32 || Nat.eqb n 9 || Nat.eqb n 10 || Nat.eqb n 13)%bool.

Fixpoint skip_ws (s : string) : string :=
  match s with
  | String a t => if is_ws a then skip_ws t else s
  | EmptyString => EmptyString
  end.

Definition hex_val (a : ascii) : option N :=
  let n := N_of_ascii a in
  if (48 <=? n)%N && (n <=? 57)%N then Some (n - 48)%N
  else if (97 <=? n)%N && (n <=? 102)%N then Some (n - 87)%N
  else if (65 <=? n)%N && (n <=? 70)%N then Some (n - 55)%N
  else None.

Definition hex4 (s : string) : option (N * string) :=
  match s with
  | String a (String b (String c (String d r))) =>
      match hex_val a, hex_val b, hex_val c, hex_val d with
      | Some x, Some y, Some z, Some w => Some ((((x * 16 + y) * 16 + z) * 16 + w)%N, r)
      | _, _, _, _ => None
      end
  | _ => None
  end.

Definition byte (n : N) : ascii := ascii_of_N n.

(** the UTF-8 bytes of a code point *)
Definition utf8 (cp : N) : string :=
  if (cp <? 128)%N then String (byte cp) EmptyString
  else if (cp <? 2048)%N then
    String (byte (192 + cp / 64)) (String (byte (128 + cp mod 64)) EmptyString)
  else if (cp <? 65536)%N then
    String (byte (224 + cp / 4096))
      (String (byte (128 + (cp / 64) mod 64)) (String (byte (128 + cp mod 64)) EmptyString))
  else
    String (byte (240 + cp / 262144))
      (String (byte (128 + (cp / 4096) mod 64))
         (String (byte (128 + (cp / 64) mod 64))
            (String (byte (128 + cp mod 64)) EmptyString))).

(** [\uXXXX], with a following low surrogate when [cp] is a high one *)
Definition unicode_escape (s : string) : option (string * string) :=
  match hex4 s with
  | Some (cp, r) =>
      if (55296 <=? cp)%N && (cp <=? 56319)%N then
        match r with
        | String b (String u r') =>
            if Ascii.eqb b backslash && Ascii.eqb u "u" then
              match hex4 r' with
              | Some (lo, r'') =>
                  if (56320 <=? lo)%N && (lo <=? 57343)%N
                  then Some (utf8 (65536 + (cp - 55296) * 1024 + (lo - 56320))%N, r'')
                  else Some (utf8 cp, r)
              | None => Some (utf8 cp, r)
              end
            else Some (utf8 cp, r)
        | _ => Some (utf8 cp, r)
        end
      else Some (utf8 cp, r)
  | None => None
  end.

(** the rest of a string after its opening quote; [acc] is reversed *)
Fixpoint parse_string (fuel : nat) (s acc : string) : option (string * string) :=
  match fuel with
  | O => None
  | S f =>
      match s with
      | EmptyString => None
      | String c t =>
          if Ascii.eqb c dquote then Some (String.rev acc, t)
          else if Ascii.eqb c backslash then
            match t with
            | String e t' =>
                if Ascii.eqb e dquote then parse_string f t' (String dquote acc)
                else if Ascii.eqb e backslash then parse_string f t' (String backslash acc)
                else if Ascii.eqb e "/" then parse_string f t' (String "/" acc)
                else if Ascii.eqb e "b" then parse_string f t' (String (ascii_of_nat 8) acc)
                else if Ascii.eqb e "f" then parse_string f t' (String (ascii_of_nat 12) acc)
                else if Ascii.eqb e "n" then parse_string f t' (String (ascii_of_nat 10) acc)
                else if Ascii.eqb e "r" then parse_string f t' (String (ascii_of_nat 13) acc)
                else if Ascii.eqb e "t" then parse_string f t' (String (ascii_of_nat 9) acc)
                else if Ascii.eqb e "u" then
                  match unicode_escape t' with
                  | Some (bytes, r) => parse_string f r (String.rev bytes +:+ acc)
                  | None => None
                  end
                else None
            | EmptyString => None
            end
          else if Nat.ltb (nat_of_ascii c) 32 then None
          else parse_string f t (String c acc)
      end
  end.

Fixpoint span_digits (s : string) : string * string :=
  match s with
  | String a t =>
      if Py.is_digit a then let '(d, r) := span_digits t in (String a d, r)
      else (EmptyString, s)
  | EmptyString => (EmptyString, EmptyString)
  end.

(** The number pattern of the scanner: an optional minus, [0] or a run
    of digits not starting with [0], an optional fraction, an optional
    exponent; the lexeme and the rest. *)
Definition parse_number (s : string) : option (string * string) :=
  let '(sign, s1) :=
    match s with
    | String "-" t => ("-", t)
    | _ => ("", s)
    end in
  let int_part :=
    match s1 with
    | String "0" t => Some ("0", t)
    | String a _ => if Py.is_digit a then Some (span_digits s1) else None
    | EmptyString => None
    end in
  match int_part with
  | None => None
  | Some (ip, s2) =>
      let '(frac, s3) :=
        match s2 with
        | String "." t =>
            match span_digits t with
            | (EmptyString, _) => ("", s2)
            | (d, r) => ("." +:+ d, r)
            end
        | _ => ("", s2)
        end in
      let '(ex, s4) :=
        match s3 with
        | String e t =>
            if Ascii.eqb e "e" || Ascii.eqb e "E" then
              let '(sg, t') :=
                match t with
                | String "+" u => ("+", u)
                | String "-" u => ("-", u)
                | _ => ("", t)
                end in
              match span_digits t' with
              | (EmptyString, _) => ("", s3)
              | (d, r) => (String e sg +:+ d, r)
              end
            else ("", s3)
        | EmptyString => ("", s3)
        end in
      Some (sign +:+ ip +:+ frac +:+ ex, s4)
  end.

Fixpoint parse_value (fuel : nat) (s : string) : option (json * string) :=
  match fuel with
  | O => None
  | S f =>
      match Re.strip_lit "null" s with
      | Some r => Some (JNull, r)
      | None =>
      match Re.strip_lit "true" s with
      | Some r => Some (JBool true, r)
      | None =>
      match Re.strip_lit "false" s with
      | Some r => Some (JBool false, r)
      | None =>
      match Re.strip_lit "NaN" s with
      | Some r => Some (JNum "NaN", r)
      | None =>
      match Re.strip_lit "Infinity" s with
      | Some r => Some (JNum "Infinity", r)
      | None =>
      match Re.strip_lit "-Infinity" s with
      | Some r => Some (JNum "-Infinity", r)
      | None =>
          match s with
          | String c t =>
              if Ascii.eqb c dquote then
                match parse_string (String.length t + 1) t EmptyString with
                | Some (x, r) => Some (JStr x, r)
                | None => None
                end
              else if Ascii.eqb c "[" then
                match skip_ws t with
                | String "]" r => Some (JArr [], r)
                | t' => parse_items f t' []
                end
              else if Ascii.eqb c "{" then
                match skip_ws t with
                | String "}" r => Some (JObj [], r)
                | t' => parse_members f t' []
                end
              else
                match parse_number s with
                | Some (lexeme, r) => Some (JNum lexeme, r)
                | None => None
                end
          | EmptyString => None
          end
      end end end end end end
  end
with parse_items (fuel : nat) (s : string) (acc : list json) : option (json * string) :=
  match fuel with
  | O => None
  | S f =>
      match parse_value f s with
      | Some (v, r) =>
          match skip_ws r with
          | String "]" r' => Some (JArr (List.rev (v :: acc)), r')
          | String "," r' => parse_items f (skip_ws r') (v :: acc)
          | _ => None
          end
      | None => None
      end
  end
with parse_members (fuel : nat) (s : string) (acc : list (string * json))
    : option (json * string) :=
  match fuel with
  | O => None
  | S f =>
      match s with
      | String c t =>
          if Ascii.eqb c dquote then
            match parse_string (String.length t + 1) t EmptyString with
            | Some (k, r) =>
                match skip_ws r with
                | String ":" r1 =>
                    match parse_value f (skip_ws r1) with
                    | Some (v, r2) =>
                        match skip_ws r2 with
                        | String "}" r' => Some (JObj (List.rev ((k, v) :: acc)), r')
                        | String "," r' => parse_members f (skip_ws r') ((k, v) :: acc)
                        | _ => None
                        end
                    | None => None
                    end
                | _ => None
                end
            | None => None
            end
          else None
      | EmptyString => None
      end
  end.

(** [json.loads(s)]; [None] stands for [JSONDecodeError] *)
Definition loads (s : string) : option json :=
  match parse_value (2 * String.length s + 2) (skip_ws s) with
  | Some (v, r) => match skip_ws r with EmptyString => Some v | _ => None end
  | None => None
  end.

(** [d.get(key)] on a [dict]: the last member of that name *)
Fixpoint get (members : list (string * json)) (key : string) : option json :=
  match members with
  | [] => None
  | (k, v) :: rest =>
      match get rest key with
      | Some w => Some w
      | None => if String.eqb k key then Some v else None
      end
  end.

Fixpoint has_nonzero_digit (s : string) : bool :=
  match s with
  | String a t =>
      if Ascii.eqb a "e" || Ascii.eqb a "E" then false
      else (Py.is_digit a && negb (Ascii.eqb a "0")) || has_nonzero_digit t
  | EmptyString => false
  end.

(** Python truth value *)
Definition truthy (v : json) : bool :=
  match v with
  | JNull => false
  | JBool b => b
  | JNum lexeme => Py.contains "N" lexeme || Py.contains "I" lexeme || has_nonzero_digit lexeme
  | JStr s => negb (String.eqb s "")
  | JArr items => match items with [] => false | _ => true end
  | JObj members => match members with [] => false | _ => true end
  end.

End Json.


(** ** 4.1 Session naming resolver *)

Module Resolver.
Import Json.

(** [Path.home() / ".claude" / "session-states"] *)
Definition state_dir : string := "~/.claude/session-states".

Definition name_cache_path (session_id : string) : string :=
  state_dir +:+ "/" +:+ session_id +:+ ".name-cache".

(** [path.parent / name] *)
Definition sibling (path name : string) : string :=
  match Py.before_last "/" path with
  | Some EmptyString => "/" +:+ name
  | Some dir => dir +:+ "/" +:+ name
  | None => name
  end.

Definition sessions_index_path (transcript_path : string) : string :=
  sibling transcript_path "sessions-index.json".

(** the text of a file, when the file is there and is UTF-8 *)
Definition read_utf8 (files : gmap string string) (path : string) : option string :=
  match files !! path with
  | Some raw => Py.decode_utf8 raw
  | None => None
  end.

(** the two spellings of the type tag looked for in a transcript line *)
Definition title_tag : string := quoted "type" +:+ ":" +:+ quoted "custom-title".
Definition title_tag_spaced : string := quoted "type" +:+ ": " +:+ quoted "custom-title".

Definition has_title_tag (line : string) : bool :=
  Py.contains title_tag line || Py.contains title_tag_spaced line.

(** Method 1, the loop over the lines of the transcript.  A line that
    does not parse is passed over; a line that parses to something other
    than an object makes [entry.get] raise, which ends the loop. *)
Fixpoint scan_transcript (lines : list string) (session_name : json) : json :=
  match lines with
  | [] => session_name
  | line :: rest =>
      if has_title_tag line then
        match loads line with
        | None => scan_transcript rest session_name
        | Some (JObj entry) =>
            match get entry "customTitle" with
            | Some v =>
                if truthy v then scan_transcript rest v
                else scan_transcript rest session_name
            | None => scan_transcript rest session_name
            end
        | Some _ => session_name
        end
      else scan_transcript rest session_name
  end.

(** Method 2, the loop over the entries of the index *)
Fixpoint scan_index (entries : list json) (session_id : string) : json :=
  match entries with
  | [] => JNull
  | JObj entry :: rest =>
      match get entry "sessionId" with
      | Some (JStr sid) =>
          if String.eqb sid session_id then default JNull (get entry "customTitle")
          else scan_index rest session_id
      | _ => scan_index rest session_id
      end
  | _ :: _ => JNull
  end.

(** what Method 2 leaves in [session_name]; every exception is caught
    and leaves [None] *)
Definition index_title (files : gmap string string) (index_path session_id : string) : json :=
  match read_utf8 files index_path with
  | Some text =>
      match loads (Py.read_text text) with
      | Some (JObj index_data) =>
          match get index_data "entries" with
          | Some (JArr entries) => scan_index entries session_id
          | _ => JNull
          end
      | _ => JNull
      end
  | None => JNull
  end.

(** [get_session_name(session_id, transcript_path)]: the value returned
    and the files afterwards.  A transcript that is not UTF-8 ends the
    loop of Method 1 where the decoder meets the offending bytes; the
    lines read before that point are left out here.  The cache is read in
    the encoding of the locale, taken to be UTF-8, and the write to it is
    taken to succeed (a failure is caught and leaves the files as they
    are). *)
Definition get_session_name (files : gmap string string) (session_id transcript_path : string)
    : json * gmap string string :=
  let cache_file := name_cache_path session_id in
  let session_name :=
    if String.eqb transcript_path "" then JNull
    else
      let found :=
        match read_utf8 files transcript_path with
        | Some text => scan_transcript (Py.readlines text) JNull
        | None => JNull
        end in
      if negb (truthy found)
      then index_title files (sessions_index_path transcript_path) session_id
      else found in
  let session_name :=
    if negb (truthy session_name) then
      match read_utf8 files cache_file with
      | Some text =>
          let cached_name := Py.strip (Py.read_text text) in
          if negb (String.eqb cached_name "") then JStr cached_name else session_name
      | None => session_name
      end
    else session_name in
  let files' :=
    if truthy session_name then
      match session_name with
      | JStr name => <[cache_file := name]> files
      | _ => files
      end
    else files in
  (session_name, files').

(** *** Auto-naming *)

Definition GENERIC_FOLDER_NAMES : list string :=
  ["home"; "user"; "users"; "code"; "projects"; "project"; "work";
   "dev"; "development"; "src"; "source"; "app"; "apps"; "local";
   "current"; "main"; "master"; "opt"; "var"; "tmp"; "temp";
   "desktop"; "documents"; "downloads"; "repos"; "repository";
   "github"; "gitlab"; "bitbucket"; "workspace"; "workspaces"].

Definition DRIVE_LETTERS : list string := ["c"; "d"; "e"; "f"; "g"; "h"; "z"].

Definition mem (x : string) (l : list string) : bool := List.existsb (String.eqb x) l.

Definition is_hyphen (a : ascii) : bool := Ascii.eqb a "-".

(** [re.sub(r'-+', '-', s)] *)
Fixpoint collapse_hyphens (s : string) : string :=
  match s with
  | String a t =>
      if is_hyphen a then
        match t with
        | String b _ => if is_hyphen b then collapse_hyphens t else String a (collapse_hyphens t)
        | EmptyString => String a EmptyString
        end
      else String a (collapse_hyphens t)
  | EmptyString => EmptyString
  end.

Definition keep_char (a : ascii) : bool :=
  Re.is_lower a || Re.is_upper a || Py.is_digit a || Ascii.eqb a "_" || Ascii.eqb a "-".

(** [_sanitize_folder_name(name)] *)
Definition sanitize_folder_name (name : string) : string :=
  let replaced := Py.smap (fun a => if keep_char a then a else "-"%char) (Py.lower name) in
  Py.rstrip_chars is_hyphen (Py.lstrip_chars is_hyphen (collapse_hyphens replaced)).

(** [PurePosixPath(cwd).parts] *)
Definition path_parts (cwd : string) : list string :=
  let comps := List.filter (fun c => negb (String.eqb c "") && negb (String.eqb c "."))
                           (Py.split "/" cwd) in
  if String.prefix "/" cwd then "/" :: comps else comps.

Definition drive_punct (a : ascii) : bool :=
  Ascii.eqb a ":" || Ascii.eqb a backslash || Ascii.eqb a "/".

(** a usable part of the path: its sanitized name, its raw name in
    lower case, and whether it is a drive letter *)
Record part := { sanitized : string; raw : string; is_drive : bool }.

(** the loop over [all_parts[-4:]] *)
Fixpoint usable_parts (all_parts : list string) : list part :=
  match all_parts with
  | [] => []
  | p :: rest =>
      let r := Py.rstrip_chars drive_punct p in
      let sn := sanitize_folder_name r in
      if negb (String.eqb sn "")
      then {| sanitized := sn; raw := Py.lower r; is_drive := mem sn DRIVE_LETTERS |}
           :: usable_parts rest
      else usable_parts rest
  end.

Definition last4 (l : list string) : list string := skipn (length l - 4) l.

Definition meaningful (p : part) : bool :=
  negb (mem (raw p) GENERIC_FOLDER_NAMES) && negb (is_drive p).

(** [for i in range(len(parts) - 2, -1, -1)]: the index where the loop
    breaks, counted down from [i]; 0 when it runs out *)
Fixpoint find_start (parts : list part) (i : nat) : nat :=
  match parts !! i with
  | Some p =>
      if meaningful p then i
      else match i with
           | O => O
           | S i' => find_start parts i'
           end
  | None => match i with O => O | S i' => find_start parts i' end
  end.

Definition start_index (parts : list part) : nat :=
  match length parts with
  | O | S O => O
  | S (S n) => find_start parts n
  end.

(** the end of Strategy 2: cut a name longer than 50 characters *)
Definition shorten (path_name : string) : string :=
  if Nat.ltb 50 (String.length path_name)
  then Py.rsplit_head "--" (Py.take 50 path_name)
  else path_name.

(** [derive_session_name_from_cwd(cwd)] *)
Definition derive_session_name_from_cwd (cwd : string) : option string :=
  if String.eqb cwd "" then None
  else
    let parts := usable_parts (last4 (path_parts cwd)) in
    match last parts with
    | None => None
    | Some current =>
        if negb (mem (raw current) GENERIC_FOLDER_NAMES) && negb (is_drive current)
           && Nat.leb 3 (String.length (sanitized current))
        then Some (Py.take 50 (sanitized current))
        else
          let path_parts :=
            List.filter (fun s => Nat.leb 1 (String.length s))
                        (List.map sanitized (skipn (start_index parts) parts)) in
          match path_parts with
          | [] => None
          | _ => Some (shorten (Py.join "--" path_parts))
          end
    end.

(** [apply_auto_name_on_session_start(session_id, transcript_path, cwd, hook_event_name)]:
    the name applied and the files afterwards; the state directory can
    be made and the cache written *)
Definition apply_auto_name_on_session_start (files : gmap string string)
    (session_id transcript_path cwd hook_event_name : string)
    : option string * gmap string string :=
  if negb (String.eqb hook_event_name "SessionStart") then (None, files)
  else
    let '(existing_name, files1) := get_session_name files session_id transcript_path in
    if truthy existing_name then (None, files1)
    else
      match derive_session_name_from_cwd cwd with
      | None => (None, files1)
      | Some auto_name =>
          if String.eqb auto_name "" then (None, files1)
          else (Some auto_name, <[name_cache_path session_id := auto_name]> files1)
      end.

End Resolver.

(** ** 4.4 Run / marker tracker *)

Module Tracker.

(** [SESSION_MARKER_SIGNATURE] *)
Definition SESSION_MARKER_SIGNATURE : string := "═══ SESSION".

Definition run_path (session_id : string) : string :=
  Resolver.state_dir +:+ "/" +:+ session_id +:+ ".run".

Definition started_path (session_id : string) : string :=
  Resolver.state_dir +:+ "/" +:+ session_id +:+ ".started".

(** the reads and the write that can fail with an [OSError] *)
Record faults := {
  f_read_log : bool;
  f_read_cache : bool;
  f_write_cache : bool
}.

Definition no_faults : faults :=
  {| f_read_log := false; f_read_cache := false; f_write_cache := false |}.

Definition marker_lines (text : string) : list string :=
  List.filter (Py.contains SESSION_MARKER_SIGNATURE) (Py.readlines text).

(** [count_session_markers(file_path)] *)
Definition count_session_markers (F : faults) (files : gmap string string)
    (file_path : string) : Z :=
  match files !! file_path with
  | None => 0
  | Some text => if f_read_log F then 0 else Z.of_nat (length (marker_lines text))
  end.

(** [get_run_number(session_id, file_path)]: the number returned and the
    files afterwards *)
Definition get_run_number (F : faults) (files : gmap string string)
    (session_id file_path : string) : Z * gmap string string :=
  let cache_file := run_path session_id in
  let cached :=
    match files !! cache_file with
    | Some text => if f_read_cache F then None else Py.int (Py.strip (Py.read_text text))
    | None => None
    end in
  match cached with
  | Some n => (n, files)
  | None =>
      let marker_count := count_session_markers F files file_path in
      let run_number := marker_count + 1 in
      (run_number,
       if f_write_cache F then files else <[cache_file := Py.str_Z run_number]> files)
  end.

(** [is_new_session_run(session_id)] *)
Definition is_new_session_run (files : gmap string string) (session_id : string) : bool :=
  negb (bool_decide (is_Some (files !! started_path session_id))).

Definition rule : string :=
  "════════════════════════════════════════════════════════════════════════════════".

(** [session_name if session_name else "(unnamed)"] *)
Definition name_part (session_name : option string) : string :=
  match session_name with
  | Some name => if String.eqb name "" then "(unnamed)" else name
  | None => "(unnamed)"
  end.

(** the middle line of the marker; [timestamp_str] is
    [event_time.strftime('%Y-%m-%d %H:%M:%S')] *)
Definition marker_line (run_number : Z) (timestamp_str : string)
    (session_name : option string) : string :=
  "═══ SESSION START  •  " +:+ timestamp_str +:+ "  •  Run #" +:+ Py.str_Z run_number +:+
  "  •  " +:+ name_part session_name.

(** the marker text of [write_session_marker], before [strip] *)
Definition marker (run_number : Z) (timestamp_str : string) (session_name : option string)
    : string :=
  Py.newline +:+ Py.newline +:+
  rule +:+ Py.newline +:+
  marker_line run_number timestamp_str session_name +:+ Py.newline +:+
  rule +:+ Py.newline +:+ Py.newline.

(** [write_session_marker(file_path, run_number, event_time, session_name)] *)
Definition write_session_marker (F : Writer.faults) (tok : string)
    (files : gmap string string) (file_path : string) (run_number : Z)
    (timestamp_str : string) (session_name : option string) : Writer.outcome :=
  Writer.atomic_append F tok files file_path
    (Py.strip (marker run_number timestamp_str session_name)) false.

End Tracker.

(** ** The entry point *)

Module Hook.
Import Json.

(** What an invocation leaves behind: the lines printed on standard
    output, the exit status of the process, and the files.  The
    diagnostic log [hook-debug.log] is not among the files. *)
Record result := {
  stdout : list string;
  exit_code : Z;
  files_after : gmap string string
}.

(** [print('{"continue": true}')] *)
Definition ack : string := "{" +:+ quoted "continue" +:+ ": true}".

Definition acknowledged (files : gmap string string) : result :=
  {| stdout := [ack]; exit_code := 0; files_after := files |}.

(** an exception that leaves [main]: the interpreter prints the
    traceback on standard error and exits with status 1 *)
Definition uncaught (files : gmap string string) : result :=
  {| stdout := []; exit_code := 1; files_after := files |}.

(** [main()], from the read of standard input to [json_input.keys()];
    [handle] is the rest of [main], which runs on the members of a JSON
    object.  The [except] clause names [json.JSONDecodeError] only. *)
Definition main (handle : list (string * json) -> gmap string string -> result)
    (stdin : string) (files : gmap string string) : result :=
  match Py.decode_utf8 stdin with
  | None => uncaught files
  | Some raw_input =>
      match loads raw_input with
      | None => acknowledged files
      | Some (JObj json_input) => handle json_input files
      | Some _ => uncaught files
      end
  end.

End Hook.

(** ** 4.2 Directory / file reconciler *)

Module Reconciler.

(** A file of a session directory.  A directory is the list of its
    entries in the order [iterdir] yields them; renaming an entry keeps
    its place, its modification time and its content. *)
Record entry := { ename : string; emtime : Z; edata : string }.

Definition set_name (e : entry) (n : string) : entry :=
  {| ename := n; emtime := emtime e; edata := edata e |}.

Definition names (d : list entry) : list string := List.map ename d.

(** [path.exists()] for a path inside the directory *)
Definition exists_name (d : list entry) (n : string) : bool :=
  List.existsb (fun e => String.eqb (ename e) n) d.

(** [src.rename(dst)] with the POSIX meaning: an entry already called
    [dst] is replaced *)
Definition rename (d : list entry) (src dst : string) : list entry :=
  List.map (fun e => if String.eqb (ename e) src then set_name e dst else e)
           (List.filter (fun e => negb (String.eqb (ename e) dst)) d).

(** [safe_rename(src, dst)] *)
Definition safe_rename (d : list entry) (src dst : string) : list entry * bool :=
  if String.eqb src dst then (d, true)
  else if exists_name d dst then (d, false)
  else if exists_name d src then (rename d src dst, true)
  else (d, false).

(** Python truth value of an [Optional[str]] *)
Definition truthy (o : option string) : bool :=
  match o with
  | Some s => negb (String.eqb s "")
  | None => false
  end.

(** [f"{seq:03d}"] for a sequence number that is not negative *)
Definition format_03d (seq : Z) : string :=
  let s := Py.str_N (Z.to_N seq) in
  match String.length s with
  | 1%nat => "00" +:+ s
  | 2%nat => "0" +:+ s
  | _ => s
  end.

(** [int(s)] on three decimal digits *)
Definition int3 (s : string) : Z :=
  match s with
  | String a (String b (String c EmptyString)) =>
      (Py.digit_val a * 10 + Py.digit_val b) * 10 + Py.digit_val c
  | _ => 0
  end.

(** [build_filename(prefix, file_type, shell, session_name, session_id, username, seq)] *)
Definition build_filename (prefix file_type shell : string) (session_name : option string)
    (session_id username : string) (seq : option Z) : string :=
  match truthy session_name, session_name with
  | true, Some name =>
      match seq with
      | Some n =>
          "." +:+ prefix +:+ file_type +:+ "_" +:+ shell +:+ "__" +:+ name +:+ "--" +:+
          format_03d n +:+ "__" +:+ session_id +:+ "_" +:+ username +:+ ".log"
      | None =>
          "." +:+ prefix +:+ file_type +:+ "_" +:+ shell +:+ "__" +:+ name +:+ "__" +:+
          session_id +:+ "_" +:+ username +:+ ".log"
      end
  | _, _ =>
      "." +:+ prefix +:+ file_type +:+ "_" +:+ shell +:+ "_" +:+ session_id +:+ "_" +:+
      username +:+ ".log"
  end.

(** the pattern of [find_session_files] *)
Definition session_file_re (prefix file_type session_id : string) : Re.re :=
  Re.seq [Re.Lit "."; Re.Lit prefix; Re.Lit file_type; Re.Lit "_";
          Re.Many Re.not_underscore 1; Re.Lit "_"; Re.Many Re.dot 0;
          Re.Lit session_id; Re.Lit "_"; Re.Many Re.word 1;
          Re.Opt (Re.Grp (Re.Lit ".log")); Re.Eos].

(** [find_session_files(sesslog_dir, session_id, prefix, file_type)] *)
Definition find_session_files (d : list entry) (session_id prefix file_type : string)
    : list entry :=
  List.filter (fun e => Re.matches (session_file_re prefix file_type session_id) (ename e)) d.

(** the pattern of [find_max_sequence] *)
Definition sequence_re (prefix file_type shell session_name session_id username : string)
    : Re.re :=
  Re.seq [Re.Lit "."; Re.Lit prefix; Re.Lit file_type; Re.Lit "_"; Re.Lit shell;
          Re.Lit "__"; Re.Lit session_name; Re.Lit "--";
          Re.Grp (Re.seq [Re.Cls Re.digit; Re.Cls Re.digit; Re.Cls Re.digit]);
          Re.Lit "__"; Re.Lit session_id; Re.Lit "_"; Re.Lit username;
          Re.Opt (Re.Grp (Re.Lit ".log")); Re.Eos].

(** the sequence number a name carries for this session, if any *)
Definition sequence_of (prefix file_type shell session_name session_id username : string)
    (n : string) : option Z :=
  match Re.rmatch (sequence_re prefix file_type shell session_name session_id username) n with
  | Some (g :: _, _) => Some (int3 g)
  | _ => None
  end.

(** [find_max_sequence(...)] *)
Definition find_max_sequence (d : list entry)
    (prefix file_type shell session_name session_id username : string) : Z :=
  fold_left
    (fun max_seq e =>
       match sequence_of prefix file_type shell session_name session_id username (ename e) with
       | Some seq => Z.max max_seq seq
       | None => max_seq
       end)
    d (-1).

(** [has_sequence_number(filepath)]: [re.search(r"--\d{3}__", name)] *)
Definition has_sequence_number (n : string) : bool :=
  match Re.search (Re.seq [Re.Lit "--"; Re.Cls Re.digit; Re.Cls Re.digit; Re.Cls Re.digit;
                           Re.Lit "__"]) n with
  | Some _ => true
  | None => false
  end.

(** [sorted(files, key=lambda f: f.stat().st_mtime)]: a stable sort *)
Fixpoint insert_by_mtime (x : entry) (l : list entry) : list entry :=
  match l with
  | [] => [x]
  | y :: l' => if emtime x <=? emtime y then x :: l else y :: insert_by_mtime x l'
  end.

Definition sort_by_mtime (l : list entry) : list entry :=
  foldr insert_by_mtime [] l.

Section Category.
Variables (session_id : string) (session_name : string) (shell username : string)
          (prefix file_type : string).

Definition target_name : string :=
  build_filename prefix file_type shell (Some session_name) session_id username None.

Definition seq_name (n : Z) : string :=
  build_filename prefix file_type shell (Some session_name) session_id username (Some n).

(** The loop over [older_files] of [reconcile_single_category] *)
Fixpoint sequence_older (d : list entry) (older : list entry) (next_seq : Z) : list entry :=
  match older with
  | [] => d
  | old_file :: rest =>
      if has_sequence_number (ename old_file) then sequence_older d rest next_seq
      else
        let '(d', ok) := safe_rename d (ename old_file) (seq_name next_seq) in
        sequence_older d' rest (if ok then next_seq + 1 else next_seq)
  end.

(** [reconcile_single_category(...)]: the directory afterwards and the
    name of the file to write to *)
Definition reconcile_single_category (d : list entry) : list entry * string :=
  let files := find_session_files d session_id prefix file_type in
  match files with
  | [] => (d, target_name)
  | [only_file] =>
      if String.eqb (ename only_file) target_name then (d, target_name)
      else (fst (safe_rename d (ename only_file) target_name), target_name)
  | _ =>
      let files_sorted := sort_by_mtime files in
      match last files_sorted with
      | None => (d, target_name)
      | Some current_file =>
          let older_files := removelast files_sorted in
          let max_seq :=
            find_max_sequence d prefix file_type shell session_name session_id username in
          let '(d1, max_seq1) :=
            if negb (String.eqb (ename current_file) target_name) then
              if exists_name d target_name then
                let next_seq := max_seq + 1 in
                (fst (safe_rename d (ename current_file) (seq_name next_seq)), next_seq)
              else (fst (safe_rename d (ename current_file) target_name), max_seq)
            else (d, max_seq) in
          (sequence_older d1 older_files (max_seq1 + 1), target_name)
      end
  end.

End Category.

(** [reconcile_session_files(sesslog_dir, session_id, session_name, shell, username)]:
    the directory afterwards and the dict of target names *)
Definition categories : list (string * string) :=
  [("", "sesslog"); ("", "shell"); ("", "tasks");
   ("Python_", "sesslog"); ("Python_", "shell"); ("Python_", "tasks")].

Definition reconcile_session_files (d : list entry) (session_id : string)
    (session_name : option string) (shell username : string)
    : list entry * gmap string string :=
  match truthy session_name, session_name with
  | true, Some name =>
      fold_left
        (fun '(d, targets) '(prefix, file_type) =>
           let '(d', target) :=
             reconcile_single_category session_id name shell username prefix file_type d in
           (d', <[prefix +:+ file_type := target]> targets))
        categories (d, ∅)
  | _, _ => (d, ∅)
  end.

(** *** The session directory *)

(** What [sesslog_base] holds: sub-directories with their files, and
    other items; the list is in [iterdir] order. *)
Inductive node :=
| NDir (files : list entry)
| NFile.

Definition is_dir (n : node) : bool :=
  match n with NDir _ => true | NFile => false end.

Definition base_exists (b : list (string * node)) (n : string) : bool :=
  List.existsb (fun it => String.eqb (fst it) n) b.

(** [sanitize_dirname(name, max_len)] *)
Definition unsafe_char (a : ascii) : bool :=
  let n := nat_of_ascii a in
  (Nat.eqb n 60 || Nat.eqb n 62 || Nat.eqb n 58 || Nat.eqb n 34 || Nat.eqb n 47 ||
   Nat.eqb n 92 || Nat.eqb n 124 || Nat.eqb n 63 || Nat.eqb n 42 || Nat.leb n 31)%bool.

Definition sanitize_dirname (name : string) (max_len : nat) : string :=
  String.substring 0 max_len (Py.smap (fun a => if unsafe_char a then "_"%char else a) name).

(** [build_session_directory(session_name, session_id, username)] *)
Definition build_session_directory (session_name : option string)
    (session_id username : string) : string :=
  match truthy session_name, session_name with
  | true, Some name => sanitize_dirname name 50 +:+ "__" +:+ session_id +:+ "_" +:+ username
  | _, _ => "__" +:+ session_id +:+ "_" +:+ username
  end.

(** [find_directory_by_guid(sesslog_base, session_id)] *)
Fixpoint find_directory_by_guid (b : list (string * node)) (session_id : string)
    : option (string * list entry) :=
  match b with
  | [] => None
  | (n, NDir files) :: b' =>
      if Py.contains session_id n then Some (n, files)
      else find_directory_by_guid b' session_id
  | (_, NFile) :: b' => find_directory_by_guid b' session_id
  end.

(** [extract_name_from_directory(dir_path, session_id)] *)
Definition extract_name_from_directory (dir_name session_id : string) : option string :=
  if String.prefix "__" dir_name then None
  else
    match Re.rmatch (Re.seq [Re.Grp (Re.Many Re.dot 1); Re.Lit "__"; Re.Lit session_id;
                             Re.Lit "_"]) dir_name with
    | Some (g :: _, _) => Some g
    | _ => None
    end.

(** the new name [_rename_files_for_session_change] computes for one file *)
Definition renamed_for_session (old_session_name : option string)
    (new_session_name session_id old_name : string) : option string :=
  match truthy old_session_name, old_session_name with
  | true, Some old =>
      if Py.contains old old_name then Some (Py.replace old new_session_name old_name)
      else None
  | _, _ =>
      match Re.rmatch (Re.seq [Re.Grp (Re.seq [Re.Lit "."; Re.Many Re.word 1; Re.Lit "_";
                                               Re.Many Re.word_or_dot 1]);
                               Re.Lit "_"; Re.Lit session_id; Re.Lit "_"]) old_name with
      | Some (g :: _, rest) =>
          Some (g +:+ "__" +:+ new_session_name +:+ "__" +:+ session_id +:+ "_" +:+ rest)
      | _ => None
      end
  end.

(** [_rename_files_for_session_change(directory, old, new, session_id)]:
    the loop runs over the listing taken before the first rename *)
Fixpoint rename_files_go (d : list entry) (listing : list entry)
    (old_session_name : option string) (new_session_name session_id : string) : list entry :=
  match listing with
  | [] => d
  | f :: rest =>
      let d' :=
        match renamed_for_session old_session_name new_session_name session_id (ename f) with
        | Some new_name =>
            if negb (String.eqb new_name "") && negb (String.eqb new_name (ename f))
               && negb (exists_name d new_name)
            then rename d (ename f) new_name
            else d
        | None => d
        end in
      rename_files_go d' rest old_session_name new_session_name session_id
  end.

Definition rename_files_for_session_change (d : list entry)
    (old_session_name : option string) (new_session_name session_id : string) : list entry :=
  rename_files_go d d old_session_name new_session_name session_id.

Fixpoint replace_item (b : list (string * node)) (n : string) (it : string * node)
    : list (string * node) :=
  match b with
  | [] => []
  | x :: b' => if String.eqb (fst x) n then it :: b' else x :: replace_item b' n it
  end.

(** [reconcile_session_directory(sesslog_base, session_id, expected_name, username)]:
    the base directory afterwards, the name of the directory to use and
    the old session name when the directory was renamed *)
Definition reconcile_session_directory (b : list (string * node)) (session_id : string)
    (expected_name : option string) (username : string)
    : list (string * node) * string * option string :=
  let expected_dir_name := build_session_directory expected_name session_id username in
  if base_exists b expected_dir_name then (b, expected_dir_name, None)
  else
    match find_directory_by_guid b session_id with
    | Some (existing, files) =>
        let old_name := extract_name_from_directory existing session_id in
        let files' :=
          match truthy expected_name, expected_name with
          | true, Some name => rename_files_for_session_change files old_name name session_id
          | _, _ => files
          end in
        (replace_item b existing (expected_dir_name, NDir files'), expected_dir_name, old_name)
    | None => ((b ++ [(expected_dir_name, NDir [])])%list, expected_dir_name, None)
    end.

(** the files of a directory of the base ([iterdir] raises on anything
    else, which the callers catch) *)
Fixpoint dir_files (b : list (string * node)) (n : string) : list entry :=
  match b with
  | [] => []
  | (m, nd) :: b' =>
      if String.eqb m n then match nd with NDir files => files | NFile => [] end
      else dir_files b' n
  end.

Fixpoint set_dir_files (b : list (string * node)) (n : string) (files : list entry)
    : list (string * node) :=
  match b with
  | [] => []
  | (m, nd) :: b' =>
      if String.eqb m n then
        match nd with NDir _ => (m, NDir files) :: b' | NFile => (m, nd) :: b' end
      else (m, nd) :: set_dir_files b' n files
  end.

(** The reconciliation [SessionLogger.__init__] performs: the directory,
    then, for a session with an effective name, every category. *)
Definition logger_reconcile (b : list (string * node)) (session_id : string)
    (effective_name : option string) (shell username : string)
    : list (string * node) * string * gmap string string :=
  let '(b1, session_dir, _) :=
    reconcile_session_directory b session_id effective_name username in
  if truthy effective_name then
    let '(files', targets) :=
      reconcile_session_files (dir_files b1 session_dir) session_id effective_name
        shell username in
    (set_dir_files b1 session_dir files', session_dir, targets)
  else (b1, session_dir, ∅).

End Reconciler.

(** ** The renames the specification describes

    Written from the words of the specification, to be compared with
    [Reconciler.reconcile_single_category]. *)

Module ReconcilerSpec.
Import Reconciler.





Section Category.
Variables (session_id : string) (session_name : string) (shell username : string)
          (prefix file_type : string).

Let t := target_name session_id session_name shell username prefix file_type.
Let s := seq_name session_id session_name shell username prefix file_type.




End Category.

(** every name a category reads or writes starts with this text *)
Definition tag (prefix file_type : string) : string :=
  "." +:+ prefix +:+ file_type +:+ "_".

(** [d'] differs from [d] only in entries whose names carry the tag [q],
    before and after *)
Definition local_change (q : string) (d d' : list entry) : Prop :=
  Forall2 (fun e e' => e = e' \/
             (String.prefix q (ename e) = true /\ String.prefix q (ename e') = true)) d d'.

(** [d] and [d'] have the same entries with the tag [q], at the same places *)
Definition agree (q : string) (d d' : list entry) : Prop :=
  Forall2 (fun e e' => e = e' \/
             (String.prefix q (ename e) = false /\ String.prefix q (ename e') = false)) d d'.



(** the directory after the categories [cs] have been reconciled in turn *)
Definition run_categories (session_id session_name shell username : string)
    (cs : list (string * string)) (d : list entry) : list entry :=
  fold_left
    (fun d c =>
       fst (reconcile_single_category session_id session_name shell username
              (fst c) (snd c) d))
    cs d.

(** the dict [reconcile_session_files] returns for a named session *)
Definition target_dict (session_id session_name shell username : string)
    (cs : list (string * string)) (acc : gmap string string) : gmap string string :=
  fold_left
    (fun acc c =>
       <[fst c +:+ snd c :=
           target_name session_id session_name shell username (fst c) (snd c)]> acc)
    cs acc.

(** no two entries of the listing share a name *)
Fixpoint distinct (l : list string) : bool :=
  match l with
  | [] => true
  | x :: l' => negb (List.existsb (String.eqb x) l') && distinct l'
  end.


(** [format_03d] gives three digits that read back as [k] *)
Definition fmt_ok (k : Z) : bool :=
  match format_03d k with
  | String a (String b (String c EmptyString)) =>
      Re.digit a && Re.digit b && Re.digit c && (int3 (format_03d k) =? k)
  | _ => false
  end.

(** one entry under the renaming of [src] to [dst] *)
Definition rename_one (src dst : string) (e : entry) : entry :=
  if String.eqb (ename e) src then set_name e dst else e.


End ReconcilerSpec.

(** ** The naming rules the specification describes *)

Module ResolverSpec.
Import Json Resolver.








(** (c) the name the cache holds for the session *)
Definition cached_name (files : gmap string string) (session_id : string) : option string :=
  match read_utf8 files (name_cache_path session_id) with
  | Some text =>
      let cached := Py.strip (Py.read_text text) in
      if String.eqb cached "" then None else Some cached
  | None => None
  end.

(** *** The name found *)


(** *** Auto-naming *)

(** the segments of the working directory that count: of its last four
    parts, those with a non-empty sanitized name *)
Definition segments (cwd : string) : list part := usable_parts (last4 (path_parts cwd)).

(** the leaf segment is used alone *)
Definition leaf_alone (leaf : part) : bool :=
  negb (mem (raw leaf) GENERIC_FOLDER_NAMES) && negb (is_drive leaf)
  && Nat.leb 3 (String.length (sanitized leaf)).

(** [i] is the nearest ancestor of the leaf that is neither generic nor
    a drive letter, or the first segment when there is none *)
Definition nearest_ancestor (parts : list part) (i : nat) : Prop :=
  (forall j p, (i < j)%nat -> (S j < length parts)%nat -> parts !! j = Some p ->
               meaningful p = false) /\
  ((S i < length parts)%nat /\ (exists p, parts !! i = Some p /\ meaningful p = true)
   \/ i = O).

(** [r] is the joined name cut at a separator: the first [k] segments,
    joined *)
Definition boundary_cut (segs : list string) (r : string) : Prop :=
  exists k, (0 < k < length segs)%nat /\ r = Py.join "--" (take k segs).

Definition hyphen_first (s : string) : bool :=
  match s with
  | String a _ => is_hyphen a
  | EmptyString => false
  end.

Fixpoint hyphen_last (s : string) : bool :=
  match s with
  | EmptyString => false
  | String a EmptyString => is_hyphen a
  | String _ t => hyphen_last t
  end.

Fixpoint pair_free (s : string) : bool :=
  match s with
  | String a t => negb (is_hyphen a && hyphen_first t) && pair_free t
  | EmptyString => true
  end.

(** a segment name: not empty, no hyphen at either end and no two
    hyphens in a row *)
Definition clean (s : string) : bool :=
  negb (String.eqb s "") && pair_free s && negb (hyphen_first s) && negb (hyphen_last s).

End ResolverSpec.

(** ** The shape of a log the run counter is read from *)

Module TrackerSpec.

(** no character of [s] satisfies [p] *)
Fixpoint avoids (p : ascii -> bool) (s : string) : bool :=
  match s with
  | EmptyString => true
  | String a t => negb (p a) && avoids p t
  end.

Definition is_linebreak (a : ascii) : bool := Ascii.eqb a Py.LF || Ascii.eqb a Py.CR.

Definition is_nul (a : ascii) : bool := Ascii.eqb a Py.nul.

Definition is_cr (a : ascii) : bool := Ascii.eqb a Py.CR.

(** the text is empty or ends with a line feed *)
Definition terminated (s : string) : bool :=
  match Py.last_char s with
  | Some a => Ascii.eqb a Py.LF
  | None => true
  end.

(** a log as [atomic_append] leaves it: UTF-8 text with no null byte
    that, as read, ends with a line feed when there is any *)
Definition written (text : string) : bool :=
  Py.utf8_valid text && avoids is_nul text && terminated (Py.read_text text).

(** a one-line text: no line break in it *)
Definition one_line (s : string) : bool := avoids is_linebreak s.

End TrackerSpec.

(** ** Sample data used by the closed instances below *)

Module Samples.

Definition sample_log : string :=
  "[[2024-03-10 11:00:00]] {Bash: ls }" +:+ Py.newline +:+
  "[[2024-03-10 12:00:00]] {Bash: pwd }" +:+ Py.newline.

Definition log_path : string := "sess/.sesslog_bash_abc-123_alice.log".

Definition fs0 : gmap string string := {[ log_path := sample_log ]}.


(** [mkstemp] fails and so does opening the overflow file, as in a
    directory that has become read-only *)
Definition read_only_dir : Writer.faults :=
  {| Writer.f_mkdir := false; Writer.f_mkstemp := true; Writer.f_read := false;
     Writer.f_write := None; Writer.f_move := false; Writer.f_overflow := Writer.OpenFails |}.



(** The scenario of the specification: an unnamed session with two logs,
    about to be renamed "fix-auth". *)
Definition unnamed_dir : list Reconciler.entry :=
  [ {| Reconciler.ename := ".sesslog_bash_abc-123_alice.log";
       Reconciler.emtime := 10; Reconciler.edata := "entry" |};
    {| Reconciler.ename := ".shell_bash_abc-123_alice.log";
       Reconciler.emtime := 11; Reconciler.edata := "entry" |} ].

Definition unnamed_base : list (string * Reconciler.node) :=
  [("__abc-123_alice", Reconciler.NDir unnamed_dir)].








Definition first_run : Z * gmap string string :=
  Tracker.get_run_number Tracker.no_faults ∅ "abc-123" log_path.



(** Standard input that is no text at all: the single byte 0xFF. *)
Definition undecodable : string := String (Ascii.ascii_of_nat 255) "".

End Samples.

(* ==================================================================== *)
(** ** What reconciliation keeps *)

Module ReconcilerInv.
Import Reconciler.

(** the same files at the same places, whatever their names: the
    modification times and the contents agree *)
Definition same_content (d d' : list entry) : Prop :=
  List.map emtime d = List.map emtime d' /\ List.map edata d = List.map edata d'.

(** the directories of the base whose names hold the session id *)
Definition session_dirs (b : list (string * node)) (session_id : string)
    : list (string * node) :=
  List.filter (fun it => is_dir (snd it) && Py.contains session_id (fst it)) b.

(** what an item of the base holds, whatever the names: for a directory
    the modification times and the contents of its files *)
Definition content (nd : node) : option (list Z * list string) :=
  match nd with
  | NDir files => Some (List.map emtime files, List.map edata files)
  | NFile => None
  end.

End ReconcilerInv.

(** ** Well-formed text *)

Module TextSpec.

(** a byte that stands for an ASCII character *)
Definition is_ascii (a : ascii) : bool := Py.byte_in 0 127 a.

End TextSpec.

(** ** Entry generation *)

Module Entry.
Import Json.

(** [ToolInfo], its fields typed as the dataclass declares them *)
Record ToolInfo := {
  name : string;
  input : list (string * json);
  description : string;
  session_id : string;
  transcript_path : string;
  raw_json : list (string * json)
}.

(** [Config] *)
Record Config := {
  verbosity : Z;
  datetime_mode : string;
  pwd_enabled : bool;
  filter_include : list string;
  action_only : gmap string bool;
  action_only_overrides : gmap string string;
  failure_capture_enabled : bool;
  failure_capture_stderr : bool;
  failure_capture_max_lines : Z
}.

(** [Config()] *)
Definition default_config : Config :=
  {| verbosity := 2;
     datetime_mode := "full";
     pwd_enabled := false;
     filter_include := [];
     action_only :=
       list_to_map [("io", false); ("bash", false); ("todo", true); ("task", false);
                    ("system", false); ("meta", false); ("search", false)];
     action_only_overrides := {["TodoWrite" := "use_category"]};
     failure_capture_enabled := false;
     failure_capture_stderr := true;
     failure_capture_max_lines := 50 |}.

Definition TOOL_CATEGORIES : gmap string string :=
  list_to_map
    [("Bash", "bash");
     ("LS", "system"); ("Glob", "system"); ("Grep", "system"); ("Read", "system");
     ("Write", "io"); ("Edit", "io"); ("MultiEdit", "io"); ("NotebookEdit", "io");
     ("TodoWrite", "todo"); ("TaskCreate", "task"); ("TaskUpdate", "task");
     ("TaskList", "task"); ("TaskGet", "task");
     ("Task", "meta");
     ("WebSearch", "search"); ("WebFetch", "search");
     ("AskUserQuestion", "ui"); ("Skill", "skill")].

(** [categorize_tool(tool_name)] *)
Definition categorize_tool (tool_name : string) : string :=
  if String.prefix "mcp__" tool_name then "mcp"
  else
    match TOOL_CATEGORIES !! tool_name with
    | Some category => if negb (String.eqb category "") then category else "other"
    | None => "other"
    end.

(** the values [parse_bool] tells apart *)
Inductive value :=
| VBool (b : bool)
| VStr (s : string)
| VInt (z : Z)
| VOther.

(** [parse_bool(value, default)] *)
Definition parse_bool (v : value) (default : bool) : bool :=
  match v with
  | VBool b => b
  | VStr s => Resolver.mem (Py.lower s) ["true"; "1"; "yes"]
  | VInt z => negb (z =? 0)
  | VOther => default
  end.

(** [should_log_tool(tool_name, config)] *)
Definition should_log_tool (tool_name : string) (config : Config) : bool :=
  match filter_include config with
  | [] => true
  | _ => Resolver.mem (categorize_tool tool_name) (filter_include config)
  end.

(** [should_use_action_only(tool_name, config)] *)
Definition should_use_action_only (tool_name : string) (config : Config) : bool :=
  let by_category := default false (action_only config !! categorize_tool tool_name) in
  match action_only_overrides config !! tool_name with
  | Some override =>
      if negb (String.eqb override "use_category") then parse_bool (VStr override) false
      else by_category
  | None => by_category
  end.

(** A [datetime] by its fields *)
Record civil := {
  year : Z; month : Z; day : Z;
  hour : Z; minute : Z; second : Z;
  microsecond : Z
}.

(** the place of a [datetime] on the time line; [None] when the fields
    are no date and time *)
Definition instant (ts : civil) : option Writer.datetime :=
  if (0 <=? microsecond ts) && (microsecond ts <=? 999999) then
    option_map (fun t => t + microsecond ts)
      (Writer.mk_datetime (year ts) (month ts) (day ts) (hour ts) (minute ts) (second ts))
  else None.

Definition digit_char (d : Z) : ascii := ascii_of_nat (48 + Z.to_nat d).

(** [%m], [%d], [%H], [%M], [%S]: two decimal digits *)
Definition pad2 (n : Z) : string :=
  String (digit_char (n / 10)) (String (digit_char (n mod 10)) EmptyString).

(** [%Y] for the years from 1000 on: four decimal digits.  What an
    earlier year gives depends on the platform. *)
Definition pad4 (n : Z) : string :=
  String (digit_char (n / 1000)) (String (digit_char (n / 100 mod 10)) (pad2 (n mod 100))).

(** [ts.strftime('%Y-%m-%d')] *)
Definition strftime_date (ts : civil) : string :=
  pad4 (year ts) +:+ "-" +:+ pad2 (month ts) +:+ "-" +:+ pad2 (day ts).

(** [ts.strftime('%Y-%m-%d %H:%M:%S')] *)
Definition strftime_full (ts : civil) : string :=
  strftime_date ts +:+ " " +:+ pad2 (hour ts) +:+ ":" +:+ pad2 (minute ts) +:+ ":" +:+
  pad2 (second ts).

(** [format_datetime(mode, timestamp)] with a time stamp given *)
Definition format_datetime (mode : string) (ts : civil) : string :=
  if String.eqb mode "date" then "[[" +:+ strftime_date ts +:+ "]] "
  else if String.eqb mode "full" then "[[" +:+ strftime_full ts +:+ "]] "
  else "".

(** [generate_entry(tool_info, config, command_content, event_time)];
    [cwd] is [os.getcwd()] and [tool_input_json] is
    [json.dumps(tool_info.input, separators=(",", ":"))] *)
Definition generate_entry (tool_info : ToolInfo) (config : Config) (command_content : string)
    (event_time : civil) (cwd tool_input_json : string) : string :=
  let datetime_part := format_datetime (datetime_mode config) event_time in
  let pwd_part := if pwd_enabled config then " [" +:+ quoted cwd +:+ "]" else "" in
  let content_part :=
    if should_use_action_only (name tool_info) config then name tool_info
    else if verbosity config =? 0 then command_content
    else if verbosity config =? 1 then command_content
    else if verbosity config =? 2 then name tool_info +:+ ": " +:+ command_content
    else if verbosity config =? 3 then
      if negb (String.eqb (description tool_info) "")
      then name tool_info +:+ ": " +:+ command_content +:+ " " +:+ description tool_info
      else name tool_info +:+ ": " +:+ command_content
    else if verbosity config =? 4 then
      name tool_info +:+ ": " +:+ command_content +:+ " " +:+ tool_input_json
    else name tool_info +:+ ": " +:+ command_content in
  datetime_part +:+ "{" +:+ content_part +:+ " }" +:+ pwd_part.

End Entry.

Module EntrySpec.
Import TrackerSpec.

Definition is_rbracket (a : ascii) : bool := Ascii.eqb a "]".

(** a character that is neither a closing bracket, a line break nor a
    null byte *)
Definition plain (a : ascii) : bool :=
  is_rbracket a || is_linebreak a || is_nul a.

(** an event of the morning of 5 January 2026 and the tool it logs *)
Definition sample_time : Entry.civil :=
  {| Entry.year := 2026; Entry.month := 1; Entry.day := 5;
     Entry.hour := 9; Entry.minute := 30; Entry.second := 15;
     Entry.microsecond := 250000 |}.

Definition sample_tool : Entry.ToolInfo :=
  {| Entry.name := "Bash"; Entry.input := []; Entry.description := "";
     Entry.session_id := "abc-123"; Entry.transcript_path := ""; Entry.raw_json := [] |}.

End EntrySpec.

(** ** The session logger *)

Module Logger.
Import Reconciler Tracker.

(** [SessionContext] *)
Record SessionContext := {
  shell_type : string;
  session_name : option string;
  session_id : string;
  username : string
}.

(** [SessionContext.get_filename_context()] *)
Definition get_filename_context (s : SessionContext) : string :=
  match truthy (session_name s), session_name s with
  | true, Some name =>
      shell_type s +:+ "__" +:+ name +:+ "__" +:+ session_id s +:+ "_" +:+ username s
  | _, _ => shell_type s +:+ "_" +:+ session_id s +:+ "_" +:+ username s
  end.

(** [SessionContext.get_task_filename_context()] *)
Definition get_task_filename_context (s : SessionContext) : string :=
  match truthy (session_name s), session_name s with
  | true, Some name =>
      shell_type s +:+ "__" +:+ name +:+ "__" +:+ session_id s +:+ "__" +:+ username s
  | _, _ => shell_type s +:+ "__" +:+ session_id s +:+ "__" +:+ username s
  end.

(** [SessionLogger.FILE_PREFIX] *)
Definition FILE_PREFIX : string := "".

(** A [SessionLogger] once [__init__] has set its attributes.  The dict
    [_target_paths] holds, for a key, the name of the target inside
    [session_dir]. *)
Record SessionLogger := {
  config : Entry.Config;
  session : SessionContext;
  event_time : Entry.civil;
  effective_name : option string;
  session_dir : string;
  target_paths : gmap string string
}.

(** [directory / name] *)
Definition in_dir (directory name : string) : string := directory +:+ "/" +:+ name.

(** [SessionLogger._get_file_path(file_type)]; [None] stands for the
    [ValueError] *)
Definition get_file_path (L : SessionLogger) (file_type : string) : option string :=
  let key := FILE_PREFIX +:+ file_type in
  match target_paths L !! key with
  | Some target => Some (in_dir (session_dir L) target)
  | None =>
      if String.eqb file_type "shell" then
        Some (in_dir (session_dir L)
                ("." +:+ FILE_PREFIX +:+ "shell_" +:+ get_filename_context (session L) +:+ ".log"))
      else if String.eqb file_type "sesslog" then
        Some (in_dir (session_dir L)
                ("." +:+ FILE_PREFIX +:+ "sesslog_" +:+ get_filename_context (session L)
                 +:+ ".log"))
      else if String.eqb file_type "tasks" then
        Some (in_dir (session_dir L)
                ("." +:+ FILE_PREFIX +:+ "tasks_" +:+ get_task_filename_context (session L)
                 +:+ ".log"))
      else None
  end.

Definition shell_log_path (L : SessionLogger) : option string := get_file_path L "shell".
Definition unified_log_path (L : SessionLogger) : option string := get_file_path L "sesslog".
Definition task_log_path (L : SessionLogger) : option string := get_file_path L "tasks".

(** What the operating system may refuse to the logger: the faults of
    the run counter, of each append, and of the flag file of the run. *)
Record faults := {
  f_tracker : Tracker.faults;
  f_shell : Writer.faults;
  f_unified : Writer.faults;
  f_tasks : Writer.faults;
  f_state_dir : bool;          (* [state_dir.mkdir] of [mark_session_started] *)
  f_flag : bool                (* [flag_file.write_text] *)
}.

Definition no_faults : faults :=
  {| f_tracker := Tracker.no_faults; f_shell := Writer.no_faults;
     f_unified := Writer.no_faults; f_tasks := Writer.no_faults;
     f_state_dir := false; f_flag := false |}.

(** [mark_session_started(session_id)]: the files afterwards and whether
    an exception leaves the call; [now] is [str(datetime.now())] *)
Definition mark_session_started (F : faults) (now : string) (files : gmap string string)
    (session_id : string) : gmap string string * bool :=
  if f_state_dir F then (files, true)
  else if f_flag F then (files, false)
  else (<[started_path session_id := now]> files, false).

(** [SessionLogger._maybe_write_session_marker()]: the files afterwards
    and whether an exception leaves the call; [tok1] and [tok2] are the
    random parts of the two temporary names *)
Definition maybe_write_session_marker (F : faults) (tok1 tok2 now : string)
    (L : SessionLogger) (files : gmap string string) : gmap string string * bool :=
  let sid := session_id (session L) in
  if negb (is_new_session_run files sid) then (files, false)
  else
    match unified_log_path L with
    | None => (files, true)
    | Some unified =>
        let '(run_number, files1) := get_run_number (f_tracker F) files sid unified in
        let timestamp_str := Entry.strftime_full (event_time L) in
        match shell_log_path L with
        | None => (files1, true)
        | Some shell =>
            let o1 := write_session_marker (f_shell F) tok1 files1 shell run_number
                        timestamp_str (effective_name L) in
            let files2 := Writer.final files1 o1 in
            if Writer.raised o1 then (files2, true)
            else
              let o2 := write_session_marker (f_unified F) tok2 files2 unified run_number
                          timestamp_str (effective_name L) in
              let files3 := Writer.final files2 o2 in
              if Writer.raised o2 then (files3, true)
              else mark_session_started F now files3 sid
        end
    end.

End Logger.

Module LoggerSpec.
Import Logger.

(** the three lines a session marker adds to a log *)
Definition marker_block (run_number : Z) (timestamp_str : string)
    (session_name : option string) : list string :=
  [Tracker.rule +:+ Py.newline;
   Py.remove_char Py.nul (Tracker.marker_line run_number timestamp_str session_name)
     +:+ Py.newline;
   Tracker.rule +:+ Py.newline].

(** the logger of an unnamed session in its directory *)
Definition sample_logger : SessionLogger :=
  {| config := Entry.default_config;
     session := {| shell_type := "bash"; session_name := None; session_id := "abc-123";
                   username := "alice" |};
     event_time := EntrySpec.sample_time;
     effective_name := None;
     session_dir := "~/.claude/sesslogs/__abc-123_alice";
     target_paths := ∅ |}.

End LoggerSpec.

(** ** Names that are safe in a file name *)

Module ResolverInv.
Import TrackerSpec.

(** a lower-case letter, a digit, an underscore or a hyphen *)
Definition name_char (a : ascii) : bool :=
  Re.is_lower a || Py.is_digit a || Ascii.eqb a "_" || Ascii.eqb a "-".

(** every character of the text is such a character *)
Definition named (s : string) : bool := avoids (fun a => negb (name_char a)) s.

End ResolverInv.

(** ** Names the reconciler recognises *)

Module NamingSpec.
Import TrackerSpec.

Definition is_underscore (a : ascii) : bool := Ascii.eqb a "_".

Definition is_lf (a : ascii) : bool := Ascii.eqb a Py.LF.

(** a shell type as [find_session_files] expects it: it starts with a
    character other than an underscore and holds no line feed *)
Definition shell_like (s : string) : bool :=
  match s with
  | String a _ => negb (is_underscore a) && avoids is_lf s
  | EmptyString => false
  end.

(** a user name made of ASCII letters, digits and underscores *)
Definition word_like (s : string) : bool :=
  negb (String.eqb s "") && avoids (fun a => negb (Re.word a)) s.

End NamingSpec.

(** ** Configuration files *)

Module Settings.
Import Json.

(** the keys of a [dict], in order *)
Definition keys (d : list (string * json)) : list string := List.map fst d.

(** [d[key] = value] on a [dict]: the value of a key that is there is
    replaced, a new key comes last *)
Fixpoint dict_set (d : list (string * json)) (key : string) (value : json)
    : list (string * json) :=
  match d with
  | [] => [(key, value)]
  | (k, w) :: rest =>
      if String.eqb k key then (k, value) :: rest else (k, w) :: dict_set rest key value
  end.

(** the loop of [merge_configs(base, override)], by recursion on the
    override; [base] is copied, the caller's dict is left as it is *)
Fixpoint merge_into (base : list (string * json)) (override : json) {struct override}
    : list (string * json) :=
  match override with
  | JObj items =>
      (fix loop (result : list (string * json)) (items : list (string * json))
         : list (string * json) :=
         match items with
         | [] => result
         | (key, value) :: rest =>
             let result' :=
               match get result key, value with
               | Some (JObj b), JObj _ => dict_set result key (JObj (merge_into b value))
               | _, _ => dict_set result key value
               end in
             loop result' rest
         end) base items
  | _ => base
  end.

(** [merge_configs(base, override)] *)
Definition merge_configs (base override : list (string * json)) : list (string * json) :=
  merge_into base (JObj override).

End Settings.

(** ** Names of the directory-level rename *)

Module RenameSpec.
Import Re.

(** the pattern [_rename_files_for_session_change] matches an unnamed
    file against *)
Definition unnamed_re (sid : string) : re :=
  seq [Grp (seq [Lit "."; Many word 1; Lit "_"; Many word_or_dot 1]);
       Lit "_"; Lit sid; Lit "_"].

(** a text of one or more characters of the class [p] *)
Definition run_of (p : ascii -> bool) (s : string) : bool :=
  negb (String.eqb s "") && TrackerSpec.avoids (fun a => negb (p a)) s.

(** an ASCII character that neither [\w] nor a dot matches, such as the
    hyphen of a GUID *)
Definition separator (a : ascii) : bool :=
  TextSpec.is_ascii a && negb (word_or_dot a).

(** the session id holds such a character *)
Definition has_separator (sid : string) : bool :=
  negb (TrackerSpec.avoids separator sid).

End RenameSpec.

(** ** The three channels of the logger *)

Module LoggerWrite.
Import Reconciler Logger.

(** [SessionLogger.log_entry(entry, tool_category, task_content, event_time)]:
    the files afterwards and whether an exception leaves the call.
    [ts] holds the fields of [event_time or datetime.now()] and [t] is
    the instant they stand for; [tok1], [tok2] and [tok3] are the random
    parts of the temporary names. *)
Definition log_entry (F : faults) (tok1 tok2 tok3 : string) (L : SessionLogger)
    (files : gmap string string) (entry tool_category : string)
    (task_content : option string) (ts : Entry.civil) (t : Writer.datetime)
    : gmap string string * bool :=
  let mode := Entry.datetime_mode (config L) in
  match shell_log_path L with
  | None => (files, true)
  | Some shell =>
      let shell_gap := Writer.check_time_gap files shell mode t 1800 in
      match unified_log_path L with
      | None => (files, true)
      | Some unified =>
          let unified_gap := Writer.check_time_gap files unified mode t 1800 in
          let o1 := Writer.atomic_append (f_shell F) tok1 files shell entry shell_gap in
          let files1 := Writer.final files o1 in
          if Writer.raised o1 then (files1, true)
          else
            let o2 := Writer.atomic_append (f_unified F) tok2 files1 unified entry
                        unified_gap in
            let files2 := Writer.final files1 o2 in
            if Writer.raised o2 then (files2, true)
            else if String.eqb tool_category "task" && truthy task_content then
              let datetime_part := Entry.format_datetime mode ts in
              let task_entry := datetime_part +:+ "{" +:+ default "" task_content +:+ " }" in
              match task_log_path L with
              | None => (files2, true)
              | Some tasks =>
                  let o3 := Writer.atomic_append (f_tasks F) tok3 files2 tasks task_entry
                              false in
                  (Writer.final files2 o3, Writer.raised o3)
              end
            else (files2, false)
      end
  end.

(** [SessionLogger.log_failure(failure_entry)] *)
Definition log_failure (F : faults) (tok1 tok2 : string) (L : SessionLogger)
    (files : gmap string string) (failure_entry : string) : gmap string string * bool :=
  match shell_log_path L with
  | None => (files, true)
  | Some shell =>
      let o1 := Writer.atomic_append (f_shell F) tok1 files shell failure_entry false in
      let files1 := Writer.final files o1 in
      if Writer.raised o1 then (files1, true)
      else
        match unified_log_path L with
        | None => (files1, true)
        | Some unified =>
            let o2 := Writer.atomic_append (f_unified F) tok2 files1 unified failure_entry
                        false in
            (Writer.final files1 o2, Writer.raised o2)
        end
  end.

(** the lines an entry adds to a log *)
Definition entry_lines (entry : string) : list string :=
  Py.readlines (Py.remove_char Py.nul entry +:+ Py.newline).

(** the empty line [atomic_append] puts before an entry after a gap *)
Definition gap_lines (gap : bool) : list string := if gap then [Py.newline] else [].

End LoggerWrite.

(** * Properties *)
(* ==================================================================== *)

(** ** Facts about strings *)

Module StrFacts.

Lemma app_cons (c : ascii) (a b : string) : String c a +:+ b = String c (a +:+ b).
Proof. reflexivity. Qed.

Lemma app_nil_l (a : string) : "" +:+ a = a.
Proof. reflexivity. Qed.

Lemma length_app (a b : string) :
  String.length (a +:+ b) = (String.length a + String.length b)%nat.
Proof.
  induction a as [|c a IH]; [reflexivity|].
  rewrite app_cons. cbn [String.length]. now rewrite IH.
Qed.

Lemma app_assoc (a b c : string) : (a +:+ b) +:+ c = a +:+ (b +:+ c).
Proof.
  induction a as [|x a IH]; [reflexivity|].
  rewrite !app_cons. now rewrite IH.
Qed.

Lemma app_nil_r (a : string) : a +:+ "" = a.
Proof.
  induction a as [|x a IH]; [reflexivity|].
  rewrite app_cons. now rewrite IH.
Qed.

Lemma app_neq_self (a b : string) : b <> "" -> a +:+ b <> a.
Proof.
  intros Hb Heq. apply (f_equal String.length) in Heq.
  rewrite length_app in Heq. destruct b; [congruence | simpl in Heq; lia].
Qed.

Lemma prefix_nil (s : string) : String.prefix "" s = true.
Proof. now destruct s. Qed.

Lemma prefix_cons (a b : ascii) (x y : string) :
  String.prefix (String a x) (String b y) = (if ascii_dec a b then String.prefix x y else false).
Proof. reflexivity. Qed.

Lemma prefix_self_app (x r : string) : String.prefix x (x +:+ r) = true.
Proof.
  induction x as [|a x IH]; [apply prefix_nil|].
  rewrite app_cons, prefix_cons. now destruct (ascii_dec a a).
Qed.

Lemma prefix_app (a x y : string) :
  String.prefix x y = true -> String.prefix (a +:+ x) (a +:+ y) = true.
Proof.
  intros H. induction a as [|c a IH]; [exact H|].
  rewrite !app_cons, prefix_cons. now destruct (ascii_dec c c).
Qed.


Lemma last_char_app (a b : string) : b <> "" -> Py.last_char (a +:+ b) = Py.last_char b.
Proof.
  intros Hb. induction a as [|x a IH]; [reflexivity|].
  rewrite app_cons. cbn [Py.last_char]. rewrite IH.
  destruct b as [|y b]; [congruence|]. cbn [Py.last_char].
  now destruct (Py.last_char b).
Qed.

Lemma last_char_digit (s : string) :
  s <> "" -> Py.all_digits s = true ->
  exists c, Py.last_char s = Some c /\ Py.is_digit c = true.
Proof.
  induction s as [|a t IH]; [congruence|]. intros _ H.
  cbn [Py.all_digits] in H. apply andb_prop in H as [Ha Ht].
  cbn [Py.last_char]. destruct t as [|b t'].
  - exists a. auto.
  - destruct (IH ltac:(discriminate) Ht) as (c & Hc & Hd). rewrite Hc. eauto.
Qed.

Lemma string_of_uint_digits (d : Decimal.uint) :
  Py.all_digits (NilEmpty.string_of_uint d) = true.
Proof. induction d; cbn; auto. Qed.

Lemma str_N_digits (n : N) : Py.all_digits (Py.str_N n) = true.
Proof.
  unfold Py.str_N, NilZero.string_of_uint.
  destruct (N.to_uint n); try apply (string_of_uint_digits (_ _)); reflexivity.
Qed.

Lemma str_N_nonempty (n : N) : Py.str_N n <> "".
Proof.
  unfold Py.str_N, NilZero.string_of_uint.
  destruct (N.to_uint n); cbn; discriminate.
Qed.

End StrFacts.

Module WriterFacts.
Import Writer WriterSpec.


(** *** Names of the temporary and overflow files *)

Lemma temp_path_neq (p tok : string) : temp_path p tok <> p.
Proof. unfold temp_path. apply StrFacts.app_neq_self. intros H. discriminate H. Qed.

Lemma overflow_path_neq (p : string) (n : N) : overflow_path p n <> p.
Proof. unfold overflow_path. apply StrFacts.app_neq_self. intros H. discriminate H. Qed.

Lemma temp_overflow_neq (p tok : string) (n : N) : temp_path p tok <> overflow_path p n.
Proof.
  unfold temp_path, overflow_path. intros Heq.
  apply (f_equal Py.last_char) in Heq.
  rewrite (StrFacts.last_char_app p) in Heq by (intros H; discriminate H).
  rewrite (StrFacts.last_char_app p) in Heq by (intros H; discriminate H).
  change ("." +:+ tok +:+ ".tmp") with (("." +:+ tok) +:+ ".tmp") in Heq.
  rewrite StrFacts.last_char_app in Heq by (intros H; discriminate H).
  rewrite StrFacts.last_char_app in Heq by apply StrFacts.str_N_nonempty.
  destruct (StrFacts.last_char_digit (Py.str_N n)) as (c & Hc & Hd);
    [apply StrFacts.str_N_nonempty | apply StrFacts.str_N_digits |].
  rewrite Hc in Heq. cbn in Heq. injection Heq as <-. discriminate.
Qed.

(** *** The overflow slot *)

Lemma find_overflow_from_ext (f g : gmap string string) p k n :
  (forall m, f !! overflow_path p m = g !! overflow_path p m) ->
  find_overflow_from f p k n = find_overflow_from g p k n.
Proof.
  intros H. revert n. induction k as [|k IH]; intros n; [reflexivity|].
  cbn [find_overflow_from]. unfold overflow_usable. rewrite H, IH. reflexivity.
Qed.


(** *** Success and failure of the guarded steps *)

Lemma write_to_overflow_temp F files p tok text content gap :
  files !! temp_path p tok = None ->
  delete (temp_path p tok)
    (write_to_overflow F (<[temp_path p tok := text]> files) p content gap)
  = overflow_result F files p (entry_text content gap).
Proof.
  intros Hfresh. unfold write_to_overflow, overflow_result, find_overflow.
  rewrite (find_overflow_from_ext (<[temp_path p tok:=text]> files) files).
  2:{ intros m. apply lookup_insert_ne, temp_overflow_neq. }
  destruct (find_overflow_from files p 100 1) as [n|].
  - rewrite (lookup_insert_ne files) by apply temp_overflow_neq.
    destruct (f_overflow F).
    + rewrite delete_insert_ne by apply temp_overflow_neq.
      rewrite delete_insert_eq. by rewrite delete_id.
    + rewrite delete_insert_eq. by rewrite delete_id.
    + rewrite delete_insert_ne by apply temp_overflow_neq.
      rewrite delete_insert_eq. by rewrite delete_id.
  - rewrite delete_insert_eq. by rewrite delete_id.
Qed.



Lemma write_to_overflow_eq F files p content gap :
  write_to_overflow F files p content gap = overflow_result F files p (entry_text content gap).
Proof. reflexivity. Qed.



Lemma recover_final F files p tok text content gap :
  files !! temp_path p tok = None ->
  last (recover F (<[temp_path p tok := text]> files) (temp_path p tok) p content gap)
  = Some (overflow_result F files p (entry_text content gap)).
Proof. intros Hfresh. unfold recover. cbn [last]. by rewrite write_to_overflow_temp. Qed.






(** *** Time gap *)




End WriterFacts.

(** ** Facts about the matcher *)

Module ReFacts.
Import Re.

Lemma strip_lit_app (l x : string) : strip_lit l (l +:+ x) = Some x.
Proof.
  induction l as [|c l IH]; [reflexivity|].
  rewrite StrFacts.app_cons. cbn [strip_lit]. rewrite Ascii.eqb_refl. exact IH.
Qed.

Lemma strip_lit_inv (l s t : string) : strip_lit l s = Some t -> s = l +:+ t.
Proof.
  revert s. induction l as [|c l IH]; intros s H; cbn [strip_lit] in H.
  - injection H as ->. reflexivity.
  - destruct s as [|a s']; [discriminate|].
    destruct (Ascii.eqb_spec a c) as [-> | _]; [|discriminate].
    rewrite StrFacts.app_cons. f_equal. auto.
Qed.

Lemma run_lit_app {A} (l x : string) (r : re) caps (k : string -> list string -> option A) :
  run (Seq (Lit l) r) (l +:+ x) caps k = run r x caps k.
Proof. cbn [run]. now rewrite strip_lit_app. Qed.

Lemma run_lit_last {A} (l x : string) caps (k : string -> list string -> option A) :
  run (Lit l) (l +:+ x) caps k = k x caps.
Proof. cbn [run]. now rewrite strip_lit_app. Qed.

Lemma run_lit_inv {A} (l s : string) (r : re) caps (k : string -> list string -> option A) v :
  run (Seq (Lit l) r) s caps k = Some v -> exists x, s = l +:+ x.
Proof.
  cbn [run]. destruct (strip_lit l s) as [t|] eqn:E; [|discriminate].
  intros _. exists t. now apply strip_lit_inv.
Qed.

Lemma search_app (r : re) (a b : string) :
  rmatch r b <> None -> search r (a +:+ b) <> None.
Proof.
  intros Hb. induction a as [|c a IH].
  - change ("" +:+ b) with b. destruct b; cbn [search]; destruct (rmatch r _); congruence.
  - rewrite StrFacts.app_cons. cbn [search].
    destruct (rmatch r (String c (a +:+ b))); [discriminate | exact IH].
Qed.

Lemma run_lit_split {A} (l s : string) (r : re) caps
    (k : string -> list string -> option A) v :
  run (Seq (Lit l) r) s caps k = Some v ->
  exists x, s = l +:+ x /\ run r x caps k = Some v.
Proof.
  cbn [run]. destruct (strip_lit l s) as [x|] eqn:E; [|discriminate].
  intros H. exists x. split; [now apply strip_lit_inv | exact H].
Qed.

Lemma search_tail (r : re) (a b : string) :
  search r b <> None -> search r (a +:+ b) <> None.
Proof.
  intros Hb. induction a as [|c a IH]; [exact Hb|].
  rewrite StrFacts.app_cons. cbn [search].
  destruct (rmatch r (String c (a +:+ b))); [discriminate | exact IH].
Qed.

Lemma search_here (r : re) (b : string) : rmatch r b <> None -> search r b <> None.
Proof. intros H. destruct b; cbn [search]; destruct (rmatch r _); congruence. Qed.

Lemma substring_head (x t : string) :
  String.substring 0 (String.length (x +:+ t) - String.length t) (x +:+ t) = x.
Proof.
  rewrite StrFacts.length_app, Nat.add_sub.
  induction x as [|c x IH]; cbn [String.length].
  - now destruct (_ +:+ t).
  - rewrite StrFacts.app_cons. cbn [String.substring]. now rewrite IH.
Qed.

Lemma run_three_digits {A} (a b c : ascii) (rest : string) (r : re) caps
    (k : string -> list string -> option A) :
  digit a = true -> digit b = true -> digit c = true ->
  run (Seq (Grp (seq [Cls digit; Cls digit; Cls digit])) r)
      (String a (String b (String c rest))) caps k
  = run r rest (caps ++ [String a (String b (String c EmptyString))])%list k.
Proof.
  intros Ha Hb Hc. cbn [run seq]. rewrite Ha, Hb, Hc.
  change (String a (String b (String c rest)))
    with (String a (String b (String c EmptyString)) +:+ rest).
  now rewrite substring_head.
Qed.

Lemma run_log_suffix {A} caps (k : string -> list string -> option A) v :
  k EmptyString (caps ++ [".log"])%list = Some v ->
  run (Seq (Opt (Grp (Lit ".log"))) Eos) ".log" caps k = Some v.
Proof. intros H. cbn. now rewrite H. Qed.

End ReFacts.

(** ** Facts about the reconciler *)

Module ReconcilerFacts.
Import Reconciler ReconcilerSpec.

(** *** Sequence numbers in file names *)

Lemma fmt_table : forallb fmt_ok (List.map Z.of_nat (seq 0 1000)) = true.
Proof. vm_compute. reflexivity. Qed.

Lemma format_03d_spec (k : Z) :
  0 <= k <= 999 ->
  exists a b c,
    format_03d k = String a (String b (String c EmptyString)) /\
    Re.digit a = true /\ Re.digit b = true /\ Re.digit c = true /\
    int3 (String a (String b (String c EmptyString))) = k.
Proof.
  intros Hk.
  assert (Hin : In k (List.map Z.of_nat (seq 0 1000))).
  { apply in_map_iff. exists (Z.to_nat k). split; [lia|]. apply in_seq. lia. }
  pose proof (proj1 (forallb_forall _ _) fmt_table k Hin) as H.
  unfold fmt_ok in H.
  destruct (format_03d k) as [|a [|b [|c [|? ?]]]] eqn:E; try discriminate.
  apply andb_prop in H as [H Hv]. apply andb_prop in H as [H Hc].
  apply andb_prop in H as [Ha Hb]. apply Z.eqb_eq in Hv.
  exists a, b, c. auto.
Qed.

Section Naming.
Variables (session_id : string) (session_name : string) (shell username : string)
          (prefix file_type : string).
Hypothesis name_given : session_name <> "".

Let t := target_name session_id session_name shell username prefix file_type.
Let s := seq_name session_id session_name shell username prefix file_type.

Lemma truthy_name : truthy (Some session_name) = true.
Proof. cbn. now destruct (String.eqb_spec session_name ""). Qed.

Lemma target_name_eq :
  t = "." +:+ prefix +:+ file_type +:+ "_" +:+ shell +:+ "__" +:+ session_name +:+ "__" +:+
      session_id +:+ "_" +:+ username +:+ ".log".
Proof. unfold t, target_name, build_filename. now rewrite truthy_name. Qed.

Lemma seq_name_eq (k : Z) :
  s k = "." +:+ prefix +:+ file_type +:+ "_" +:+ shell +:+ "__" +:+ session_name +:+ "--" +:+
        format_03d k +:+ "__" +:+ session_id +:+ "_" +:+ username +:+ ".log".
Proof. unfold s, seq_name, build_filename. now rewrite truthy_name. Qed.

Lemma sequence_of_seq_name (k : Z) :
  0 <= k <= 999 ->
  sequence_of prefix file_type shell session_name session_id username (s k) = Some k.
Proof.
  intros Hk. destruct (format_03d_spec k Hk) as (a & b & c & Hf & Ha & Hb & Hc & Hv).
  rewrite seq_name_eq, Hf. unfold sequence_of, sequence_re, Re.rmatch. cbn [Re.seq].
  rewrite !ReFacts.run_lit_app.
  change (String a (String b (String c "")) +:+ "__" +:+ session_id +:+ "_" +:+ username +:+ ".log")
    with (String a (String b (String c ("__" +:+ session_id +:+ "_" +:+ username +:+ ".log")))).
  rewrite ReFacts.run_three_digits by assumption.
  rewrite !ReFacts.run_lit_app.
  erewrite ReFacts.run_log_suffix by reflexivity.
  cbn [app]. now rewrite Hv.
Qed.

Lemma has_sequence_seq_name (k : Z) :
  0 <= k <= 999 -> has_sequence_number (s k) = true.
Proof.
  intros Hk. destruct (format_03d_spec k Hk) as (a & b & c & Hf & Ha & Hb & Hc & Hv).
  rewrite seq_name_eq, Hf. unfold has_sequence_number.
  match goal with |- match ?x with _ => _ end = true =>
    assert (Hx : x <> None); [|destruct x; congruence] end.
  do 7 apply ReFacts.search_tail. apply ReFacts.search_here.
  unfold Re.rmatch. cbn [Re.seq]. rewrite ReFacts.run_lit_app.
  change (String a (String b (String c "")) +:+ "__" +:+ session_id +:+ "_" +:+ username +:+ ".log")
    with (String a (String b (String c ("__" +:+ session_id +:+ "_" +:+ username +:+ ".log")))).
  cbn [Re.run]. rewrite Ha, Hb, Hc. rewrite ReFacts.strip_lit_app. discriminate.
Qed.

Lemma seq_name_inj (j k : Z) :
  0 <= j <= 999 -> 0 <= k <= 999 -> s j = s k -> j = k.
Proof.
  intros Hj Hk H.
  destruct (format_03d_spec j Hj) as (a & b & c & Hf & _ & _ & _ & Hv).
  destruct (format_03d_spec k Hk) as (a' & b' & c' & Hf' & _ & _ & _ & Hv').
  rewrite !seq_name_eq, Hf, Hf' in H.
  do 8 apply (inj (String.app _)) in H.
  rewrite !StrFacts.app_cons in H. injection H as -> -> ->. congruence.
Qed.

Lemma seq_name_neq_target (k : Z) : s k <> t.
Proof.
  rewrite seq_name_eq, target_name_eq. intros H.
  do 7 apply (inj (String.app _)) in H. discriminate H.
Qed.

End Naming.

(** *** Names in a directory *)

Lemma exists_name_In (d : list entry) (n : string) :
  exists_name d n = true <-> In n (names d).
Proof.
  unfold exists_name, names. rewrite existsb_exists, in_map_iff. split.
  - intros (e & He & Hn). apply String.eqb_eq in Hn. eauto.
  - intros (e & Hn & He). exists e. split; [assumption|]. now apply String.eqb_eq.
Qed.

Lemma exists_name_false (d : list entry) (n : string) :
  exists_name d n = false <-> ~ In n (names d).
Proof.
  rewrite <- exists_name_In. destruct (exists_name d n); split; congruence.
Qed.

Lemma find_max_sequence_fold (d : list entry) pre ft sh nm sid un (m0 : Z) :
  m0 <= fold_left
          (fun max_seq e =>
             match sequence_of pre ft sh nm sid un (ename e) with
             | Some q => Z.max max_seq q
             | None => max_seq
             end) d m0 /\
  forall e q, In e d -> sequence_of pre ft sh nm sid un (ename e) = Some q ->
    q <= fold_left
           (fun max_seq e =>
              match sequence_of pre ft sh nm sid un (ename e) with
              | Some q => Z.max max_seq q
              | None => max_seq
              end) d m0.
Proof.
  revert m0. induction d as [|x d IH]; intros m0; cbn [fold_left].
  - split; [lia | intros e q []].
  - destruct (sequence_of pre ft sh nm sid un (ename x)) as [qx|] eqn:Ex.
    + destruct (IH (Z.max m0 qx)) as [Hge Hall]. split; [lia|].
      intros e q [-> | Hin] Hq; [|eauto].
      rewrite Ex in Hq. injection Hq as ->. lia.
    + destruct (IH m0) as [Hge Hall]. split; [lia|].
      intros e q [-> | Hin] Hq; [congruence | eauto].
Qed.

Lemma find_max_sequence_lower d pre ft sh nm sid un :
  -1 <= find_max_sequence d pre ft sh nm sid un.
Proof. apply (find_max_sequence_fold d pre ft sh nm sid un (-1)). Qed.

Lemma find_max_sequence_upper d pre ft sh nm sid un e q :
  In e d -> sequence_of pre ft sh nm sid un (ename e) = Some q ->
  q <= find_max_sequence d pre ft sh nm sid un.
Proof. apply (find_max_sequence_fold d pre ft sh nm sid un (-1)). Qed.

(** *** Renaming *)

Lemma rename_fresh (d : list entry) (src dst : string) :
  ~ In dst (names d) -> rename d src dst = List.map (rename_one src dst) d.
Proof.
  intros Hdst. unfold rename. f_equal.
  induction d as [|e d IH]; [reflexivity|]. cbn [List.filter].
  destruct (String.eqb_spec (ename e) dst) as [E | _]; cbn [negb].
  - exfalso. apply Hdst. left. exact E.
  - f_equal. apply IH. intros H. apply Hdst. right. exact H.
Qed.

Lemma names_rename_one (d : list entry) (src dst : string) :
  names (List.map (rename_one src dst) d)
  = List.map (fun n => if String.eqb n src then dst else n) (names d).
Proof.
  unfold names. rewrite !List.map_map. apply List.map_ext. intros e.
  unfold rename_one. now destruct (String.eqb (ename e) src).
Qed.



Lemma NoDup_rename_one (d : list entry) (src dst : string) :
  List.NoDup (names d) -> ~ In dst (names d) ->
  List.NoDup (names (List.map (rename_one src dst) d)).
Proof.
  intros Hnd Hdst. rewrite names_rename_one.
  induction (names d) as [|n l IH]; [constructor|]. cbn [List.map].
  apply List.NoDup_cons_iff in Hnd as [Hn Hl].
  assert (Hdl : ~ In dst l) by (intros H; apply Hdst; now right).
  constructor; [|now apply IH].
  rewrite in_map_iff. intros (m & Hm & Hin).
  destruct (String.eqb_spec n src) as [E1 | Hne];
    destruct (String.eqb_spec m src) as [E2 | Hme]; subst.
  - contradiction.
  - contradiction.
  - apply Hdst. now left.
  - contradiction.
Qed.


Lemma map_emtime_rename_one (d : list entry) (src dst : string) :
  List.map emtime (List.map (rename_one src dst) d) = List.map emtime d.
Proof.
  rewrite List.map_map. apply List.map_ext. intros e. unfold rename_one.
  now destruct (String.eqb (ename e) src).
Qed.

(** *** Simultaneous renaming *)








(** *** The stable sort *)

Lemma insert_by_mtime_perm (x : entry) (l : list entry) :
  Permutation (insert_by_mtime x l) (x :: l).
Proof.
  induction l as [|y l IH]; cbn [insert_by_mtime]; [reflexivity|].
  destruct (emtime x <=? emtime y); [reflexivity|].
  rewrite IH. apply perm_swap.
Qed.

Lemma sort_by_mtime_perm (l : list entry) : Permutation (sort_by_mtime l) l.
Proof.
  induction l as [|x l IH]; cbn; [reflexivity|].
  unfold sort_by_mtime in IH. rewrite insert_by_mtime_perm. now constructor.
Qed.




Lemma insert_by_mtime_nonempty (x : entry) (l : list entry) : insert_by_mtime x l <> [].
Proof. destruct l as [|y l]; cbn; [discriminate|]. destruct (_ <=? _); discriminate. Qed.



Lemma last_sort_In (l : list entry) (z : entry) :
  last (sort_by_mtime l) = Some z -> In z l.
Proof.
  intros H. apply last_Some in H as [l' H].
  eapply Permutation_in; [apply sort_by_mtime_perm|]. rewrite H.
  apply in_or_app. right. now left.
Qed.




Lemma filter_map_fixed (p : entry -> bool) (g : entry -> entry) (d : list entry) :
  (forall e, In e d -> p e = false -> g e = e) ->
  List.filter p (List.map g d) = List.filter p (List.map g (List.filter p d)).
Proof.
  induction d as [|e d IH]; intros H; [reflexivity|]. cbn [List.map List.filter].
  assert (IH' := IH (fun e' He' => H e' (or_intror He'))).
  destruct (p e) eqn:Pe.
  - cbn [List.map List.filter]. destruct (p (g e)); now rewrite IH'.
  - rewrite (H e (or_introl eq_refl) Pe), Pe. exact IH'.
Qed.





(** *** Changes confined to one category *)

Lemma local_change_refl q d : local_change q d d.
Proof. unfold local_change. induction d; constructor; auto. Qed.

Lemma local_change_trans q d1 d2 d3 :
  local_change q d1 d2 -> local_change q d2 d3 -> local_change q d1 d3.
Proof.
  unfold local_change. intros H12. revert d3.
  induction H12 as [|e1 e2 l1 l2 H _ IH]; intros d3 H23; inversion H23; subst;
    constructor; [|now apply IH].
  match goal with H' : e2 = _ \/ _ |- _ => destruct H as [-> | [? ?]], H' as [-> | [? ?]] end;
    auto.
Qed.



Lemma agree_sym q d1 d2 : agree q d1 d2 -> agree q d2 d1.
Proof.
  unfold agree. induction 1 as [|e1 e2 l1 l2 H _ IH]; constructor; [|assumption].
  destruct H as [-> | [? ?]]; auto.
Qed.


Lemma local_change_rename_one q d src dst :
  String.prefix q src = true -> String.prefix q dst = true ->
  local_change q d (List.map (rename_one src dst) d).
Proof.
  intros Hs Hd. unfold local_change. induction d as [|e d IH]; constructor; [|assumption].
  unfold rename_one. destruct (String.eqb_spec (ename e) src) as [E | _]; [|now left].
  right. rewrite E. auto.
Qed.

Lemma safe_rename_local q d src dst :
  String.prefix q src = true -> String.prefix q dst = true ->
  local_change q d (fst (safe_rename d src dst)).
Proof.
  intros Hs Hd. unfold safe_rename.
  destruct (String.eqb src dst); [apply local_change_refl|].
  destruct (exists_name d dst) eqn:Hex; [apply local_change_refl|].
  destruct (exists_name d src); [|apply local_change_refl]. cbn [fst].
  rewrite rename_fresh by now apply exists_name_false.
  now apply local_change_rename_one.
Qed.

Lemma safe_rename_NoDup d src dst :
  List.NoDup (names d) -> List.NoDup (names (fst (safe_rename d src dst))).
Proof.
  intros Hnd. unfold safe_rename.
  destruct (String.eqb src dst); [assumption|].
  destruct (exists_name d dst) eqn:Hex; [assumption|].
  destruct (exists_name d src); [|assumption]. cbn [fst].
  apply exists_name_false in Hex. rewrite rename_fresh by assumption.
  now apply NoDup_rename_one.
Qed.




Section Sequencing.
Variables (session_id : string) (session_name : string) (shell username : string)
          (prefix file_type : string).
Hypothesis name_given : session_name <> "".

Let t := target_name session_id session_name shell username prefix file_type.
Let s := seq_name session_id session_name shell username prefix file_type.






(** *** A settled category is left alone *)



(** *** One run settles a reconcilable category *)

Let p := fun e : entry =>
  Re.matches (session_file_re prefix file_type session_id) (ename e).

Lemma files_after (g : entry -> entry) (d : list entry) :
  (forall e, In e d -> p e = false -> g e = e) ->
  find_session_files (List.map g d) session_id prefix file_type
  = List.filter p (List.map g (find_session_files d session_id prefix file_type)).
Proof. intros H. unfold find_session_files. fold p. now apply filter_map_fixed. Qed.

Lemma files_In (d : list entry) (e : entry) :
  In e (find_session_files d session_id prefix file_type) -> In e d /\ p e = true.
Proof. unfold find_session_files. fold p. apply filter_In. Qed.




(** *** The category only touches names that carry its tag *)

Let q := tag prefix file_type.

Lemma tag_target : String.prefix q t = true.
Proof.
  unfold t. rewrite target_name_eq by assumption. unfold q, tag.
  do 3 apply StrFacts.prefix_app. apply (StrFacts.prefix_self_app "_").
Qed.

Lemma tag_seq (k : Z) : String.prefix q (s k) = true.
Proof.
  unfold s. rewrite seq_name_eq by assumption. unfold q, tag.
  do 3 apply StrFacts.prefix_app. apply (StrFacts.prefix_self_app "_").
Qed.

Lemma tag_matches (n : string) :
  Re.matches (session_file_re prefix file_type session_id) n = true ->
  String.prefix q n = true.
Proof.
  unfold Re.matches, Re.rmatch, session_file_re. cbn [Re.seq].
  destruct (Re.run _ n _ _) as [v|] eqn:E; [|discriminate]. intros _.
  apply ReFacts.run_lit_split in E as (x1 & -> & E).
  apply ReFacts.run_lit_split in E as (x2 & -> & E).
  apply ReFacts.run_lit_split in E as (x3 & -> & E).
  apply ReFacts.run_lit_split in E as (x4 & -> & E).
  unfold q, tag. do 3 apply StrFacts.prefix_app. apply (StrFacts.prefix_self_app "_").
Qed.


Lemma sequence_older_local (older : list entry) :
  forall (d : list entry) (next : Z),
    (forall o, In o older -> String.prefix q (ename o) = true) ->
    local_change q d
      (sequence_older session_id session_name shell username prefix file_type d older next).
Proof.
  induction older as [|o rest IH]; intros d next Hq; [apply local_change_refl|].
  cbn [sequence_older].
  destruct (has_sequence_number (ename o)); [apply IH; intros; apply Hq; now right|].
  pose proof (safe_rename_local q d (ename o) (seq_name session_id session_name shell
                username prefix file_type next) (Hq o (or_introl eq_refl)) (tag_seq next))
    as Hl.
  destruct (safe_rename d (ename o) _) as [d' ok]. cbn [fst] in Hl.
  eapply local_change_trans; [exact Hl|]. apply IH. intros; apply Hq; now right.
Qed.

Lemma sequence_older_NoDup (older : list entry) :
  forall (d : list entry) (next : Z),
    List.NoDup (names d) ->
    List.NoDup (names (sequence_older session_id session_name shell username prefix
                         file_type d older next)).
Proof.
  induction older as [|o rest IH]; intros d next Hnd; [assumption|].
  cbn [sequence_older]. destruct (has_sequence_number (ename o)); [now apply IH|].
  pose proof (safe_rename_NoDup d (ename o) (seq_name session_id session_name shell
                username prefix file_type next) Hnd) as Hl.
  destruct (safe_rename d (ename o) _) as [d' ok]. cbn [fst] in Hl. now apply IH.
Qed.

Lemma reconcile_local_NoDup (d : list entry) :
  local_change q d
    (fst (reconcile_single_category session_id session_name shell username
            prefix file_type d)) /\
  (List.NoDup (names d) ->
   List.NoDup (names (fst (reconcile_single_category session_id session_name shell
                             username prefix file_type d)))).
Proof.
  unfold reconcile_single_category. fold t.
  assert (Hq : forall e, In e (find_session_files d session_id prefix file_type) ->
                         String.prefix q (ename e) = true).
  { intros e He. apply files_In in He as [_ He]. now apply tag_matches. }
  destruct (find_session_files d session_id prefix file_type) as [|f1 [|f2 fs]] eqn:EF.
  - cbn [fst]. split; [apply local_change_refl | auto].
  - destruct (String.eqb (ename f1) t); cbn [fst].
    + split; [apply local_change_refl | auto].
    + split; [apply safe_rename_local; [apply Hq; now left | apply tag_target]
             | apply safe_rename_NoDup].
  - set (F := f1 :: f2 :: fs) in *.
    destruct (last (sort_by_mtime F)) as [cur|] eqn:Hlast;
      [|cbn [fst]; split; [apply local_change_refl | auto]].
    assert (Hcur : String.prefix q (ename cur) = true).
    { apply Hq. now apply last_sort_In. }
    assert (Holder : forall o, In o (removelast (sort_by_mtime F)) ->
                               String.prefix q (ename o) = true).
    { intros o Ho. apply Hq. eapply Permutation_in; [apply sort_by_mtime_perm|].
      apply last_Some in Hlast as [l' Hl]. rewrite Hl, removelast_last in Ho.
      rewrite Hl. apply in_or_app. now left. }
    match goal with
    | |- context [let '(d1, max_seq1) := ?X in _] =>
        assert (Hd1 : local_change q d (fst X) /\
                      (List.NoDup (names d) -> List.NoDup (names (fst X))));
          [|destruct X as [d1 m1]]
    end.
    { destruct (negb (String.eqb (ename cur) t)); cbn [fst];
        [|split; [apply local_change_refl | auto]].
      destruct (exists_name d t); cbn [fst].
      - split; [apply safe_rename_local; [exact Hcur | apply tag_seq]
               | apply safe_rename_NoDup].
      - split; [apply safe_rename_local; [exact Hcur | apply tag_target]
               | apply safe_rename_NoDup]. }
    cbn [fst] in *. destruct Hd1 as [Hd1 Hnd1]. split.
    + eapply local_change_trans; [exact Hd1|]. now apply sequence_older_local.
    + intros Hnd. apply sequence_older_NoDup. auto.
Qed.





End Sequencing.

(** *** All categories *)




Section Run.
Variables (session_id session_name shell username : string).
Hypothesis name_given : session_name <> "".

Let run := run_categories session_id session_name shell username.

Lemma run_cons c cs d :
  run (c :: cs) d
  = run cs (fst (reconcile_single_category session_id session_name shell username
                   (fst c) (snd c) d)).
Proof. reflexivity. Qed.


Lemma run_NoDup cs : forall d, List.NoDup (names d) -> List.NoDup (names (run cs d)).
Proof.
  induction cs as [|c cs IH]; intros d Hnd; [assumption|].
  rewrite run_cons. apply IH.
  now apply (reconcile_local_NoDup session_id session_name shell username (fst c) (snd c)
               name_given d).
Qed.



Lemma reconcile_target prefix file_type d :
  snd (reconcile_single_category session_id session_name shell username prefix file_type d)
  = target_name session_id session_name shell username prefix file_type.
Proof.
  unfold reconcile_single_category.
  destruct (find_session_files d session_id prefix file_type) as [|f1 [|f2 fs]];
    [reflexivity| |].
  - now destruct (String.eqb (ename f1) _).
  - destruct (last _); [|reflexivity].
    now destruct (if negb _ then _ else _).
Qed.

Lemma reconcile_session_files_run (d : list entry) :
  reconcile_session_files d session_id (Some session_name) shell username
  = (run categories d,
     target_dict session_id session_name shell username categories ∅).
Proof.
  unfold reconcile_session_files. rewrite truthy_name by assumption.
  unfold run, run_categories, target_dict.
  generalize (∅ : gmap string string) as acc. revert d.
  induction categories as [|[pre ft] cs IH]; intros d acc; [reflexivity|].
  cbn [fold_left fst snd].
  pose proof (reconcile_target pre ft d) as Ht.
  destruct (reconcile_single_category session_id session_name shell username pre ft d)
    as [d' target].
  cbn [fst snd] in *. subst target. apply IH.
Qed.


End Run.

(** *** The session directory *)

Lemma base_exists_app b n x : base_exists (b ++ [(n, x)]) n = true.
Proof.
  unfold base_exists. rewrite existsb_app. cbn. rewrite String.eqb_refl.
  now rewrite orb_true_r.
Qed.







Lemma distinct_NoDup (l : list string) : distinct l = true -> List.NoDup l.
Proof.
  induction l as [|x l IH]; intros H; [constructor|]. cbn [distinct] in H.
  apply andb_prop in H as [Hx Hl]. constructor; [|auto].
  intros Hin. apply negb_true_iff in Hx.
  assert (List.existsb (String.eqb x) l = true); [|congruence].
  apply existsb_exists. exists x. split; [assumption | apply String.eqb_refl].
Qed.





(** C10: without an effective session name [reconcile_session_files]
    returns the empty dict and the directory as it was, and the
    reconciliation of [SessionLogger.__init__] stops after the directory
    step, so the per-category renaming leaves the files of an unnamed
    session alone. *)
Theorem reconcile_session_files_unnamed d b sid name shell user :
  truthy name = false ->
  reconcile_session_files d sid name shell user = (d, ∅) /\
  logger_reconcile b sid name shell user
  = (fst (fst (reconcile_session_directory b sid name user)),
     snd (fst (reconcile_session_directory b sid name user)), ∅).
Proof.
  intros H. split.
  - unfold reconcile_session_files. rewrite H. now destruct name.
  - unfold logger_reconcile.
    destruct (reconcile_session_directory b sid name user) as [[b1 dir] old].
    now rewrite H.
Qed.

Lemma reconcile_session_files_unnamed_witness :
  truthy (Some "") = false /\
  reconcile_session_files Samples.unnamed_dir "abc-123" (Some "") "bash" "alice"
  = (Samples.unnamed_dir, ∅) /\
  reconcile_session_files Samples.unnamed_dir "abc-123" None "bash" "alice"
  = (Samples.unnamed_dir, ∅).
Proof.
  split; [reflexivity|]. split.
  - apply (reconcile_session_files_unnamed Samples.unnamed_dir Samples.unnamed_base
             "abc-123" (Some "") "bash" "alice"). reflexivity.
  - apply (reconcile_session_files_unnamed Samples.unnamed_dir Samples.unnamed_base
             "abc-123" None "bash" "alice"). reflexivity.
Defined.

End ReconcilerFacts.

(** ** Facts about the naming resolver *)

Module ResolverFacts.
Import Json Resolver ResolverSpec.

(** *** The last separator of a string *)

Lemma prefix_sep (a : ascii) (t : string) :
  String.prefix "--" (String a t) = is_hyphen a && hyphen_first t.
Proof.
  rewrite StrFacts.prefix_cons. unfold is_hyphen.
  destruct (ascii_dec "-" a) as [<- | Hne].
  - cbn [Ascii.eqb Bool.eqb andb]. destruct t as [|b t]; [reflexivity|].
    rewrite StrFacts.prefix_cons, StrFacts.prefix_nil. cbn [hyphen_first]. unfold is_hyphen.
    destruct (ascii_dec "-" b) as [<- | Hb]; [reflexivity|].
    symmetry. apply Ascii.eqb_neq. congruence.
  - replace (Ascii.eqb a "-") with false; [reflexivity|].
    symmetry. apply Ascii.eqb_neq. congruence.
Qed.

Lemma before_last_cons (a : ascii) (t : string) :
  Py.before_last "--" (String a t)
  = match Py.before_last "--" t with
    | Some pre => Some (String a pre)
    | None => if is_hyphen a && hyphen_first t then Some "" else None
    end.
Proof. cbn [Py.before_last]. by rewrite prefix_sep. Qed.

Lemma before_last_none (s : string) :
  Py.before_last "--" s = None <-> pair_free s = true.
Proof.
  induction s as [|a t IH]; [done|].
  rewrite before_last_cons. cbn [pair_free].
  destruct (Py.before_last "--" t) as [pre|].
  - split; [discriminate|]. intros [_ H]%andb_prop. apply IH in H. discriminate.
  - destruct IH as [IH _]. rewrite (IH eq_refl), andb_true_r.
    by destruct (is_hyphen a && hyphen_first t).
Qed.

(** a separator found in the tail is the last one of the whole string *)
Lemma before_last_app (x y r : string) :
  Py.before_last "--" y = Some r -> Py.before_last "--" (x +:+ y) = Some (x +:+ r).
Proof.
  intros H. induction x as [|a x IH]; [exact H|].
  rewrite !StrFacts.app_cons, before_last_cons. by rewrite IH.
Qed.

(** the separator before a tail with none in it is the last one *)
Lemma before_last_sep (x y : string) :
  pair_free y = true -> hyphen_first y = false ->
  Py.before_last "--" (x +:+ "--" +:+ y) = Some x.
Proof.
  intros Hy Hf. induction x as [|a x IH].
  - change ("" +:+ "--" +:+ y) with (String "-" (String "-" y)).
    rewrite !before_last_cons. apply before_last_none in Hy. rewrite Hy.
    cbn [hyphen_first]. unfold is_hyphen at 1 2 3. cbn [Ascii.eqb Bool.eqb andb].
    by rewrite Hf.
  - by rewrite StrFacts.app_cons, before_last_cons, IH.
Qed.

Lemma pair_free_prefix (x z : string) : pair_free (x +:+ z) = true -> pair_free x = true.
Proof.
  induction x as [|a x IH]; [done|].
  rewrite StrFacts.app_cons. cbn [pair_free]. intros [H1 H2]%andb_prop.
  rewrite (IH H2), andb_true_r. destruct x as [|b x]; [by rewrite andb_false_r|].
  exact H1.
Qed.

Lemma pair_free_snoc (s : string) :
  pair_free s = true -> hyphen_last s = false -> pair_free (s +:+ "-") = true.
Proof.
  induction s as [|a t IH]; [done|].
  rewrite StrFacts.app_cons. cbn [pair_free]. intros [H1 H2]%andb_prop Hl.
  destruct t as [|b t].
  - cbn in Hl. cbn. by rewrite Hl.
  - rewrite IH; [|done|exact Hl]. rewrite andb_true_r. exact H1.
Qed.

Lemma app_eq_app (p z x y : string) :
  p +:+ z = x +:+ y ->
  (exists w, x = p +:+ w /\ z = w +:+ y) \/ (exists w, p = x +:+ w /\ y = w +:+ z).
Proof.
  revert x. induction p as [|a p IH]; intros x H.
  - left. by exists x.
  - destruct x as [|b x]; [right; by exists (String a p)|].
    rewrite !StrFacts.app_cons in H. injection H as -> H.
    destruct (IH _ H) as [(w & -> & ->) | (w & -> & ->)]; [left|right]; by exists w.
Qed.

Lemma join_cons (sep x y : string) (l : list string) :
  Py.join sep (x :: y :: l) = x +:+ sep +:+ Py.join sep (y :: l).
Proof. reflexivity. Qed.

Lemma join_head (sep x : string) (l : list string) :
  exists t, Py.join sep (x :: l) = x +:+ t.
Proof.
  destruct l as [|y l]; [exists ""; by rewrite StrFacts.app_nil_r|].
  by exists (sep +:+ Py.join sep (y :: l)).
Qed.

Lemma clean_inv (s : string) :
  clean s = true ->
  pair_free s = true /\ hyphen_last s = false /\
  exists a t, s = String a t /\ is_hyphen a = false.
Proof.
  unfold clean. intros [[[H1 H2]%andb_prop H3]%andb_prop H4]%andb_prop.
  apply negb_true_iff in H3, H4. repeat split; [done..|].
  destruct s as [|a t]; [discriminate|]. by exists a, t.
Qed.

(** a prefix of the joined name, cut at its last separator, is the
    join of the first segments *)
Lemma cut_at_boundary (segs : list string) :
  Forall (fun s => clean s = true) segs ->
  forall p z r,
    p +:+ z = Py.join "--" segs ->
    Py.before_last "--" p = Some r ->
    boundary_cut segs r.
Proof.
  induction segs as [|s [|s2 rest] IH]; intros Hc p z r Hp Hr.
  - destruct p; [discriminate|]. discriminate.
  - apply Forall_cons in Hc as [(Hf & _)%clean_inv _]. cbn [Py.join] in Hp.
    rewrite <- Hp in Hf. apply pair_free_prefix, before_last_none in Hf. congruence.
  - apply Forall_cons in Hc as [(Hf & Hl & _)%clean_inv Hc].
    rewrite join_cons in Hp.
    destruct (app_eq_app _ _ _ _ Hp) as [(w & Hs & _) | (w & -> & Hw)].
    { rewrite Hs in Hf. apply pair_free_prefix, before_last_none in Hf. congruence. }
    destruct w as [|c1 [|c2 w]].
    + rewrite StrFacts.app_nil_r in Hr. apply before_last_none in Hf. congruence.
    + rewrite StrFacts.app_cons in Hw. injection Hw as <- _.
      apply (pair_free_snoc _ Hf), before_last_none in Hl. congruence.
    + rewrite !StrFacts.app_cons in Hw. injection Hw as <- <- Hw.
      change (Py.join "--" (s2 :: rest) = w +:+ z) in Hw.
      destruct (Py.before_last "--" w) as [r'|] eqn:Ew.
      * destruct (IH Hc w z r' (eq_sym Hw) Ew) as (k & [Hk1 Hk2] & ->).
        rewrite (before_last_app s _ ("--" +:+ Py.join "--" (take k (s2 :: rest)))) in Hr.
        2:{ by apply (before_last_app "--"). }
        injection Hr as <-. exists (S k). split; [cbn [length] in *; lia|].
        destruct k as [|k]; [lia|]. reflexivity.
      * apply before_last_none in Ew.
        assert (Hh : hyphen_first w = false).
        { apply Forall_cons in Hc as [(_ & _ & a & t & -> & Ha)%clean_inv _].
          destruct (join_head "--" (String a t) rest) as [u Hu].
          rewrite Hu, StrFacts.app_cons in Hw.
          destruct w as [|c w]; [done|]. rewrite StrFacts.app_cons in Hw.
          injection Hw as -> _. exact Ha. }
        change (s +:+ String "-" (String "-" w)) with (s +:+ "--" +:+ w) in Hr.
        rewrite (before_last_sep s w Ew Hh) in Hr. injection Hr as <-.
        exists 1%nat. split; [cbn [length]; lia|reflexivity].
Qed.

(** *** Sanitized names are clean *)

Lemma collapse_hyphens_first (s : string) :
  hyphen_first (collapse_hyphens s) = hyphen_first s.
Proof.
  induction s as [|a t IH]; [done|]. cbn [collapse_hyphens].
  destruct (is_hyphen a) eqn:Ea; [|by cbn; rewrite Ea].
  destruct t as [|b t]; [by cbn; rewrite Ea|].
  destruct (is_hyphen b) eqn:Eb; [|by cbn; rewrite Ea].
  rewrite IH. cbn. by rewrite Ea, Eb.
Qed.

Lemma collapse_hyphens_pair_free (s : string) : pair_free (collapse_hyphens s) = true.
Proof.
  induction s as [|a t IH]; [done|]. cbn [collapse_hyphens].
  destruct (is_hyphen a) eqn:Ea.
  - destruct t as [|b t]; [by cbn; rewrite andb_false_r|].
    destruct (is_hyphen b) eqn:Eb; [exact IH|].
    cbn [pair_free]. rewrite IH, collapse_hyphens_first. cbn [hyphen_first].
    by rewrite Ea, Eb.
  - cbn [pair_free]. by rewrite IH, Ea.
Qed.

Lemma pair_free_tail (a : ascii) (t : string) : pair_free (String a t) = true -> pair_free t = true.
Proof. cbn [pair_free]. by intros [_ H]%andb_prop. Qed.

Lemma lstrip_pair_free (s : string) :
  pair_free s = true -> pair_free (Py.lstrip_chars is_hyphen s) = true.
Proof.
  induction s as [|a t IH]; [done|]. intros H. cbn [Py.lstrip_chars].
  destruct (is_hyphen a); [|exact H]. by apply IH, (pair_free_tail a).
Qed.

Lemma lstrip_first (s : string) : hyphen_first (Py.lstrip_chars is_hyphen s) = false.
Proof.
  induction s as [|a t IH]; [done|]. cbn [Py.lstrip_chars].
  by destruct (is_hyphen a) eqn:Ea; [|cbn].
Qed.

Lemma rstrip_prefix (p : ascii -> bool) (s : string) :
  exists z, s = Py.rstrip_chars p s +:+ z.
Proof.
  induction s as [|a t [z IH]]; [by exists ""|]. cbn [Py.rstrip_chars].
  destruct (Py.rstrip_chars p t) as [|b r].
  - destruct (p a); [by exists (String a t)|]. exists t. reflexivity.
  - exists z. by rewrite StrFacts.app_cons, <- IH.
Qed.

Lemma rstrip_pair_free (s : string) :
  pair_free s = true -> pair_free (Py.rstrip_chars is_hyphen s) = true.
Proof.
  intros H. destruct (rstrip_prefix is_hyphen s) as [z Hz].
  rewrite Hz in H. by apply pair_free_prefix in H.
Qed.

Lemma rstrip_first (s : string) :
  hyphen_first s = false -> hyphen_first (Py.rstrip_chars is_hyphen s) = false.
Proof.
  destruct s as [|a t]; [done|]. cbn [hyphen_first Py.rstrip_chars]. intros Ha.
  destruct (Py.rstrip_chars is_hyphen t); [by rewrite Ha; cbn|exact Ha].
Qed.

Lemma rstrip_last (s : string) : hyphen_last (Py.rstrip_chars is_hyphen s) = false.
Proof.
  induction s as [|a t IH]; [done|]. cbn [Py.rstrip_chars].
  destruct (Py.rstrip_chars is_hyphen t) as [|b r].
  - by destruct (is_hyphen a) eqn:Ea; [|cbn].
  - exact IH.
Qed.

Lemma sanitize_clean (name : string) :
  sanitize_folder_name name <> "" -> clean (sanitize_folder_name name) = true.
Proof.
  unfold sanitize_folder_name, clean. intros Hne.
  rewrite rstrip_pair_free, rstrip_first, rstrip_last.
  - rewrite !andb_true_r. apply negb_true_iff. by apply String.eqb_neq.
  - apply lstrip_first.
  - apply lstrip_pair_free, collapse_hyphens_pair_free.
Qed.

Lemma usable_parts_clean (l : list string) :
  Forall (fun p => clean (sanitized p) = true) (usable_parts l).
Proof.
  induction l as [|x l IH]; [constructor|]. cbn [usable_parts].
  destruct (String.eqb_spec (sanitize_folder_name (Py.rstrip_chars drive_punct x)) "") as [E|Hne];
    cbn [negb]; [exact IH|].
  constructor; [|exact IH]. cbn [sanitized]. by apply sanitize_clean.
Qed.

(** *** The walk to the nearest ancestor *)

Lemma find_start_spec (parts : list part) (n : nat) :
  (find_start parts n <= n)%nat /\
  (forall j p, (find_start parts n < j <= n)%nat -> parts !! j = Some p ->
               meaningful p = false) /\
  ((exists p, parts !! find_start parts n = Some p /\ meaningful p = true)
   \/ find_start parts n = O).
Proof.
  induction n as [|n (IH1 & IH2 & IH3)].
  - assert (E : find_start parts 0 = O).
    { cbn. destruct (parts !! 0%nat) as [p|]; [by destruct (meaningful p)|done]. }
    rewrite E. split; [lia|]. split; [intros; lia|by right].
  - cbn [find_start]. destruct (parts !! S n) as [p|] eqn:Ep.
    + destruct (meaningful p) eqn:Em.
      * split; [lia|]. split; [intros; lia|]. left. by exists p.
      * split; [lia|]. split; [|exact IH3]. intros j q Hj Hq.
        destruct (decide (j = S n)) as [-> | Hne]; [congruence|].
        apply (IH2 j); [lia|done].
    + split; [lia|]. split; [|exact IH3]. intros j q Hj Hq.
      destruct (decide (j = S n)) as [-> | Hne]; [congruence|].
      apply (IH2 j); [lia|done].
Qed.

Lemma start_index_nearest (parts : list part) :
  nearest_ancestor parts (start_index parts) /\ (start_index parts < length parts \/ parts = [])%nat.
Proof.
  unfold start_index, nearest_ancestor.
  destruct parts as [|p1 [|p2 rest]].
  - split; [|by right]. split; [cbn; intros; lia|by right].
  - split; [|left; cbn; lia]. split; [cbn; intros; lia|by right].
  - cbn [length]. destruct (find_start_spec (p1 :: p2 :: rest) (length rest)) as (H1 & H2 & H3).
    split; [|left; lia]. split.
    + intros j p Hj Hl. apply H2. lia.
    + destruct H3 as [H3 | H3]; [left; split; [lia|exact H3]|by right].
Qed.

(** *** The candidate name *)

Lemma take_prefix (n : nat) (s : string) : exists z, Py.take n s +:+ z = s.
Proof.
  unfold Py.take. revert n. induction s as [|a t IH]; intros [|n].
  - by exists "".
  - by exists "".
  - by exists (String a t).
  - destruct (IH n) as [z Hz]. exists z. cbn [String.substring].
    by rewrite StrFacts.app_cons, Hz.
Qed.

Lemma take_all (n : nat) (s : string) : (String.length s <= n)%nat -> Py.take n s = s.
Proof.
  unfold Py.take. revert n. induction s as [|a t IH]; intros [|n] H; try done.
  - cbn in H. lia.
  - cbn [String.substring]. rewrite IH; [done|]. cbn in H. lia.
Qed.


Lemma shorten_long (segs : list string) :
  Forall (fun s => clean s = true) segs ->
  (50 < String.length (Py.join "--" segs))%nat ->
  (pair_free (Py.take 50 (Py.join "--" segs)) = true ->
   shorten (Py.join "--" segs) = Py.take 50 (Py.join "--" segs)) /\
  (pair_free (Py.take 50 (Py.join "--" segs)) = false ->
   boundary_cut segs (shorten (Py.join "--" segs))).
Proof.
  intros Hc Hlen. unfold shorten, Py.rsplit_head.
  destruct (Nat.ltb_spec 50 (String.length (Py.join "--" segs))); [|lia].
  destruct (Py.before_last "--" (Py.take 50 (Py.join "--" segs))) as [r|] eqn:E.
  - split.
    + intros Hp. apply before_last_none in Hp. congruence.
    + intros _. destruct (take_prefix 50 (Py.join "--" segs)) as [z Hz].
      exact (cut_at_boundary segs Hc _ z r Hz E).
  - split; [done|]. apply before_last_none in E. congruence.
Qed.

Lemma clean_length (s : string) : clean s = true -> Nat.leb 1 (String.length s) = true.
Proof. intros (_ & _ & a & t & -> & _)%clean_inv. done. Qed.

Lemma filter_clean (l : list string) :
  Forall (fun s => clean s = true) l ->
  List.filter (fun s => Nat.leb 1 (String.length s)) l = l.
Proof.
  induction 1 as [|x l Hx _ IH]; [done|].
  cbn [List.filter]. by rewrite (clean_length _ Hx), IH.
Qed.

Lemma segments_clean (cwd : string) (i : nat) :
  Forall (fun s => clean s = true) (List.map sanitized (drop i (segments cwd))).
Proof.
  apply List.Forall_map. apply Forall_drop. apply usable_parts_clean.
Qed.

Lemma derive_unfold (cwd : string) :
  derive_session_name_from_cwd cwd
  = match last (segments cwd) with
    | None => None
    | Some leaf =>
        if leaf_alone leaf then Some (Py.take 50 (sanitized leaf))
        else Some (shorten (Py.join "--"
                    (List.map sanitized (drop (start_index (segments cwd)) (segments cwd)))))
    end.
Proof.
  unfold derive_session_name_from_cwd.
  destruct (String.eqb_spec cwd "") as [-> | _]; [reflexivity|].
  fold (segments cwd). destruct (last (segments cwd)) as [leaf|] eqn:El; [|done].
  fold (leaf_alone leaf). destruct (leaf_alone leaf); [done|].
  rewrite (filter_clean _ (segments_clean cwd _)).
  destruct (start_index_nearest (segments cwd)) as [_ [Hlt | Hnil]].
  - destruct (drop (start_index (segments cwd)) (segments cwd)) as [|x l] eqn:Ed; [|done].
    apply (f_equal length) in Ed. rewrite length_drop in Ed. cbn in Ed. lia.
  - rewrite Hnil in El. discriminate.
Qed.












End ResolverFacts.

(** ** Facts about the run counter *)

Module TrackerFacts.
Import Tracker TrackerSpec.

(** *** [int(str(n)) = n] *)

Lemma int_digits_cons a t acc b :
  Py.is_digit a = true ->
  Py.int_digits acc (String a t) b = Py.int_digits (10 * acc + Py.digit_val a) t true.
Proof. intros H. cbn [Py.int_digits]. by rewrite H. Qed.

Lemma int_digits_acc d acc :
  Py.int_digits (Z.pos acc) (NilEmpty.string_of_uint d) true
  = Some (Z.pos (Pos.of_uint_acc d acc)).
Proof.
  revert acc. induction d; intros acc; cbn [NilEmpty.string_of_uint Pos.of_uint_acc];
    [reflexivity|..]; rewrite int_digits_cons by reflexivity; rewrite <- IHd; f_equal;
    match goal with
    | |- context [Py.digit_val ?c] =>
        let v := eval vm_compute in (Py.digit_val c) in change (Py.digit_val c) with v
    end; lia.
Qed.

Lemma int_digits_uint d b :
  d <> Decimal.Nil \/ b = true ->
  Py.int_digits 0 (NilEmpty.string_of_uint d) b = Some (Z.of_N (Pos.of_uint d)).
Proof.
  revert b. induction d; intros b Hb; cbn [NilEmpty.string_of_uint Pos.of_uint];
    [destruct Hb as [Hb | ->]; [congruence | reflexivity]|..];
    rewrite int_digits_cons by reflexivity;
    [apply IHd; by right | apply (int_digits_acc d)..].
Qed.






(** *** Characters a text avoids *)

Lemma avoids_app p a b : avoids p (a +:+ b) = avoids p a && avoids p b.
Proof.
  induction a as [|c a IH]; [done|].
  rewrite StrFacts.app_cons. cbn [avoids]. by rewrite IH, andb_assoc.
Qed.

Lemma avoids_weaken (p q : ascii -> bool) s :
  (forall c, q c = true -> p c = true) -> avoids p s = true -> avoids q s = true.
Proof.
  intros Hpq. induction s as [|c s IH]; [done|]. cbn [avoids].
  intros [Hc Hs]%andb_prop. rewrite (IH Hs), andb_true_r.
  apply negb_true_iff in Hc. apply negb_true_iff.
  destruct (q c) eqn:E; [|done]. apply Hpq in E. congruence.
Qed.

Lemma avoids_remove_char p c s :
  avoids p s = true -> avoids p (Py.remove_char c s) = true.
Proof.
  induction s as [|a s IH]; [done|]. cbn [avoids Py.remove_char].
  intros [Ha Hs]%andb_prop. destruct (Ascii.eqb a c); [by apply IH|].
  cbn [avoids]. by rewrite Ha, IH.
Qed.

Lemma remove_char_app c a b :
  Py.remove_char c (a +:+ b) = Py.remove_char c a +:+ Py.remove_char c b.
Proof.
  induction a as [|x a IH]; [done|].
  rewrite StrFacts.app_cons. cbn [Py.remove_char].
  destruct (Ascii.eqb x c); [exact IH|]. by rewrite StrFacts.app_cons, IH.
Qed.

Lemma remove_nul_id s : avoids is_nul s = true -> Py.remove_char Py.nul s = s.
Proof.
  induction s as [|a s IH]; [done|]. cbn [avoids Py.remove_char].
  intros [Ha Hs]%andb_prop. apply negb_true_iff in Ha. unfold is_nul in Ha.
  by rewrite Ha, IH.
Qed.

Lemma digits_avoid p s :
  (forall a, Py.is_digit a = true -> p a = false) ->
  Py.all_digits s = true -> avoids p s = true.
Proof.
  intros Hp. induction s as [|a s IH]; [done|]. cbn [Py.all_digits avoids].
  intros [Ha Hs]%andb_prop. by rewrite (Hp a Ha), IH.
Qed.

Lemma str_Z_one_line z : one_line (Py.str_Z z) = true.
Proof.
  assert (Hd : forall n, one_line (Py.str_N n) = true).
  { intros n. apply digits_avoid; [|apply StrFacts.str_N_digits].
    intros a. destruct a as [[] [] [] [] [] [] [] []]; intros H; try discriminate H; done. }
  unfold Py.str_Z. destruct (z <? 0); [|apply Hd].
  specialize (Hd (Z.to_N (- z))). unfold one_line in *. rewrite avoids_app. by rewrite Hd.
Qed.

(** *** Reading a text in text mode *)

Lemma read_text_app a b : avoids is_cr a = true -> Py.read_text (a +:+ b) = a +:+ Py.read_text b.
Proof.
  induction a as [|c a IH]; [done|]. cbn [avoids]. intros [Hc Ha]%andb_prop.
  apply negb_true_iff in Hc. unfold is_cr in Hc.
  rewrite !StrFacts.app_cons. cbn [Py.read_text]. by rewrite Hc, IH.
Qed.

Lemma read_text_avoids p s :
  p Py.LF = false -> avoids p s = true -> avoids p (Py.read_text s) = true.
Proof.
  intros Hlf. assert (H : (avoids p s = true -> avoids p (Py.read_text s) = true) /\
    forall a, avoids p (String a s) = true -> avoids p (Py.read_text (String a s)) = true).
  { induction s as [|b s [IH1 IH2]].
    - split; [done|]. intros a. cbn. destruct (Ascii.eqb a Py.CR); cbn; by rewrite ?Hlf.
    - split; [apply IH2|]. intros a Ha.
      change (avoids p (String a (String b s))) with (negb (p a) && avoids p (String b s)) in Ha.
      apply andb_prop in Ha as [Ha Hb]. cbn [Py.read_text].
      destruct (Ascii.eqb a Py.CR).
      + destruct (Ascii.eqb b Py.LF); cbn [avoids]; rewrite Hlf; cbn [negb andb].
        * apply IH1. cbn [avoids] in Hb. by apply andb_prop in Hb as [_ Hb].
        * by apply IH2.
      + cbn [avoids]. rewrite Ha. cbn [andb]. by apply IH2. }
  apply H.
Qed.

Lemma read_text_no_cr s : avoids is_cr (Py.read_text s) = true.
Proof.
  assert (H : avoids is_cr (Py.read_text s) = true /\
    forall a, avoids is_cr (Py.read_text (String a s)) = true).
  { induction s as [|b s [IH1 IH2]].
    - split; [done|]. intros a. cbn. unfold is_cr.
      by destruct (Ascii.eqb a Py.CR) eqn:E; cbn; rewrite ?E.
    - split; [apply IH2|]. intros a. cbn [Py.read_text].
      destruct (Ascii.eqb a Py.CR) eqn:E.
      + destruct (Ascii.eqb b Py.LF); cbn [avoids]; [exact IH1|apply IH2].
      + cbn [avoids]. unfold is_cr at 1. rewrite E. cbn [negb andb]. apply IH2. }
  apply H.
Qed.

(** *** The lines of a log *)

Lemma terminated_cons a s : s <> "" -> terminated (String a s) = terminated s.
Proof.
  intros Hs. unfold terminated. cbn [Py.last_char].
  destruct s as [|b s]; [done|]. cbn [Py.last_char]. by destruct (Py.last_char s).
Qed.

Lemma readlines_go_app cur X Y :
  X <> "" -> terminated X = true ->
  Py.readlines_go cur (X +:+ Y) = (Py.readlines_go cur X ++ Py.readlines_go "" Y)%list.
Proof.
  revert cur. induction X as [|a X IH]; intros cur Hne Ht; [done|].
  rewrite StrFacts.app_cons. cbn [Py.readlines_go].
  destruct X as [|b X].
  - unfold terminated in Ht. cbn in Ht. by rewrite Ht.
  - rewrite terminated_cons in Ht by done.
    destruct (Ascii.eqb a Py.LF); rewrite IH by done; done.
Qed.

Lemma readlines_app X Y :
  terminated X = true ->
  Py.readlines_go "" (X +:+ Y) = (Py.readlines_go "" X ++ Py.readlines_go "" Y)%list.
Proof.
  intros Ht. destruct X as [|a X]; [done|]. by apply readlines_go_app.
Qed.

Lemma readlines_go_line cur l Y :
  one_line l = true ->
  Py.readlines_go cur (l +:+ Py.newline +:+ Y)
  = String.rev_app cur (l +:+ Py.newline) :: Py.readlines_go "" Y.
Proof.
  revert cur. induction l as [|c l IH]; intros cur Hl; [done|].
  unfold one_line in Hl. cbn [avoids] in Hl. apply andb_prop in Hl as [Hc Hl].
  apply negb_true_iff, orb_false_elim in Hc as [Hc _].
  rewrite StrFacts.app_cons. cbn [Py.readlines_go]. rewrite Hc.
  by rewrite IH.
Qed.

(** *** The marker *)

Lemma rstrip_app x y : Py.rstrip y <> "" -> Py.rstrip (x +:+ y) = x +:+ Py.rstrip y.
Proof.
  intros Hy. induction x as [|c x IH]; [done|].
  rewrite !StrFacts.app_cons. cbn [Py.rstrip]. rewrite IH.
  destruct (x +:+ Py.rstrip y) eqn:E; [|done].
  destruct x; [|discriminate]. by destruct (Py.rstrip y).
Qed.

Lemma marker_text n ts name :
  Py.strip (marker n ts name)
  = rule +:+ Py.newline +:+ marker_line n ts name +:+ Py.newline +:+ rule.
Proof.
  unfold Py.strip, marker.
  set (l := marker_line n ts name).
  assert (Hr : Py.rstrip (rule +:+ Py.newline +:+ Py.newline) = rule)
    by (vm_compute; reflexivity).
  replace (Py.newline +:+ Py.newline +:+ rule +:+ Py.newline +:+ l +:+ Py.newline +:+
           rule +:+ Py.newline +:+ Py.newline)
    with ((Py.newline +:+ Py.newline +:+ rule +:+ Py.newline +:+ l +:+ Py.newline) +:+
          (rule +:+ Py.newline +:+ Py.newline))
    by (by rewrite !StrFacts.app_assoc).
  rewrite rstrip_app, Hr by (rewrite Hr; discriminate).
  rewrite !StrFacts.app_assoc. reflexivity.
Qed.

Lemma append_result tok files p content gap :
  Py.utf8_valid (Writer.text_of (files !! p)) = true ->
  Writer.final files (Writer.atomic_append Writer.no_faults tok files p content gap) !! p
  = Some (Py.remove_char Py.nul (Py.read_text (Writer.text_of (files !! p)))
          +:+ Writer.entry_text (Py.remove_char Py.nul content) gap).
Proof.
  intros Hv. unfold Writer.final, Writer.atomic_append, Writer.read_fails.
  cbn [Writer.f_mkdir Writer.f_mkstemp Writer.f_read Writer.f_write Writer.f_move
       Writer.no_faults].
  rewrite (lookup_insert_ne files) by apply WriterFacts.temp_path_neq.
  destruct (files !! p) as [old|]; cbn [Writer.text_of default] in Hv; unfold id in Hv;
    rewrite ?Hv; cbn [orb negb Writer.trace last default]; unfold id;
    rewrite lookup_delete_ne by apply WriterFacts.temp_path_neq;
    by rewrite lookup_insert_eq.
Qed.

Lemma marker_line_one_line n ts name :
  one_line ts = true -> one_line (name_part name) = true ->
  one_line (Py.remove_char Py.nul (marker_line n ts name)) = true.
Proof.
  intros Hts Hname. apply avoids_remove_char. unfold marker_line, one_line in *.
  rewrite !avoids_app, Hts, Hname.
  pose proof (str_Z_one_line n) as Hn. unfold one_line in Hn. by rewrite Hn.
Qed.









End TrackerFacts.

(** ** Facts about the entry point *)

Module HookFacts.
Import Json Hook.

(** input that is text but not JSON is acknowledged, and no file changes *)
Lemma main_malformed handle stdin files :
  Py.utf8_valid stdin = true -> loads stdin = None ->
  main handle stdin files = acknowledged files.
Proof. intros Hu Hl. unfold main, Py.decode_utf8. by rewrite Hu, Hl. Qed.

(** C1, at the input [[]].  A JSON array is parsed without error, and
    [json_input.keys()] then raises outside any handler: nothing is
    printed on standard output and the exit status is 1. *)
Theorem main_array_unacknowledged handle files :
  loads "[]" = Some (JArr []) /\
  main handle "[]" files = uncaught files /\
  stdout (main handle "[]" files) = [] /\
  exit_code (main handle "[]" files) = 1.
Proof.
  assert (Hl : loads "[]" = Some (JArr [])) by (vm_compute; reflexivity).
  assert (Hm : main handle "[]" files = uncaught files).
  { unfold main. change (Py.decode_utf8 "[]") with (Some "[]"). cbv beta iota.
    by rewrite Hl. }
  split; [exact Hl|]. split; [exact Hm|]. by rewrite Hm.
Qed.

(** C8, at the input 0xFF.  The byte is not UTF-8, so the input is not
    JSON; [decode] raises [UnicodeDecodeError], which the handler for
    [json.JSONDecodeError] does not catch: nothing is printed on
    standard output and the exit status is 1. *)
Theorem main_undecodable_unacknowledged handle files :
  Py.decode_utf8 Samples.undecodable = None /\
  main handle Samples.undecodable files = uncaught files /\
  stdout (main handle Samples.undecodable files) = [] /\
  exit_code (main handle Samples.undecodable files) = 1.
Proof.
  assert (Hd : Py.decode_utf8 Samples.undecodable = None) by (vm_compute; reflexivity).
  assert (Hm : main handle Samples.undecodable files = uncaught files).
  { unfold main. by rewrite Hd. }
  split; [exact Hd|]. split; [exact Hm|]. by rewrite Hm.
Qed.

End HookFacts.

(** ** What reconciliation keeps *)

Module ReconcilerLaws.
Import Reconciler ReconcilerSpec ReconcilerInv ReconcilerFacts.

Lemma same_content_refl d : same_content d d.
Proof. by split. Qed.

Lemma same_content_trans d1 d2 d3 :
  same_content d1 d2 -> same_content d2 d3 -> same_content d1 d3.
Proof. intros [H1 H2] [H3 H4]. split; congruence. Qed.

Lemma same_content_rename_one d src dst :
  same_content d (List.map (rename_one src dst) d).
Proof.
  split; rewrite List.map_map; apply List.map_ext; intros e; unfold rename_one;
    by destruct (String.eqb (ename e) src).
Qed.

Lemma safe_rename_content d src dst : same_content d (fst (safe_rename d src dst)).
Proof.
  unfold safe_rename. destruct (String.eqb src dst); [apply same_content_refl|].
  destruct (exists_name d dst) eqn:E; [apply same_content_refl|].
  destruct (exists_name d src); [|apply same_content_refl]. cbn [fst].
  rewrite rename_fresh by (by apply exists_name_false). apply same_content_rename_one.
Qed.

Lemma sequence_older_content sid name shell user prefix file_type older :
  forall d next,
    same_content d (sequence_older sid name shell user prefix file_type d older next).
Proof.
  induction older as [|o older IH]; intros d next; [apply same_content_refl|].
  cbn [sequence_older]. destruct (has_sequence_number (ename o)); [apply IH|].
  pose proof (safe_rename_content d (ename o)
                (seq_name sid name shell user prefix file_type next)) as Hs.
  destruct (safe_rename d (ename o) (seq_name sid name shell user prefix file_type next))
    as [d' ok]. cbn [fst] in Hs. eapply same_content_trans; [exact Hs|apply IH].
Qed.

Lemma reconcile_single_category_content sid name shell user prefix file_type d :
  same_content d
    (fst (reconcile_single_category sid name shell user prefix file_type d)).
Proof.
  unfold reconcile_single_category.
  destruct (find_session_files d sid prefix file_type) as [|f1 [|f2 fs]].
  - apply same_content_refl.
  - destruct (String.eqb (ename f1) _); cbn [fst];
      [apply same_content_refl|apply safe_rename_content].
  - destruct (last (sort_by_mtime (f1 :: f2 :: fs))) as [cur|]; [|apply same_content_refl].
    match goal with
    | |- context [let '(d1, max_seq1) := ?X in _] =>
        assert (Hd1 : same_content d (fst X)); [|destruct X as [d1 m1]]
    end.
    { destruct (negb (String.eqb (ename cur) _)); cbn [fst]; [|apply same_content_refl].
      destruct (exists_name d _); cbn [fst]; apply safe_rename_content. }
    cbn [fst] in *. eapply same_content_trans; [exact Hd1|apply sequence_older_content].
Qed.

Lemma run_categories_content sid name shell user cs :
  forall d, same_content d (run_categories sid name shell user cs d).
Proof.
  induction cs as [|c cs IH]; intros d; [apply same_content_refl|].
  unfold run_categories. cbn [fold_left]. eapply same_content_trans; [|apply IH].
  apply reconcile_single_category_content.
Qed.

(** X1.  Whatever the directory holds and whatever the session is called,
    [reconcile_session_files] only renames: the files afterwards are the
    files before, in the same places, with the same modification times
    and the same contents, and names that were distinct stay distinct. *)
Theorem reconcile_session_files_keeps_history d sid name shell user :
  same_content d (fst (reconcile_session_files d sid name shell user)) /\
  length (fst (reconcile_session_files d sid name shell user)) = length d /\
  (List.NoDup (names d) ->
   List.NoDup (names (fst (reconcile_session_files d sid name shell user)))).
Proof.
  assert (H : same_content d (fst (reconcile_session_files d sid name shell user)) /\
              (List.NoDup (names d) ->
               List.NoDup (names (fst (reconcile_session_files d sid name shell user))))).
  { destruct name as [n|]; [|split; [apply same_content_refl|done]].
    destruct (String.eqb_spec n "") as [-> | Hn]; [split; [apply same_content_refl|done]|].
    rewrite (reconcile_session_files_run sid n shell user Hn). cbn [fst].
    split; [apply run_categories_content|by apply run_NoDup]. }
  destruct H as [Hc Hn]. split; [exact Hc|]. split; [|exact Hn].
  destruct Hc as [Hc _]. apply (f_equal (@length Z)) in Hc.
  by rewrite !List.length_map in Hc.
Qed.

(** *** The session directory *)

Lemma contains_here n s : String.prefix n s = true -> Py.contains n s = true.
Proof. intros H. destruct s; cbn [Py.contains]; by rewrite H. Qed.

Lemma contains_skip n a s : Py.contains n s = true -> Py.contains n (a +:+ s) = true.
Proof.
  intros H. induction a as [|c a IH]; [exact H|].
  rewrite StrFacts.app_cons. cbn [Py.contains]. by rewrite IH, orb_true_r.
Qed.

Lemma build_session_directory_contains name sid user :
  Py.contains sid (build_session_directory name sid user) = true.
Proof.
  assert (H : forall x, Py.contains sid (x +:+ "__" +:+ sid +:+ "_" +:+ user) = true).
  { intros x. apply contains_skip, (contains_skip sid "__"), contains_here.
    apply StrFacts.prefix_self_app. }
  unfold build_session_directory. destruct (truthy name), name; apply H || apply (H "").
Qed.

Lemma find_directory_by_guid_none b sid :
  find_directory_by_guid b sid = None -> session_dirs b sid = [].
Proof.
  induction b as [|[n [files|]] b IH]; [done|..]; cbn [find_directory_by_guid]; intros H.
  - destruct (Py.contains sid n) eqn:E; [discriminate|].
    unfold session_dirs. cbn. rewrite E. by apply IH.
  - unfold session_dirs. cbn. by apply IH.
Qed.

Lemma find_directory_by_guid_some b sid n files :
  find_directory_by_guid b sid = Some (n, files) ->
  exists b1 b2, b = (b1 ++ (n, NDir files) :: b2)%list /\ Py.contains sid n = true /\
                session_dirs b1 sid = [].
Proof.
  induction b as [|[m [fs|]] b IH]; [done|..]; cbn [find_directory_by_guid]; intros H.
  - destruct (Py.contains sid m) eqn:E.
    + injection H as -> ->. by exists [], b.
    + destruct (IH H) as (b1 & b2 & -> & Hc & Hn). exists ((m, NDir fs) :: b1), b2.
      split; [done|]. split; [done|]. unfold session_dirs. cbn. by rewrite E.
  - destruct (IH H) as (b1 & b2 & -> & Hc & Hn). exists ((m, NFile) :: b1), b2.
    split; [done|]. split; [done|]. unfold session_dirs. by cbn.
Qed.

Lemma replace_item_at b1 b2 n x it :
  ~ In n (List.map fst b1) ->
  replace_item (b1 ++ (n, x) :: b2) n it = (b1 ++ it :: b2)%list.
Proof.
  induction b1 as [|[m y] b1 IH]; intros Hn; cbn [replace_item app fst].
  - by rewrite String.eqb_refl.
  - cbn in Hn. destruct (String.eqb_spec m n) as [-> | _]; [tauto|]. rewrite IH; tauto.
Qed.

Lemma rename_files_go_content listing old new sid :
  forall d, same_content d (rename_files_go d listing old new sid) /\
            (List.NoDup (names d) ->
             List.NoDup (names (rename_files_go d listing old new sid))).
Proof.
  induction listing as [|f rest IH]; intros d; [by split; [apply same_content_refl|]|].
  cbn [rename_files_go].
  destruct (renamed_for_session old new sid (ename f)) as [n|]; [|apply IH].
  destruct (negb (String.eqb n "") && negb (String.eqb n (ename f))
            && negb (exists_name d n)) eqn:E; [|apply IH].
  apply andb_prop in E as [_ E]. apply negb_true_iff, exists_name_false in E.
  rewrite rename_fresh by done. destruct (IH (List.map (rename_one (ename f) n) d)) as [Hc Hn].
  split.
  - eapply same_content_trans; [apply same_content_rename_one|exact Hc].
  - intros Hd. apply Hn. by apply NoDup_rename_one.
Qed.

(** X2.  [reconcile_session_directory] keeps one directory per session
    and touches nothing else.  The directory it returns exists
    afterwards.  A session that had directories has as many afterwards,
    and one that had none and whose expected name is free has exactly
    the new, empty one.  Every item whose name does not hold the session
    id is left as it is, and the files of every directory keep their
    places, modification times and contents. *)
Theorem reconcile_session_directory_one_directory b sid name user :
  List.NoDup (List.map fst b) ->
  let r := reconcile_session_directory b sid name user in
  let b' := fst (fst r) in
  let dir := snd (fst r) in
  base_exists b' dir = true /\
  ((1 <= length (session_dirs b sid))%nat ->
   length (session_dirs b' sid) = length (session_dirs b sid)) /\
  (session_dirs b sid = [] -> base_exists b dir = false ->
   session_dirs b' sid = [(dir, NDir [])]) /\
  (forall it, In it b -> Py.contains sid (fst it) = false -> In it b') /\
  (exists tail, List.map (fun it => content (snd it)) b'
                = (List.map (fun it => content (snd it)) b ++ tail)%list /\
                (tail = [] \/ tail = [Some ([], [])])).
Proof.
  intros Hnd r b' dir. subst b' dir r.
  pose proof (build_session_directory_contains name sid user) as Hsid.
  unfold reconcile_session_directory.
  set (e := build_session_directory name sid user) in *.
  destruct (base_exists b e) eqn:Hex; cbn [fst snd].
  { split; [exact Hex|]. split; [done|]. split; [intros _ H; congruence|].
    split; [done|]. exists []. rewrite List.app_nil_r. by split; [|left]. }
  destruct (find_directory_by_guid b sid) as [[existing files]|] eqn:Hf; cbn [fst snd].
  - destruct (find_directory_by_guid_some _ _ _ _ Hf) as (b1 & b2 & -> & Hc & Hb1).
    rewrite List.map_app in Hnd. cbn [List.map fst] in Hnd.
    apply List.NoDup_remove_2 in Hnd.
    assert (Hn1 : ~ In existing (List.map fst b1)).
    { intros Hin. apply Hnd. apply List.in_or_app. by left. }
    rewrite replace_item_at by exact Hn1.
    set (files' := match truthy name, name with
                   | true, Some nm => rename_files_for_session_change files
                                        (extract_name_from_directory existing sid) nm sid
                   | _, _ => files
                   end).
    assert (Hfiles : same_content files files').
    { subst files'. destruct (truthy name), name; try apply same_content_refl.
      apply rename_files_go_content. }
    split.
    { unfold base_exists. rewrite List.existsb_app. cbn. by rewrite String.eqb_refl, orb_true_r. }
    split.
    { intros _. unfold session_dirs. rewrite !List.filter_app. cbn [List.filter snd fst is_dir].
      rewrite Hc, Hsid. cbn [andb]. by rewrite !List.length_app. }
    split.
    { unfold session_dirs. rewrite List.filter_app. cbn [List.filter snd fst is_dir].
      rewrite Hc. cbn [andb]. by destruct (List.filter _ b1). }
    split.
    { intros it Hin Hit. apply List.in_app_or in Hin as [Hin | [<- | Hin]].
      - apply List.in_or_app. by left.
      - cbn in Hit. congruence.
      - apply List.in_or_app. right. by right. }
    exists []. rewrite List.app_nil_r. split; [|by left].
    rewrite !List.map_app. cbn [List.map snd content].
    destruct Hfiles as [-> ->]. reflexivity.
  - split; [apply base_exists_app|]. apply find_directory_by_guid_none in Hf.
    split; [rewrite Hf; cbn; lia|]. split.
    { intros _ _. unfold session_dirs in *. rewrite List.filter_app, Hf.
      cbn [List.filter snd fst is_dir app]. by rewrite Hsid. }
    split; [intros it Hin _; apply List.in_or_app; by left|].
    exists [Some ([], [])]. rewrite List.map_app. split; [reflexivity|by right].
Qed.

Lemma reconcile_session_directory_one_directory_witness :
  List.NoDup (List.map fst Samples.unnamed_base) /\
  length (session_dirs
            (fst (fst (reconcile_session_directory Samples.unnamed_base "abc-123"
                         (Some "fix-auth") "alice"))) "abc-123") = 1%nat.
Proof.
  assert (Hnd : List.NoDup (List.map fst Samples.unnamed_base)).
  { constructor; [intros []|constructor]. }
  split; [exact Hnd|].
  destruct (reconcile_session_directory_one_directory Samples.unnamed_base "abc-123"
              (Some "fix-auth") "alice" Hnd) as (_ & H & _).
  rewrite H; vm_compute; [reflexivity|lia].
Defined.

(** *** Sequence numbers *)

Lemma digit_val_bound a : Py.is_digit a = true -> 0 <= Py.digit_val a <= 9.
Proof.
  destruct a as [[] [] [] [] [] [] [] []]; intros H; try discriminate H;
    vm_compute; split; discriminate.
Qed.

Lemma digit_not_underscore a : Py.is_digit a = true -> Ascii.eqb a "_" = false.
Proof. destruct a as [[] [] [] [] [] [] [] []]; intros H; try discriminate H; done. Qed.

Lemma int_digits_short s v :
  Py.all_digits s = true -> (String.length s <= 3)%nat ->
  Py.int_digits 0 s false = Some v -> v <= 999.
Proof.
  intros Hd Hl Hv.
  destruct s as [|a [|b [|c [|x s]]]]; cbn [String.length] in Hl; try lia;
    cbn [Py.all_digits] in Hd; cbn [Py.int_digits] in Hv.
  - discriminate.
  - apply andb_prop in Hd as [Ha _]. rewrite Ha in Hv. injection Hv as <-.
    pose proof (digit_val_bound a Ha). lia.
  - apply andb_prop in Hd as [Ha [Hb _]%andb_prop]. rewrite Ha, Hb in Hv.
    injection Hv as <-.
    pose proof (digit_val_bound a Ha). pose proof (digit_val_bound b Hb). lia.
  - apply andb_prop in Hd as [Ha [Hb [Hc _]%andb_prop]%andb_prop].
    rewrite Ha, Hb, Hc in Hv. injection Hv as <-.
    pose proof (digit_val_bound a Ha). pose proof (digit_val_bound b Hb).
    pose proof (digit_val_bound c Hc). lia.
Qed.

Lemma int_digits_str_N n : Py.int_digits 0 (Py.str_N n) false = Some (Z.of_N n).
Proof.
  unfold Py.str_N, NilZero.string_of_uint.
  destruct (N.to_uint n) eqn:E;
    [by destruct n; [|destruct (DecimalPos.Unsigned.to_uint_nonnil _ E)]|..];
    rewrite <- E, TrackerFacts.int_digits_uint; try (by left; rewrite E);
    f_equal; f_equal; apply DecimalN.Unsigned.of_to.
Qed.

(** a number of four digits or more is written with at least four *)
Lemma str_N_long n :
  (1000 <= n)%N ->
  exists a b c d r, Py.str_N n = String a (String b (String c (String d r))) /\
    Py.is_digit a = true /\ Py.is_digit b = true /\ Py.is_digit c = true /\
    Py.is_digit d = true.
Proof.
  intros Hn. pose proof (StrFacts.str_N_digits n) as Hd.
  pose proof (int_digits_str_N n) as Hi.
  destruct (Py.str_N n) as [|a [|b [|c [|d r]]]] eqn:E.
  1-4: apply int_digits_short in Hi; [lia|exact Hd|cbn; lia].
  exists a, b, c, d, r. cbn [Py.all_digits] in Hd.
  apply andb_prop in Hd as [Ha [Hb [Hc [Hd _]%andb_prop]%andb_prop]%andb_prop].
  by repeat split.
Qed.

Section SequenceNames.
Variables (session_id session_name shell username prefix file_type : string).
Hypothesis name_given : session_name <> "".

Let t := target_name session_id session_name shell username prefix file_type.
Let s := seq_name session_id session_name shell username prefix file_type.

Lemma sequence_of_large (k : Z) :
  1000 <= k ->
  sequence_of prefix file_type shell session_name session_id username (s k) = None.
Proof.
  intros Hk. unfold s. rewrite seq_name_eq by exact name_given.
  destruct (str_N_long (Z.to_N k)) as (a & b & c & d & r & E & Ha & Hb & Hc & Hd); [lia|].
  assert (Hf : format_03d k = String a (String b (String c (String d r)))).
  { unfold format_03d. rewrite E. reflexivity. }
  rewrite Hf. unfold sequence_of, sequence_re, Re.rmatch. cbn [Re.seq].
  rewrite !ReFacts.run_lit_app.
  change (String a (String b (String c (String d r)))
          +:+ "__" +:+ session_id +:+ "_" +:+ username +:+ ".log")
    with (String a (String b (String c
           (String d (r +:+ "__" +:+ session_id +:+ "_" +:+ username +:+ ".log"))))).
  rewrite ReFacts.run_three_digits by assumption.
  cbn [Re.run Re.strip_lit]. by rewrite (digit_not_underscore d Hd).
Qed.

(** X3.  The names [build_filename] gives with a sequence number read
    back: for a number from 0 to 999 the pattern of [find_max_sequence]
    returns that number and [has_sequence_number] holds; such names
    differ from each other and from the name without a number.  From
    1000 on, the number takes four digits and is not read back. *)
Theorem sequence_names_read_back :
  (forall k, 0 <= k <= 999 ->
     sequence_of prefix file_type shell session_name session_id username (s k) = Some k /\
     has_sequence_number (s k) = true /\ s k <> t) /\
  (forall j k, 0 <= j <= 999 -> 0 <= k <= 999 -> s j = s k -> j = k) /\
  (forall k, 1000 <= k ->
     sequence_of prefix file_type shell session_name session_id username (s k) = None).
Proof.
  split; [|split].
  - intros k Hk. split; [by apply sequence_of_seq_name|].
    split; [by apply has_sequence_seq_name|by apply seq_name_neq_target].
  - intros j k Hj Hk. by apply seq_name_inj.
  - apply sequence_of_large.
Qed.

End SequenceNames.

Lemma sequence_names_read_back_witness :
  sequence_of "" "sesslog" "bash" "fix-auth" "abc-123" "alice"
    ".sesslog_bash__fix-auth--007__abc-123_alice.log" = Some 7 /\
  sequence_of "" "sesslog" "bash" "fix-auth" "abc-123" "alice"
    ".sesslog_bash__fix-auth--1000__abc-123_alice.log" = None.
Proof.
  assert (Hn : "fix-auth" <> "") by discriminate.
  destruct (sequence_names_read_back "abc-123" "fix-auth" "bash" "alice" "" "sesslog" Hn)
    as (H1 & _ & H3).
  split; [apply (H1 7); lia|apply (H3 1000); lia].
Defined.

Lemma fold_max_attained (f : string -> option Z) d :
  forall m0,
    let m := fold_left (fun acc e => match f (ename e) with
                                     | Some q => Z.max acc q
                                     | None => acc
                                     end) d m0 in
    (m = m0 \/ exists e, In e d /\ f (ename e) = Some m) /\
    ((forall e, In e d -> f (ename e) = None) -> m = m0).
Proof.
  induction d as [|x d IH]; intros m0; cbn [fold_left]; [by split; [left|]|].
  destruct (f (ename x)) as [q|] eqn:Eq.
  - destruct (IH (Z.max m0 q)) as [[H1 | (e & He & Hs)] _]; cbn zeta in *; split.
    + rewrite H1. destruct (Z.max_spec m0 q) as [[_ Hm] | [_ Hm]]; rewrite Hm.
      * right. exists x. by split; [left|].
      * by left.
    + intros Hnone. specialize (Hnone x (or_introl eq_refl)). congruence.
    + right. exists e. by split; [right|].
    + intros Hnone. specialize (Hnone x (or_introl eq_refl)). congruence.
  - destruct (IH m0) as [[H1 | (e & He & Hs)] H2]; cbn zeta in *; split.
    + by left.
    + intros Hnone. apply H2. intros e He. apply Hnone. by right.
    + right. exists e. by split; [right|].
    + intros Hnone. apply H2. intros e' He'. apply Hnone. by right.
Qed.

(** X4.  [find_max_sequence] is the greatest sequence number a name of
    the directory carries for the session, and -1 when none carries
    one. *)
Theorem find_max_sequence_greatest d pre ft sh nm sid un :
  let m := find_max_sequence d pre ft sh nm sid un in
  -1 <= m /\
  (forall e q, In e d -> sequence_of pre ft sh nm sid un (ename e) = Some q -> q <= m) /\
  ((forall e, In e d -> sequence_of pre ft sh nm sid un (ename e) = None) -> m = -1) /\
  (m <> -1 -> exists e, In e d /\ sequence_of pre ft sh nm sid un (ename e) = Some m).
Proof.
  intros m. subst m. split; [apply find_max_sequence_lower|].
  split; [intros e q; apply find_max_sequence_upper|].
  destruct (fold_max_attained (sequence_of pre ft sh nm sid un) d (-1)) as [H1 H2].
  split; [exact H2|]. intros Hne. destruct H1 as [H1 | H1]; [|exact H1].
  unfold find_max_sequence in Hne. contradiction.
Qed.

End ReconcilerLaws.

(** ** UTF-8 text under the operations of the writer *)

Module TextFacts.
Import TrackerSpec TrackerFacts TextSpec.

Lemma ascii_not_high a c : is_ascii a = false -> is_ascii c = true -> Ascii.eqb a c = false.
Proof. intros Ha Hc. destruct (Ascii.eqb_spec a c) as [-> |]; congruence. Qed.

Lemma byte_in_high lo hi a :
  (128 <= lo)%nat -> Py.byte_in lo hi a = true -> is_ascii a = false.
Proof.
  unfold is_ascii, Py.byte_in. intros Hlo [H1 H2]%andb_prop.
  apply Nat.leb_le in H1. apply andb_false_intro2. apply Nat.leb_gt. lia.
Qed.

Lemma byte_in_cont b : Py.byte_in 128 191 b = true \/ Py.byte_in 160 191 b = true \/
    Py.byte_in 128 159 b = true \/ Py.byte_in 144 191 b = true \/ Py.byte_in 128 143 b = true ->
  is_ascii b = false.
Proof. intros [H|[H|[H|[H|H]]]]; revert H; apply byte_in_high; lia. Qed.

(** A well-formed text is empty, or starts with an ASCII character or
    with a sequence of bytes outside ASCII that stands for one character;
    what follows is well-formed again. *)
Lemma utf8_valid_inv (s : string) :
  Py.utf8_valid s = true ->
  s = "" \/
  exists chunk rest,
    s = chunk +:+ rest /\ chunk <> "" /\ Py.utf8_valid rest = true /\
    (forall t, Py.utf8_valid t = true -> Py.utf8_valid (chunk +:+ t) = true) /\
    ((exists a, chunk = String a "" /\ is_ascii a = true) \/ avoids is_ascii chunk = true).
Proof.
  destruct s as [|a t]; [by left|]. intros H. right.
  cbn [Py.utf8_valid] in H.
  destruct (Py.byte_in 0 127 a) eqn:H1.
  { exists (String a ""), t. split; [done|]. split; [done|]. split; [done|].
    split; [|left; eauto].
    intros t' Ht'. cbn [String.app]. rewrite StrFacts.app_cons. cbn [Py.utf8_valid].
    by rewrite H1. }
  destruct (Py.byte_in 194 223 a) eqn:H2.
  { destruct t as [|b t1]; [done|]. apply andb_prop in H as [Hb Ht].
    exists (String a (String b "")), t1. split; [done|]. split; [done|]. split; [done|].
    split.
    - intros t' Ht'. rewrite !StrFacts.app_cons. cbn [Py.utf8_valid].
      by rewrite H1, H2, Hb.
    - right. cbn [avoids]. unfold is_ascii at 1. rewrite H1.
      rewrite (byte_in_high 128 191 b) by (done || lia). done. }
  destruct (Py.byte_in 224 239 a) eqn:H3.
  { destruct t as [|b [|c t2]]; [done..|].
    apply andb_prop in H as [[Hb Hc]%andb_prop Ht].
    exists (String a (String b (String c ""))), t2.
    split; [done|]. split; [done|]. split; [done|]. split.
    - intros t' Ht'. rewrite !StrFacts.app_cons. cbn [Py.utf8_valid].
      by rewrite H1, H2, H3, Hb, Hc.
    - right. cbn [avoids]. unfold is_ascii at 1. rewrite H1.
      rewrite (byte_in_high 128 191 c) by (done || lia).
      assert (Hb' : is_ascii b = false).
      { destruct (Py.byte_in 224 224 a); [|destruct (Py.byte_in 237 237 a)];
          revert Hb; apply byte_in_high; lia. }
      by rewrite Hb'. }
  destruct (Py.byte_in 240 244 a) eqn:H4; [|done].
  destruct t as [|b [|c [|d t3]]]; [done..|].
  apply andb_prop in H as [[[Hb Hc]%andb_prop Hd]%andb_prop Ht].
  exists (String a (String b (String c (String d "")))), t3.
  split; [done|]. split; [done|]. split; [done|]. split.
  - intros t' Ht'. rewrite !StrFacts.app_cons. cbn [Py.utf8_valid].
    by rewrite H1, H2, H3, H4, Hb, Hc, Hd.
  - right. cbn [avoids]. unfold is_ascii at 1. rewrite H1.
    rewrite (byte_in_high 128 191 c), (byte_in_high 128 191 d) by (done || lia).
    assert (Hb' : is_ascii b = false).
    { destruct (Py.byte_in 240 240 a); [|destruct (Py.byte_in 244 244 a)];
        revert Hb; apply byte_in_high; lia. }
    by rewrite Hb'.
Qed.

(** Induction on well-formed text, one character at a time *)
Lemma utf8_ind (P : string -> Prop) :
  P "" ->
  (forall a rest, is_ascii a = true -> Py.utf8_valid rest = true -> P rest ->
     P (String a rest)) ->
  (forall chunk rest, chunk <> "" -> avoids is_ascii chunk = true ->
     Py.utf8_valid rest = true ->
     (forall t, Py.utf8_valid t = true -> Py.utf8_valid (chunk +:+ t) = true) ->
     P rest -> P (chunk +:+ rest)) ->
  forall s, Py.utf8_valid s = true -> P s.
Proof.
  intros H0 Ha Hc s. remember (String.length s) as n eqn:Hn.
  revert s Hn. induction n as [n IH] using lt_wf_ind. intros s Hn Hs.
  destruct (utf8_valid_inv s Hs) as [-> | (chunk & rest & -> & Hne & Hr & Happ & Hk)]; [done|].
  assert (Hlen : (String.length rest < n)%nat).
  { subst n. rewrite StrFacts.length_app. destruct chunk; [done|]. cbn. lia. }
  destruct Hk as [(a & -> & Hasc) | Hk].
  - apply Ha; [done..|]. by apply (IH _ Hlen).
  - apply Hc; [done..|]. by apply (IH _ Hlen).
Qed.

Lemma utf8_valid_app (a b : string) :
  Py.utf8_valid a = true -> Py.utf8_valid b = true -> Py.utf8_valid (a +:+ b) = true.
Proof.
  intros Ha Hb. revert a Ha. apply utf8_ind.
  - done.
  - intros c rest Hc _ IH. rewrite StrFacts.app_cons. cbn [Py.utf8_valid].
    unfold is_ascii in Hc. by rewrite Hc.
  - intros chunk rest _ _ _ Happ IH. rewrite StrFacts.app_assoc. by apply Happ.
Qed.

Lemma avoids_ascii_weaken (p : ascii -> bool) (s : string) :
  (forall a, p a = true -> is_ascii a = true) -> avoids is_ascii s = true -> avoids p s = true.
Proof.
  intros Hp. induction s as [|a s IH]; [done|]. cbn [avoids].
  intros [Ha Hs]%andb_prop. rewrite IH by done.
  apply negb_true_iff in Ha. destruct (p a) eqn:E; [|done].
  apply Hp in E. congruence.
Qed.

Lemma utf8_valid_remove_nul (s : string) :
  Py.utf8_valid s = true -> Py.utf8_valid (Py.remove_char Py.nul s) = true.
Proof.
  revert s. apply utf8_ind.
  - done.
  - intros c rest Hc _ IH. cbn [Py.remove_char].
    destruct (Ascii.eqb c Py.nul); [done|]. cbn [Py.utf8_valid].
    unfold is_ascii in Hc. by rewrite Hc.
  - intros chunk rest _ Hk _ Happ IH. rewrite remove_char_app.
    rewrite (remove_nul_id chunk).
    + by apply Happ.
    + apply avoids_ascii_weaken; [|done]. unfold is_nul. intros a Ha.
      apply Ascii.eqb_eq in Ha. by subst a.
Qed.

Lemma utf8_valid_read_text (s : string) :
  Py.utf8_valid s = true -> Py.utf8_valid (Py.read_text s) = true.
Proof.
  revert s. apply utf8_ind.
  - done.
  - intros c rest Hc Hr IH. cbn [Py.read_text].
    destruct (Ascii.eqb c Py.CR).
    + destruct rest as [|b t'].
      * done.
      * destruct (Ascii.eqb b Py.LF) eqn:Hb; [|done].
        apply Ascii.eqb_eq in Hb. subst b.
        change (Py.utf8_valid (Py.read_text (String Py.LF t')))
          with (Py.utf8_valid (String Py.LF (Py.read_text t'))) in IH.
        exact IH.
    + cbn [Py.utf8_valid]. unfold is_ascii in Hc. by rewrite Hc.
  - intros chunk rest _ Hk _ Happ IH. rewrite read_text_app.
    + by apply Happ.
    + apply avoids_ascii_weaken; [|done]. unfold is_cr. intros a Ha.
      apply Ascii.eqb_eq in Ha. by subst a.
Qed.

End TextFacts.

Module WriterLaws.
Import Writer WriterSpec WriterFacts TrackerSpec TrackerFacts TextSpec TextFacts.

Lemma read_text_cons2 (a b : ascii) (x : string) :
  Py.read_text (String a (String b x))
  = if Ascii.eqb a Py.CR
    then (if Ascii.eqb b Py.LF then String Py.LF (Py.read_text x)
          else String Py.LF (Py.read_text (String b x)))
    else String a (Py.read_text (String b x)).
Proof. reflexivity. Qed.

Lemma read_text_last (s : string) :
  Py.last_char s = Some Py.LF -> Py.last_char (Py.read_text s) = Some Py.LF.
Proof.
  assert (H : (Py.last_char s = Some Py.LF -> Py.last_char (Py.read_text s) = Some Py.LF) /\
              forall a, Py.last_char (String a s) = Some Py.LF ->
                        Py.last_char (Py.read_text (String a s)) = Some Py.LF).
  { induction s as [|b x [IH1 IH2]].
    - split; [done|]. intros a. cbn. intros [= ->]. done.
    - split; [apply IH2|]. intros a Ha.
      assert (Hb : Py.last_char (String b x) = Some Py.LF).
      { cbn [Py.last_char] in Ha |- *. by destruct (Py.last_char x). }
      rewrite read_text_cons2.
      destruct (Ascii.eqb a Py.CR).
      + destruct (Ascii.eqb b Py.LF) eqn:Eb.
        * cbn [Py.last_char]. destruct x as [|c x]; [done|].
          rewrite IH1; [done|]. cbn [Py.last_char] in Hb |- *.
          by destruct (Py.last_char x) in *.
        * cbn [Py.last_char]. by rewrite (IH2 b Hb).
      + cbn [Py.last_char]. by rewrite (IH2 b Hb). }
  apply H.
Qed.

Lemma read_text_ends (x : string) :
  terminated (Py.read_text (x +:+ Py.newline)) = true.
Proof.
  unfold terminated. rewrite read_text_last; [done|].
  by rewrite StrFacts.last_char_app.
Qed.

Lemma entry_text_valid content gap :
  Py.utf8_valid content = true -> Py.utf8_valid (entry_text content gap) = true.
Proof.
  intros H. unfold entry_text. apply utf8_valid_app; [by destruct gap|].
  by apply utf8_valid_app.
Qed.

Lemma entry_text_ends content gap :
  terminated (Py.read_text (entry_text content gap)) = true.
Proof.
  unfold entry_text. rewrite <- StrFacts.app_assoc. apply read_text_ends.
Qed.

Lemma readlines_entry content gap :
  Py.readlines (entry_text content gap)
  = ((if gap then [Py.newline] else []) ++ Py.readlines (content +:+ Py.newline))%list.
Proof.
  unfold entry_text. destruct gap; [|done].
  unfold Py.readlines. rewrite (read_text_app Py.newline) by done.
  by rewrite readlines_app.
Qed.

(** the text [atomic_append] leaves in the target of a log as the writer
    left it *)
Lemma append_written tok files p content gap :
  written (text_of (files !! p)) = true ->
  final files (atomic_append no_faults tok files p content gap) !! p
  = Some (Py.read_text (text_of (files !! p))
          +:+ entry_text (Py.remove_char Py.nul content) gap).
Proof.
  intros [[Hv Hnul]%andb_prop Hterm]%andb_prop.
  rewrite append_result by done.
  by rewrite remove_nul_id by (by apply read_text_avoids).
Qed.

(** the lines and the form of a log after an append that meets no failure *)
Lemma appended_log tok files p content gap :
  written (text_of (files !! p)) = true ->
  Py.utf8_valid content = true ->
  let entry := Py.remove_char Py.nul content in
  let new := text_of (final files (atomic_append no_faults tok files p content gap) !! p) in
  Py.readlines new
  = (Py.readlines (text_of (files !! p)) ++ (if gap then [Py.newline] else [])
     ++ Py.readlines (entry +:+ Py.newline))%list /\
  (one_line entry = true -> Py.readlines (entry +:+ Py.newline) = [entry +:+ Py.newline]) /\
  written new = true.
Proof.
  intros Hw Hc entry new.
  assert (Hnew : new = Py.read_text (text_of (files !! p)) +:+ entry_text entry gap).
  { subst new. by rewrite append_written. }
  apply andb_prop in Hw as [[Hv Hnul]%andb_prop Hterm].
  assert (Hread : Py.read_text new
                  = Py.read_text (text_of (files !! p)) +:+ Py.read_text (entry_text entry gap)).
  { rewrite Hnew. apply read_text_app, read_text_no_cr. }
  split; [|split].
  - unfold Py.readlines at 1. rewrite Hread, readlines_app by done.
    fold (Py.readlines (text_of (files !! p))). fold (Py.readlines (entry_text entry gap)).
    by rewrite readlines_entry.
  - intros Hl. unfold Py.readlines.
    rewrite (read_text_app entry).
    + change (Py.read_text Py.newline) with (Py.newline +:+ "").
      by rewrite readlines_go_line.
    + revert Hl. apply avoids_weaken. intros c Hcr. unfold is_cr in Hcr. unfold is_linebreak.
      by rewrite Hcr, orb_true_r.
  - unfold written. rewrite Hread. apply andb_true_intro. split; [apply andb_true_intro; split|].
    + rewrite Hnew. apply utf8_valid_app; [by apply utf8_valid_read_text|].
      apply entry_text_valid. by apply utf8_valid_remove_nul.
    + rewrite Hnew, avoids_app. apply andb_true_intro. split.
      * by apply read_text_avoids.
      * unfold entry_text. rewrite !avoids_app. subst entry.
        assert (Hrm : forall s, avoids is_nul (Py.remove_char Py.nul s) = true).
        { induction s as [|a s IH]; [done|]. cbn [Py.remove_char].
          destruct (Ascii.eqb a Py.nul) eqn:E; [done|]. cbn [avoids]. unfold is_nul at 1.
          by rewrite E. }
        rewrite Hrm. by destruct gap.
    + pose proof (entry_text_ends entry gap) as He. unfold terminated in *.
      destruct (Py.read_text (entry_text entry gap)) eqn:E.
      * exfalso. revert E. unfold entry_text. destruct gap; [done|].
        rewrite StrFacts.app_nil_l. destruct entry as [|a e]; [done|].
        rewrite StrFacts.app_cons. cbn [Py.read_text]. destruct (Ascii.eqb a Py.CR); [|done].
        destruct (e +:+ Py.newline); [done|]. by destruct (Ascii.eqb _ Py.LF).
      * by rewrite StrFacts.last_char_app.
Qed.

(** X5.  A log the writer left keeps its lines.  After an append that
    meets no failure, the lines of the log are the lines it had, then a
    blank line when a gap is asked for, then the lines of the entry
    without its null bytes; an entry without a line break is one line.
    The log is again as the writer leaves it, so the same holds of the
    next append. *)
Theorem atomic_append_adds_lines tok files p content gap :
  written (text_of (files !! p)) = true ->
  Py.utf8_valid content = true ->
  let entry := Py.remove_char Py.nul content in
  let new := text_of (final files (atomic_append no_faults tok files p content gap) !! p) in
  Py.readlines new
  = (Py.readlines (text_of (files !! p)) ++ (if gap then [Py.newline] else [])
     ++ Py.readlines (entry +:+ Py.newline))%list /\
  (one_line entry = true -> Py.readlines (entry +:+ Py.newline) = [entry +:+ Py.newline]) /\
  written new = true.
Proof. apply appended_log. Qed.

Lemma atomic_append_adds_lines_witness :
  written (text_of (Samples.fs0 !! Samples.log_path)) = true /\
  Py.utf8_valid "pwd" = true /\
  Py.readlines
    (text_of (final Samples.fs0
                (atomic_append no_faults "k3x9" Samples.fs0 Samples.log_path "pwd" true)
              !! Samples.log_path))
  = (Py.readlines Samples.sample_log ++ [Py.newline; "pwd" +:+ Py.newline])%list.
Proof.
  split; [vm_compute; reflexivity|]. split; [reflexivity|].
  pose proof (atomic_append_adds_lines "k3x9" Samples.fs0 Samples.log_path "pwd" true
                ltac:(vm_compute; reflexivity) ltac:(vm_compute; reflexivity)) as H.
  cbv zeta in H. destruct H as (H1 & H2 & _).
  rewrite H1. change (Py.remove_char Py.nul "pwd") with "pwd" in *.
  rewrite H2 by reflexivity. reflexivity.
Defined.

(** *** What the append leaves alone *)

Lemma write_to_overflow_other F s p content gap q :
  (forall n, q <> overflow_path p n) -> write_to_overflow F s p content gap !! q = s !! q.
Proof.
  intros H. unfold write_to_overflow. destruct (find_overflow s p) as [n|]; [|done].
  destruct (f_overflow F); try done; apply lookup_insert_ne; intros E; by apply (H n).
Qed.

Lemma write_to_overflow_grows F s p content gap n :
  exists suffix,
    text_of (write_to_overflow F s p content gap !! overflow_path p n)
    = text_of (s !! overflow_path p n) +:+ suffix.
Proof.
  unfold write_to_overflow. destruct (find_overflow s p) as [m|].
  2:{ exists "". by rewrite StrFacts.app_nil_r. }
  destruct (decide (overflow_path p m = overflow_path p n)) as [E | E].
  - rewrite E. destruct (f_overflow F).
    + rewrite lookup_insert_eq. by eexists.
    + exists "". by rewrite StrFacts.app_nil_r.
    + rewrite lookup_insert_eq. by eexists.
  - exists "". rewrite StrFacts.app_nil_r.
    destruct (f_overflow F); try done; by rewrite lookup_insert_ne.
Qed.

(** the states [atomic_append] goes through differ from the first one at
    the target, the temporary file and the overflow files only *)
Lemma atomic_append_trace_other F tok files p content gap q :
  q <> p -> q <> temp_path p tok -> (forall n, q <> overflow_path p n) ->
  Forall (fun s => s !! q = files !! q) (trace (atomic_append F tok files p content gap)).
Proof.
  intros Hp Ht Ho.
  assert (Hrec : forall s content,
            s !! q = files !! q ->
            Forall (fun s => s !! q = files !! q) (recover F s (temp_path p tok) p content gap)).
  { intros s c Hs. unfold recover. constructor; [|constructor; [|constructor]].
    - by rewrite write_to_overflow_other.
    - rewrite lookup_delete_ne by done. by rewrite write_to_overflow_other. }
  assert (H1 : forall x, <[temp_path p tok := x]> files !! q = files !! q).
  { intros x. by rewrite lookup_insert_ne. }
  assert (H2 : forall x y, <[temp_path p tok := x]> (<[temp_path p tok := y]> files) !! q
                           = files !! q).
  { intros x y. by rewrite !lookup_insert_ne. }
  unfold atomic_append.
  destruct (f_mkdir F); [by constructor|].
  destruct (f_mkstemp F).
  { constructor; [done|]. constructor; [|constructor]. by rewrite write_to_overflow_other. }
  cbv zeta.
  destruct (match <[temp_path p tok:=""]> files !! p with
            | Some old => if read_fails F old then None
                          else Some (Py.remove_char Py.nul (Py.read_text old))
            | None => Some ""
            end) as [old|].
  - destruct (f_write F) as [k|]; [|destruct (f_move F)]; cbn [trace];
      repeat (constructor; [done|]); try (by apply Hrec).
    constructor; [|constructor].
    rewrite lookup_delete_ne, lookup_insert_ne by done. apply H2.
  - cbn [trace]. repeat (constructor; [done|]). by apply Hrec.
Qed.

(** the state [atomic_append] ends in *)
Lemma atomic_append_final F tok files p content gap :
  files !! temp_path p tok = None ->
  final files (atomic_append F tok files p content gap)
  = if f_mkdir F then files
    else if guarded_failure F files p
         then overflow_result F files p (entry_text (Py.remove_char Py.nul content) gap)
         else <[p := Py.remove_char Py.nul (Py.read_text (text_of (files !! p)))
                     +:+ entry_text (Py.remove_char Py.nul content) gap]> files.
Proof.
  intros Hfresh. unfold atomic_append, guarded_failure.
  destruct (f_mkdir F); [done|].
  destruct (f_mkstemp F); [done|]. cbn [orb]. cbv zeta.
  rewrite (lookup_insert_ne files) by apply temp_path_neq.
  assert (Hrec : forall x l o,
    trace o = (l ++ recover F (<[temp_path p tok := x]> files) (temp_path p tok) p
                       (Py.remove_char Py.nul content) gap)%list ->
    final files o = overflow_result F files p (entry_text (Py.remove_char Py.nul content) gap)).
  { intros x l o Ho. unfold final. rewrite Ho, last_app, recover_final by done. done. }
  destruct (files !! p) as [old|]; cbn [text_of default]; unfold id.
  - destruct (read_fails F old).
    + cbn [orb]. by apply (Hrec "" [files; <[temp_path p tok:=""]> files]).
    + cbn [orb]. destruct (f_write F) as [k|].
      * rewrite bool_decide_eq_true_2 by eauto. cbn [orb]. rewrite insert_insert_eq.
        by eapply (Hrec _ [files; <[temp_path p tok:=""]> files; _]).
      * rewrite bool_decide_eq_false_2 by (intros [? ?]; discriminate). cbn [orb].
        rewrite insert_insert_eq. destruct (f_move F).
        -- by eapply (Hrec _ [files; <[temp_path p tok:=""]> files; _]).
        -- unfold final. cbn [trace last default]. unfold id.
           rewrite delete_insert_ne by apply temp_path_neq.
           rewrite delete_insert_eq. by rewrite delete_id.
  - cbn [orb]. destruct (f_write F) as [k|].
    + rewrite bool_decide_eq_true_2 by eauto. cbn [orb]. rewrite insert_insert_eq.
      by eapply (Hrec _ [files; <[temp_path p tok:=""]> files; _]).
    + rewrite bool_decide_eq_false_2 by (intros [? ?]; discriminate). cbn [orb].
      rewrite insert_insert_eq. destruct (f_move F).
      * by eapply (Hrec _ [files; <[temp_path p tok:=""]> files; _]).
      * unfold final. cbn [trace last default]. unfold id.
        rewrite delete_insert_ne by apply temp_path_neq.
        rewrite delete_insert_eq. by rewrite delete_id.
Qed.

(** X6.  Whichever of its steps fails (making the parent directory,
    [mkstemp], the read of the target, the write of the temporary file,
    the move, the append to the overflow file), [atomic_append] stays
    within its own files.  In every state the call goes through, a file
    other than the target, the temporary file and the overflow files is
    as it was.  When the call is over the temporary file is gone, every
    overflow file holds what it held, with at most something added at
    its end, and a call that raises has changed nothing. *)
Theorem atomic_append_stays_within F tok files p content gap :
  files !! temp_path p tok = None ->
  let r := atomic_append F tok files p content gap in
  (forall q, q <> p -> q <> temp_path p tok -> (forall n, q <> overflow_path p n) ->
     Forall (fun s => s !! q = files !! q) (trace r)) /\
  final files r !! temp_path p tok = None /\
  (forall n, exists suffix,
     text_of (final files r !! overflow_path p n)
     = text_of (files !! overflow_path p n) +:+ suffix) /\
  (raised r = true -> final files r = files).
Proof.
  intros Hfresh r. subst r. split; [|split; [|split]].
  - intros q. apply atomic_append_trace_other.
  - rewrite atomic_append_final by done.
    destruct (f_mkdir F); [done|]. destruct (guarded_failure F files p).
    + rewrite <- write_to_overflow_eq, write_to_overflow_other; [done|].
      intros n. apply temp_overflow_neq.
    + rewrite lookup_insert_ne; [done|]. intros E. by apply (temp_path_neq p tok).
  - intros n. rewrite atomic_append_final by done.
    destruct (f_mkdir F); [exists ""; by rewrite StrFacts.app_nil_r|].
    destruct (guarded_failure F files p).
    + rewrite <- write_to_overflow_eq. apply write_to_overflow_grows.
    + exists "". rewrite StrFacts.app_nil_r, lookup_insert_ne; [done|].
      intros E. by apply (overflow_path_neq p n).
  - unfold atomic_append. destruct (f_mkdir F); [done|].
    destruct (f_mkstemp F); [done|]. cbv zeta.
    destruct (match <[temp_path p tok:=""]> files !! p with
              | Some old => if read_fails F old then None
                            else Some (Py.remove_char Py.nul (Py.read_text old))
              | None => Some ""
              end) as [old|]; [|done].
    destruct (f_write F); [done|]. by destruct (f_move F).
Qed.

Lemma atomic_append_stays_within_witness :
  Samples.fs0 !! temp_path Samples.log_path "k3x9" = None /\
  final Samples.fs0
    (atomic_append Samples.read_only_dir "k3x9" Samples.fs0 Samples.log_path "pwd" false)
    !! temp_path Samples.log_path "k3x9" = None.
Proof.
  split; [vm_compute; reflexivity|].
  pose proof (atomic_append_stays_within Samples.read_only_dir "k3x9" Samples.fs0
                Samples.log_path "pwd" false ltac:(vm_compute; reflexivity)) as H.
  cbv zeta in H. apply H.
Defined.

End WriterLaws.

Module EntryFacts.
Import Writer Entry EntrySpec TrackerSpec TrackerFacts TextSpec TextFacts WriterLaws.

Lemma digit_char_digit d : 0 <= d <= 9 -> Py.is_digit (digit_char d) = true.
Proof.
  intros H. assert (E : d = 0 \/ d = 1 \/ d = 2 \/ d = 3 \/ d = 4 \/ d = 5 \/ d = 6 \/
                        d = 7 \/ d = 8 \/ d = 9) by lia.
  repeat (destruct E as [-> | E]; [reflexivity|]). by subst.
Qed.

Lemma digit_char_val d : 0 <= d <= 9 -> Py.digit_val (digit_char d) = d.
Proof.
  intros H. assert (E : d = 0 \/ d = 1 \/ d = 2 \/ d = 3 \/ d = 4 \/ d = 5 \/ d = 6 \/
                        d = 7 \/ d = 8 \/ d = 9) by lia.
  repeat (destruct E as [-> | E]; [reflexivity|]). by subst.
Qed.

Lemma take_field_pad2 lo hi n r :
  0 <= n <= 99 -> lo <= n <= hi -> take_field lo hi (pad2 n +:+ r) = Some (n, r).
Proof.
  intros Hn Hr. unfold pad2. rewrite !StrFacts.app_cons, StrFacts.app_nil_l.
  cbn [take_field].
  assert (H1 : 0 <= n / 10 <= 9) by (Z.div_mod_to_equations; lia).
  assert (H2 : 0 <= n mod 10 <= 9) by (Z.div_mod_to_equations; lia).
  rewrite !digit_char_digit, !digit_char_val by done.
  replace (n / 10 * 10 + n mod 10) with n by (Z.div_mod_to_equations; lia).
  destruct (Z.leb_spec lo n); [|lia]. destruct (Z.leb_spec n hi); [|lia]. done.
Qed.

Lemma take_year_pad4 y r :
  0 <= y <= 9999 -> take_year (pad4 y +:+ r) = Some (y, r).
Proof.
  intros Hy. unfold pad4, pad2. rewrite !StrFacts.app_cons, StrFacts.app_nil_l.
  cbn [take_year].
  rewrite !digit_char_digit, !digit_char_val by (Z.div_mod_to_equations; lia).
  cbn [andb]. do 2 f_equal. Z.div_mod_to_equations; lia.
Qed.

Lemma take_day_digit a r :
  Py.is_digit a = true -> take_day (String a r) = take_field 1 31 (String a r).
Proof. destruct a as [[] [] [] [] [] [] [] []]; intros H; try discriminate H; reflexivity. Qed.

Lemma mk_datetime_inv y m d H M sec t :
  mk_datetime y m d H M sec = Some t ->
  1 <= y <= 9999 /\ 1 <= m <= 12 /\ 1 <= d <= 31 /\ 0 <= H <= 23 /\ 0 <= M <= 59 /\
  0 <= sec <= 59.
Proof.
  unfold mk_datetime.
  destruct ((1 <=? y) && (y <=? 9999) && (1 <=? m) && (m <=? 12) && (1 <=? d) &&
            (d <=? days_in_month y m) && (0 <=? H) && (H <=? 23) && (0 <=? M) && (M <=? 59) &&
            (0 <=? sec) && (sec <=? 59)) eqn:E; [|done].
  intros _. repeat (apply andb_prop in E as [E ?]).
  assert (days_in_month y m <= 31).
  { unfold days_in_month. destruct (m =? 2); [destruct (is_leap y); lia|].
    destruct ((m =? 4) || (m =? 6) || (m =? 9) || (m =? 11)); lia. }
  lia.
Qed.

Lemma take_date_strftime ts r t :
  mk_datetime (year ts) (month ts) (day ts) (hour ts) (minute ts) (second ts) = Some t ->
  take_date (strftime_date ts +:+ r) = Some (year ts, month ts, day ts, r).
Proof.
  intros (Hy & Hm & Hd & _)%mk_datetime_inv. unfold strftime_date, take_date.
  rewrite !StrFacts.app_assoc. rewrite take_year_pad4 by lia.
  rewrite StrFacts.app_cons, StrFacts.app_nil_l. cbn [take_lit Ascii.eqb Bool.eqb].
  rewrite take_field_pad2 by lia.
  rewrite StrFacts.app_cons, StrFacts.app_nil_l. cbn [take_lit Ascii.eqb Bool.eqb].
  unfold pad2 at 1. rewrite !StrFacts.app_cons, StrFacts.app_nil_l.
  rewrite take_day_digit by (apply digit_char_digit; Z.div_mod_to_equations; lia).
  change (String (digit_char (day ts / 10)) (String (digit_char (day ts mod 10)) r))
    with (pad2 (day ts) +:+ r).
  by rewrite take_field_pad2 by lia.
Qed.

Lemma lstrip_digit a r : Py.is_digit a = true -> Py.lstrip (String a r) = String a r.
Proof. destruct a as [[] [] [] [] [] [] [] []]; intros H; try discriminate H; reflexivity. Qed.

(** the stamp [strftime] writes is read back by [strptime] *)
Lemma strptime_strftime_full ts t :
  mk_datetime (year ts) (month ts) (day ts) (hour ts) (minute ts) (second ts) = Some t ->
  parse_timestamp (strftime_full ts) = Some t.
Proof.
  intros Ht. pose proof (mk_datetime_inv _ _ _ _ _ _ _ Ht) as (Hy & Hm & Hd & HH & HM & HS).
  unfold parse_timestamp, strptime_full, strftime_full.
  rewrite (take_date_strftime ts _ t Ht).
  rewrite StrFacts.app_cons, StrFacts.app_nil_l.
  change (take_spaces (String " " ?x)) with (Some (Py.lstrip x)).
  cbn [take_spaces]. change (Py.is_space " ") with true. cbv iota.
  unfold pad2 at 1. rewrite !StrFacts.app_cons, StrFacts.app_nil_l.
  rewrite lstrip_digit by (apply digit_char_digit; Z.div_mod_to_equations; lia).
  change (String (digit_char (hour ts / 10)) (String (digit_char (hour ts mod 10)) ?x))
    with (pad2 (hour ts) +:+ x).
  rewrite take_field_pad2 by lia.
  rewrite ?StrFacts.app_cons, ?StrFacts.app_nil_l. cbn [take_lit Ascii.eqb Bool.eqb].
  rewrite take_field_pad2 by lia.
  rewrite ?StrFacts.app_cons, ?StrFacts.app_nil_l. cbn [take_lit Ascii.eqb Bool.eqb].
  rewrite <- (StrFacts.app_nil_r (pad2 (second ts))).
  rewrite take_field_pad2 by lia. by rewrite Ht.
Qed.

Lemma strptime_strftime_date ts t d0 :
  mk_datetime (year ts) (month ts) (day ts) (hour ts) (minute ts) (second ts) = Some t ->
  mk_datetime (year ts) (month ts) (day ts) 0 0 0 = Some d0 ->
  parse_timestamp (strftime_date ts) = Some d0.
Proof.
  intros Ht Hd. unfold parse_timestamp, strptime_full, strptime_date.
  rewrite <- (StrFacts.app_nil_r (strftime_date ts)).
  rewrite (take_date_strftime ts "" t Ht). cbn [take_spaces]. by rewrite Hd.
Qed.

(** *** The stamp in a line of the log *)

Lemma span_not_rbracket_app g rest :
  avoids is_rbracket g = true ->
  span_not_rbracket (g +:+ String "]" rest) = (g, String "]" rest).
Proof.
  induction g as [|a g IH]; [done|]. cbn [avoids]. intros [Ha Hg]%andb_prop.
  apply negb_true_iff in Ha. unfold is_rbracket in Ha.
  rewrite StrFacts.app_cons. cbn [span_not_rbracket]. by rewrite Ha, IH.
Qed.

Lemma find_stamp_head g rest :
  g <> "" -> avoids is_rbracket g = true ->
  find_stamp ("[[" +:+ g +:+ "]]" +:+ rest) = Some g.
Proof.
  intros Hne Hg. rewrite !StrFacts.app_cons, StrFacts.app_nil_l.
  cbn [find_stamp match_stamp_here].
  change ("]]" +:+ rest) with (String "]" (String "]" rest)).
  rewrite span_not_rbracket_app by done.
  destruct g as [|a g]; [done|]. cbn. by rewrite StrFacts.prefix_nil.
Qed.

Lemma digit_is_plain a : Py.is_digit a = true -> plain a = false.
Proof. destruct a as [[] [] [] [] [] [] [] []]; intros H; try discriminate H; reflexivity. Qed.

Lemma pad2_plain n : 0 <= n <= 99 -> avoids plain (pad2 n) = true.
Proof.
  intros H. unfold pad2. cbn [avoids].
  by rewrite !digit_is_plain by (apply digit_char_digit; Z.div_mod_to_equations; lia).
Qed.

Lemma pad4_plain n : 0 <= n <= 9999 -> avoids plain (pad4 n) = true.
Proof.
  intros H. unfold pad4, pad2. cbn [avoids].
  by rewrite !digit_is_plain by (apply digit_char_digit; Z.div_mod_to_equations; lia).
Qed.

Lemma strftime_date_plain ts t :
  mk_datetime (year ts) (month ts) (day ts) (hour ts) (minute ts) (second ts) = Some t ->
  avoids plain (strftime_date ts) = true.
Proof.
  intros (Hy & Hm & Hd & _)%mk_datetime_inv. unfold strftime_date.
  by rewrite !avoids_app, pad4_plain, !pad2_plain by lia.
Qed.

Lemma strftime_full_plain ts t :
  mk_datetime (year ts) (month ts) (day ts) (hour ts) (minute ts) (second ts) = Some t ->
  avoids plain (strftime_full ts) = true.
Proof.
  intros Ht. pose proof (mk_datetime_inv _ _ _ _ _ _ _ Ht) as (Hy & Hm & Hd & HH & HM & HS).
  unfold strftime_full.
  by rewrite !avoids_app, (strftime_date_plain ts t Ht), !pad2_plain by lia.
Qed.

Lemma plain_parts s :
  avoids plain s = true ->
  avoids is_rbracket s = true /\ Py.remove_char Py.nul s = s.
Proof.
  intros H. split.
  - revert H. apply avoids_weaken. intros c Hc. unfold plain. by rewrite Hc.
  - apply remove_nul_id. revert H. apply avoids_weaken. intros c Hc. unfold plain.
    by rewrite Hc, !orb_true_r.
Qed.

(** the gap check on a log whose last entry opens with a stamp *)
Lemma stamped_entry_gap tok files p gap ev stamp body t mode :
  written (text_of (files !! p)) = true ->
  stamp <> "" -> avoids plain stamp = true -> parse_timestamp stamp = Some t ->
  one_line (("[[" +:+ stamp +:+ "]] ") +:+ body) = true ->
  Py.utf8_valid (("[[" +:+ stamp +:+ "]] ") +:+ body) = true ->
  mode <> "none" ->
  check_time_gap
    (final files (atomic_append no_faults tok files p (("[[" +:+ stamp +:+ "]] ") +:+ body) gap))
    p mode ev 1800
  = (1800 * usec_per_sec <=? ev - t).
Proof.
  intros Hw Hne Hplain Hparse Hline Hvalid Hmode.
  set (entry := ("[[" +:+ stamp +:+ "]] ") +:+ body) in *.
  destruct (appended_log tok files p entry gap Hw Hvalid) as (Hlines & Hone & Hnew).
  cbv zeta in Hlines, Hone, Hnew.
  destruct (plain_parts stamp Hplain) as [Hrb Hrm].
  assert (He : Py.remove_char Py.nul entry
               = "[[" +:+ stamp +:+ "]]" +:+ (" " +:+ Py.remove_char Py.nul body)).
  { unfold entry. rewrite !remove_char_app, Hrm. by rewrite !StrFacts.app_assoc. }
  assert (Hl : one_line (Py.remove_char Py.nul entry) = true) by by apply avoids_remove_char.
  rewrite (Hone Hl) in Hlines.
  unfold check_time_gap. destruct (String.eqb_spec mode "none") as [|_]; [done|].
  rewrite append_written in Hlines, Hnew |- * by done.
  cbn [text_of default] in Hlines, Hnew. unfold id in Hlines, Hnew.
  unfold last_timestamp.
  apply andb_prop in Hnew as [[-> _]%andb_prop _].
  rewrite Hlines, !app_assoc, last_snoc.
  rewrite He, !StrFacts.app_assoc, find_stamp_head by done.
  by rewrite Hparse.
Qed.

Lemma strftime_date_nonempty ts : strftime_date ts <> "".
Proof. unfold strftime_date, pad4. by rewrite StrFacts.app_cons. Qed.

Lemma strftime_full_nonempty ts : strftime_full ts <> "".
Proof. unfold strftime_full, strftime_date, pad4. by rewrite StrFacts.app_cons. Qed.

Lemma instant_inv ts t1 :
  instant ts = Some t1 ->
  mk_datetime (year ts) (month ts) (day ts) (hour ts) (minute ts) (second ts)
  = Some (t1 - microsecond ts).
Proof.
  unfold instant. destruct ((0 <=? microsecond ts) && (microsecond ts <=? 999999)); [|done].
  destruct (mk_datetime _ _ _ _ _ _) as [t|]; [|done]. cbn. intros [= <-]. f_equal. lia.
Qed.

Lemma midnight y m d H M sec t :
  mk_datetime y m d H M sec = Some t ->
  mk_datetime y m d 0 0 0 = Some (t - ((H * 60 + M) * 60 + sec) * usec_per_sec).
Proof.
  unfold mk_datetime.
  destruct ((1 <=? y) && (y <=? 9999) && (1 <=? m) && (m <=? 12) && (1 <=? d) &&
            (d <=? days_in_month y m)) eqn:E; [|done].
  cbn [andb]. change (0 <=? 0) with true. change (0 <=? 23) with true.
  change (0 <=? 59) with true. cbn [andb].
  destruct ((0 <=? H) && (H <=? 23) && (0 <=? M) && (M <=? 59) && (0 <=? sec) && (sec <=? 59));
    [|done].
  intros [= <-]. f_equal. unfold usec_per_sec. lia.
Qed.

(** X7.  The stamp [generate_entry] writes is the stamp [check_time_gap]
    reads.  Take an entry without a line break, made at [ts] (a year
    from 1000 on) and appended without failure to a log the writer left.
    In mode "full" the next check reports a gap exactly when the event
    is at least 1800 seconds after [ts] cut to the second.  In mode
    "date" the stamp holds the day only and the check compares with
    midnight of that day, so it reports a gap for every event from
    00:30 of that day on. *)
Theorem entry_stamp_read_back tool config content ts cwd dumps tok files p gap ev t1 :
  1000 <= year ts ->
  instant ts = Some t1 ->
  let entry := generate_entry tool config content ts cwd dumps in
  one_line entry = true ->
  Py.utf8_valid entry = true ->
  written (text_of (files !! p)) = true ->
  let files' := final files (atomic_append no_faults tok files p entry gap) in
  let seconds := t1 - microsecond ts in
  let midnight := seconds - ((hour ts * 60 + minute ts) * 60 + second ts) * usec_per_sec in
  (datetime_mode config = "full" ->
   check_time_gap files' p "full" ev 1800 = (1800 * usec_per_sec <=? ev - seconds)) /\
  (datetime_mode config = "date" ->
   check_time_gap files' p "date" ev 1800 = (1800 * usec_per_sec <=? ev - midnight) /\
   (midnight + 1800 * usec_per_sec <= ev -> check_time_gap files' p "date" ev 1800 = true)).
Proof.
  intros _ Ht%instant_inv entry Hline Hvalid Hw files' seconds midnight0.
  assert (Hshape : exists body,
            entry = format_datetime (datetime_mode config) ts +:+ body).
  { unfold entry, generate_entry. cbv zeta. by eexists. }
  destruct Hshape as [body Hshape]. subst files'. revert Hline Hvalid.
  rewrite Hshape. clear Hshape entry. intros Hline Hvalid.
  split.
  - intros Hmode. rewrite Hmode in Hline, Hvalid |- *.
    change (format_datetime "full" ts) with ("[[" +:+ strftime_full ts +:+ "]] ") in *.
    by apply (stamped_entry_gap tok files p gap ev (strftime_full ts) body _ "full" Hw
                (strftime_full_nonempty ts) (strftime_full_plain ts _ Ht)
                (strptime_strftime_full ts _ Ht) Hline Hvalid).
  - intros Hmode. rewrite Hmode in Hline, Hvalid |- *.
    change (format_datetime "date" ts) with ("[[" +:+ strftime_date ts +:+ "]] ") in *.
    assert (Hgap : forall ev',
      check_time_gap
        (final files
           (atomic_append no_faults tok files p (("[[" +:+ strftime_date ts +:+ "]] ") +:+ body) gap))
        p "date" ev' 1800
      = (1800 * usec_per_sec <=? ev' - midnight0)).
    { intros ev'.
      by apply (stamped_entry_gap tok files p gap ev' (strftime_date ts) body _ "date" Hw
                  (strftime_date_nonempty ts) (strftime_date_plain ts _ Ht)
                  (strptime_strftime_date ts _ _ Ht (midnight _ _ _ _ _ _ _ Ht)) Hline Hvalid). }
    split; [apply Hgap|]. intros Hev. rewrite Hgap. apply Z.leb_le. lia.
Qed.

Lemma entry_stamp_read_back_witness :
  1000 <= year sample_time /\
  instant sample_time = Some 63903288615250000 /\
  generate_entry sample_tool default_config "ls" sample_time "/proj" "{}"
  = "[[2026-01-05 09:30:15]] {Bash: ls }" /\
  check_time_gap
    (final Samples.fs0
       (atomic_append no_faults "k3x9" Samples.fs0 Samples.log_path
          (generate_entry sample_tool default_config "ls" sample_time "/proj" "{}") false))
    Samples.log_path "full" (63903288615000000 + 1800 * usec_per_sec) 1800 = true.
Proof.
  split; [vm_compute; discriminate|]. split; [vm_compute; reflexivity|].
  split; [vm_compute; reflexivity|].
  pose proof (entry_stamp_read_back sample_tool default_config "ls" sample_time "/proj" "{}"
                "k3x9" Samples.fs0 Samples.log_path false
                (63903288615000000 + 1800 * usec_per_sec) 63903288615250000
                ltac:(vm_compute; discriminate) ltac:(vm_compute; reflexivity)
                ltac:(vm_compute; reflexivity) ltac:(vm_compute; reflexivity)
                ltac:(vm_compute; reflexivity)) as H.
  cbv zeta in H. destruct H as [H _]. rewrite H by reflexivity. reflexivity.
Defined.

End EntryFacts.

Module LoggerFacts.
Import Reconciler Tracker Writer Logger LoggerSpec TrackerSpec TrackerFacts TextSpec TextFacts
       WriterFacts WriterLaws EntrySpec EntryFacts.

Lemma get_run_number_other F files sid p q :
  q <> run_path sid -> (get_run_number F files sid p).2 !! q = files !! q.
Proof.
  intros Hq. unfold get_run_number.
  destruct (match files !! run_path sid with
            | Some text => if f_read_cache F then None
                           else Py.int (Py.strip (Py.read_text text))
            | None => None
            end); [done|].
  cbn [snd]. destruct (f_write_cache F); [done|]. by rewrite lookup_insert_ne.
Qed.

Lemma atomic_append_not_raised F tok files p content gap :
  f_mkdir F = false -> raised (atomic_append F tok files p content gap) = false.
Proof.
  intros HF. unfold atomic_append. rewrite HF. destruct (f_mkstemp F); [done|]. cbv zeta.
  destruct (match <[temp_path p tok:=""]> files !! p with
            | Some old => if read_fails F old then None
                          else Some (Py.remove_char Py.nul (Py.read_text old))
            | None => Some ""
            end) as [old|]; [|done].
  destruct (f_write F); [done|]. by destruct (f_move F).
Qed.

Lemma guarded_failure_none files p :
  Py.utf8_valid (text_of (files !! p)) = true ->
  WriterSpec.guarded_failure Writer.no_faults files p = false.
Proof.
  intros Hv. unfold WriterSpec.guarded_failure, read_fails. cbn.
  destruct (files !! p) as [old|]; [|done]. cbn in Hv. by rewrite Hv.
Qed.

(** *** Text that is ASCII *)

Lemma digit_ascii a : Py.is_digit a = true -> is_ascii a = true.
Proof. destruct a as [[] [] [] [] [] [] [] []]; intros H; try discriminate H; reflexivity. Qed.

Lemma utf8_valid_ascii s : avoids (fun a => negb (is_ascii a)) s = true -> Py.utf8_valid s = true.
Proof.
  induction s as [|a s IH]; [done|]. cbn [avoids]. intros [Ha Hs]%andb_prop.
  rewrite negb_involutive in Ha. unfold is_ascii in Ha. cbn [Py.utf8_valid]. rewrite Ha. auto.
Qed.

Lemma digits_ascii s : Py.all_digits s = true -> avoids (fun a => negb (is_ascii a)) s = true.
Proof.
  induction s as [|a s IH]; [done|]. cbn [Py.all_digits avoids].
  intros [Ha Hs]%andb_prop. by rewrite (digit_ascii a Ha), IH.
Qed.

Lemma str_Z_valid z : Py.utf8_valid (Py.str_Z z) = true.
Proof.
  apply utf8_valid_ascii. unfold Py.str_Z. destruct (z <? 0).
  - rewrite avoids_app, (digits_ascii (Py.str_N (Z.to_N (- z)))) by apply StrFacts.str_N_digits.
    done.
  - apply digits_ascii, StrFacts.str_N_digits.
Qed.

Lemma pad2_ascii n : 0 <= n <= 99 -> avoids (fun a => negb (is_ascii a)) (Entry.pad2 n) = true.
Proof.
  intros H. unfold Entry.pad2. cbn [avoids].
  by rewrite !digit_ascii by (apply digit_char_digit; Z.div_mod_to_equations; lia).
Qed.

Lemma strftime_full_valid ts t :
  mk_datetime (Entry.year ts) (Entry.month ts) (Entry.day ts) (Entry.hour ts)
    (Entry.minute ts) (Entry.second ts) = Some t ->
  Py.utf8_valid (Entry.strftime_full ts) = true.
Proof.
  intros (Hy & Hm & Hd & HH & HM & HS)%mk_datetime_inv.
  apply utf8_valid_ascii. unfold Entry.strftime_full, Entry.strftime_date, Entry.pad4.
  repeat (progress (rewrite ?StrFacts.app_cons, ?StrFacts.app_nil_l, ?avoids_app;
                    cbn [avoids])).
  rewrite !pad2_ascii by (Z.div_mod_to_equations; lia).
  by rewrite !digit_ascii by (apply digit_char_digit; Z.div_mod_to_equations; lia).
Qed.

Lemma strftime_full_one_line ts t :
  mk_datetime (Entry.year ts) (Entry.month ts) (Entry.day ts) (Entry.hour ts)
    (Entry.minute ts) (Entry.second ts) = Some t ->
  one_line (Entry.strftime_full ts) = true.
Proof.
  intros Ht. pose proof (strftime_full_plain ts t Ht) as H. revert H.
  apply avoids_weaken. intros c Hc. unfold plain. by rewrite Hc, orb_true_r.
Qed.

(** *** The marker in a log *)

Lemma marker_valid n ts name :
  Py.utf8_valid ts = true -> Py.utf8_valid (name_part name) = true ->
  Py.utf8_valid (Py.strip (marker n ts name)) = true.
Proof.
  intros Hts Hname. rewrite marker_text.
  assert (Hrule : Py.utf8_valid rule = true) by (vm_compute; reflexivity).
  repeat (apply utf8_valid_app; [done|]).
  apply utf8_valid_app; [|by apply utf8_valid_app].
  unfold marker_line.
  apply utf8_valid_app; [vm_compute; reflexivity|].
  apply utf8_valid_app; [done|].
  apply utf8_valid_app; [vm_compute; reflexivity|].
  apply utf8_valid_app; [apply str_Z_valid|].
  apply utf8_valid_app; [vm_compute; reflexivity|done].
Qed.

Lemma marker_readlines n ts name :
  one_line ts = true -> one_line (name_part name) = true ->
  Py.readlines (Py.remove_char Py.nul (Py.strip (marker n ts name)) +:+ Py.newline)
  = marker_block n ts name.
Proof.
  intros Hts Hname. unfold marker_block.
  set (l := Py.remove_char Py.nul (marker_line n ts name)).
  assert (Hl : one_line l = true) by by apply marker_line_one_line.
  assert (Hrule : one_line rule = true) by (vm_compute; reflexivity).
  assert (Hcr : forall x, one_line x = true -> avoids is_cr x = true).
  { intros x. apply avoids_weaken. intros c Hc. unfold is_cr in Hc. unfold is_linebreak.
    by rewrite Hc, orb_true_r. }
  rewrite marker_text, !remove_char_app. fold l.
  replace (Py.remove_char Py.nul rule) with rule by (vm_compute; reflexivity).
  change (Py.remove_char Py.nul Py.newline) with Py.newline.
  rewrite !StrFacts.app_assoc. unfold Py.readlines.
  rewrite (read_text_app rule), (read_text_app Py.newline), (read_text_app l),
    (read_text_app Py.newline), (read_text_app rule) by (auto || reflexivity).
  change (Py.read_text Py.newline) with (Py.newline +:+ "").
  by rewrite !readlines_go_line.
Qed.

(** one marker, written without failure to a log the writer left *)
Lemma marker_append tok files p n ts name :
  files !! temp_path p tok = None ->
  written (text_of (files !! p)) = true ->
  one_line ts = true -> Py.utf8_valid ts = true ->
  one_line (name_part name) = true -> Py.utf8_valid (name_part name) = true ->
  let o := write_session_marker Writer.no_faults tok files p n ts name in
  raised o = false /\
  exists new,
    final files o = <[p := new]> files /\
    Py.readlines new = (Py.readlines (text_of (files !! p)) ++ marker_block n ts name)%list /\
    written new = true.
Proof.
  intros Hfresh Hw Hts Hvts Hname Hvname o. subst o. unfold write_session_marker.
  split; [by apply atomic_append_not_raised|].
  pose proof (appended_log tok files p (Py.strip (marker n ts name)) false Hw
                (marker_valid n ts name Hvts Hvname)) as (Hlines & _ & Hnew).
  cbv zeta in Hlines, Hnew.
  rewrite atomic_append_final in Hlines, Hnew |- * by done.
  cbn [f_mkdir Writer.no_faults] in Hlines, Hnew |- *.
  assert (Hv : Py.utf8_valid (text_of (files !! p)) = true).
  { by apply andb_prop in Hw as [[Hv _]%andb_prop _]. }
  rewrite guarded_failure_none in Hlines, Hnew |- * by done.
  rewrite lookup_insert_eq in Hlines, Hnew. cbn [text_of default] in Hlines, Hnew.
  unfold id in Hlines, Hnew.
  eexists. split; [reflexivity|]. split; [|exact Hnew].
  rewrite Hlines. cbn [app]. by rewrite marker_readlines.
Qed.

(** X8.  The session marker is written once per run.  Take a logger
    whose two logs, their temporary files and the two state files of the
    session are six different files, logs as the writer left them, and
    no failure.  When the flag of the run is there,
    [_maybe_write_session_marker] changes nothing.  Otherwise it does
    not raise, both logs keep their lines and get the same three marker
    lines after them, carrying the number [get_run_number] gives, no
    file other than the two logs, the run counter and the flag changes,
    and the flag is set: a second call changes nothing. *)
Theorem session_marker_once tok1 tok2 now L files shell unified t :
  let sid := session_id (session L) in
  shell_log_path L = Some shell -> unified_log_path L = Some unified ->
  List.NoDup [shell; unified; temp_path shell tok1; temp_path unified tok2;
              run_path sid; started_path sid] ->
  files !! temp_path shell tok1 = None -> files !! temp_path unified tok2 = None ->
  written (text_of (files !! shell)) = true -> written (text_of (files !! unified)) = true ->
  Entry.instant (event_time L) = Some t ->
  one_line (name_part (effective_name L)) = true ->
  Py.utf8_valid (name_part (effective_name L)) = true ->
  let r := maybe_write_session_marker no_faults tok1 tok2 now L files in
  (is_new_session_run files sid = false -> r = (files, false)) /\
  (is_new_session_run files sid = true ->
   let n := (get_run_number Tracker.no_faults files sid unified).1 in
   let block := marker_block n (Entry.strftime_full (event_time L)) (effective_name L) in
   r.2 = false /\
   is_new_session_run r.1 sid = false /\
   (forall tok1' tok2' now',
      maybe_write_session_marker no_faults tok1' tok2' now' L r.1 = (r.1, false)) /\
   Py.readlines (text_of (r.1 !! shell))
   = (Py.readlines (text_of (files !! shell)) ++ block)%list /\
   Py.readlines (text_of (r.1 !! unified))
   = (Py.readlines (text_of (files !! unified)) ++ block)%list /\
   (forall q, q <> shell -> q <> unified -> q <> run_path sid -> q <> started_path sid ->
      r.1 !! q = files !! q)).
Proof.
  intros sid Hshell Hunified Hnd Hf1 Hf2 Hw1 Hw2 Ht%instant_inv Hname Hvname r.
  apply NoDup_ListNoDup in Hnd.
  apply NoDup_cons in Hnd as [Ha Hnd]. apply NoDup_cons in Hnd as [Hb Hnd].
  apply NoDup_cons in Hnd as [Hc Hnd]. apply NoDup_cons in Hnd as [Hd Hnd].
  apply NoDup_cons in Hnd as [He _].
  rewrite !not_elem_of_cons in Ha. rewrite !not_elem_of_cons in Hb.
  rewrite !not_elem_of_cons in Hc. rewrite !not_elem_of_cons in Hd.
  rewrite !not_elem_of_cons in He.
  destruct Ha as (Hab & Hac & Had & Hae & Haf & _).
  destruct Hb as (Hbc & Hbd & Hbe & Hbf & _).
  destruct Hc as (Hcd & Hce & Hcf & _).
  destruct Hd as (Hde & Hdf & _).
  destruct He as (Hef & _).
  pose proof (strftime_full_one_line _ _ Ht) as Hts.
  pose proof (strftime_full_valid _ _ Ht) as Hvts.
  subst r. unfold maybe_write_session_marker. fold sid. rewrite Hshell, Hunified.
  split.
  { intros ->. done. }
  intros Hnew. rewrite Hnew. cbn [negb]. cbv zeta.
  cbn [f_tracker f_shell f_unified Logger.no_faults].
  pose proof (get_run_number_other Tracker.no_faults files sid unified) as Hother.
  destruct (get_run_number Tracker.no_faults files sid unified) as [n files1].
  cbn [fst snd] in Hother |- *.
  destruct (marker_append tok1 files1 shell n (Entry.strftime_full (event_time L))
              (effective_name L)) as (Hr1 & new1 & Hfin1 & Hlines1 & Hwr1);
    try done.
  { rewrite Hother; [done|]. congruence. }
  { rewrite Hother; [done|]. congruence. }
  cbv zeta in Hr1, Hfin1. rewrite Hother in Hlines1 by congruence.
  cbn [f_shell f_unified no_faults]. rewrite Hr1, Hfin1.
  destruct (marker_append tok2 (<[shell := new1]> files1) unified n
              (Entry.strftime_full (event_time L)) (effective_name L))
    as (Hr2 & new2 & Hfin2 & Hlines2 & Hwr2); try done.
  { rewrite lookup_insert_ne by congruence. rewrite Hother; [done|]. congruence. }
  { rewrite lookup_insert_ne by congruence. rewrite Hother; [done|]. congruence. }
  cbv zeta in Hr2, Hfin2.
  rewrite lookup_insert_ne, Hother in Hlines2 by congruence.
  rewrite Hr2, Hfin2. unfold mark_session_started. cbn [f_state_dir f_flag no_faults fst snd].
  assert (Hflag : is_new_session_run
                    (<[started_path sid := now]> (<[unified := new2]> (<[shell := new1]> files1)))
                    sid = false).
  { unfold is_new_session_run. rewrite lookup_insert_eq. done. }
  split; [done|]. split; [exact Hflag|]. split.
  { intros tok1' tok2' now'. by rewrite Hflag. }
  split.
  { rewrite !lookup_insert_ne by congruence. by rewrite lookup_insert_eq. }
  split.
  { rewrite lookup_insert_ne by congruence. by rewrite lookup_insert_eq. }
  intros q Hq1 Hq2 Hq3 Hq4. rewrite !lookup_insert_ne by congruence. by apply Hother.
Qed.

Lemma session_marker_once_witness :
  is_new_session_run ∅ "abc-123" = true /\
  shell_log_path sample_logger
  = Some "~/.claude/sesslogs/__abc-123_alice/.shell_bash_abc-123_alice.log" /\
  (maybe_write_session_marker no_faults "k3x9" "p7q2" "2026-01-05 09:30:15.250000"
     sample_logger ∅).2 = false /\
  Py.readlines
    (text_of ((maybe_write_session_marker no_faults "k3x9" "p7q2" "2026-01-05 09:30:15.250000"
                 sample_logger ∅).1
              !! "~/.claude/sesslogs/__abc-123_alice/.shell_bash_abc-123_alice.log"))
  = marker_block 1 "2026-01-05 09:30:15" None.
Proof.
  split; [reflexivity|]. split; [reflexivity|].
  pose proof (session_marker_once "k3x9" "p7q2" "2026-01-05 09:30:15.250000" sample_logger ∅
                "~/.claude/sesslogs/__abc-123_alice/.shell_bash_abc-123_alice.log"
                "~/.claude/sesslogs/__abc-123_alice/.sesslog_bash_abc-123_alice.log"
                63903288615250000 eq_refl eq_refl
                ltac:(apply ReconcilerFacts.distinct_NoDup; vm_compute; reflexivity)
                eq_refl eq_refl eq_refl eq_refl
                ltac:(vm_compute; reflexivity) eq_refl eq_refl) as H.
  cbv zeta in H. destruct H as [_ H]. specialize (H eq_refl).
  destruct H as (H1 & _ & _ & H2 & _). split; [exact H1|]. rewrite H2. reflexivity.
Defined.

(** *** The paths of the logs *)

Lemma app_inv_head (a x y : string) : a +:+ x = a +:+ y -> x = y.
Proof.
  induction a as [|c a IH]; [done|]. rewrite !StrFacts.app_cons. intros [= H]. auto.
Qed.

Lemma in_dir_inj directory n1 n2 : in_dir directory n1 = in_dir directory n2 -> n1 = n2.
Proof. unfold in_dir. intros H%app_inv_head. by injection H. Qed.

(** the targets [reconcile_session_files] returns for a named session *)
Lemma targets_named d sid name shell user ft :
  name <> "" -> In ft ["shell"; "sesslog"; "tasks"] ->
  (reconcile_session_files d sid (Some name) shell user).2 !! (FILE_PREFIX +:+ ft)
  = Some (build_filename "" ft shell (Some name) sid user None).
Proof.
  intros Hname Hft.
  rewrite (ReconcilerFacts.reconcile_session_files_run sid name shell user Hname).
  cbn [snd]. unfold ReconcilerSpec.target_dict, categories. cbn [fold_left fst snd].
  unfold target_name.
  destruct Hft as [<- | [<- | [<- | []]]].
  - do 4 (rewrite lookup_insert_ne by done). by rewrite lookup_insert_eq.
  - do 5 (rewrite lookup_insert_ne by done). by rewrite lookup_insert_eq.
  - do 3 (rewrite lookup_insert_ne by done). by rewrite lookup_insert_eq.
Qed.

(** X9.  The logger writes where the reconciler looks.  For a session
    with a name, the paths of the shell, unified and task logs are the
    canonical names of [build_filename] inside the session directory.
    For an unnamed session nothing is reconciled; the shell and unified
    logs still follow [build_filename], while the task log is called
    with two underscores before the session id and before the user,
    which is not the name [build_filename] gives.  Any other file type
    is refused.  In both cases the three logs are different files. *)
Theorem log_paths_follow_names (L : SessionLogger) :
  let s := session L in
  let canonical name ft :=
    in_dir (session_dir L)
      (build_filename "" ft (shell_type s) name (session_id s) (username s) None) in
  (forall d name, name <> "" ->
     target_paths L
     = (reconcile_session_files d (session_id s) (Some name) (shell_type s) (username s)).2 ->
     (forall ft, In ft ["shell"; "sesslog"; "tasks"] ->
        get_file_path L ft = Some (canonical (Some name) ft)) /\
     shell_log_path L <> unified_log_path L /\ shell_log_path L <> task_log_path L /\
     unified_log_path L <> task_log_path L) /\
  (target_paths L = ∅ -> truthy (session_name s) = false ->
     shell_log_path L = Some (canonical None "shell") /\
     unified_log_path L = Some (canonical None "sesslog") /\
     task_log_path L
     = Some (in_dir (session_dir L)
               (".tasks_" +:+ shell_type s +:+ "__" +:+ session_id s +:+ "__" +:+ username s
                +:+ ".log")) /\
     task_log_path L <> Some (canonical None "tasks") /\
     shell_log_path L <> unified_log_path L /\ shell_log_path L <> task_log_path L /\
     unified_log_path L <> task_log_path L) /\
  (target_paths L = ∅ ->
   forall ft, ft <> "shell" -> ft <> "sesslog" -> ft <> "tasks" -> get_file_path L ft = None).
Proof.
  intros s canonical. split; [|split].
  - intros d name Hname Htargets.
    assert (Hget : forall ft, In ft ["shell"; "sesslog"; "tasks"] ->
                     get_file_path L ft = Some (canonical (Some name) ft)).
    { intros ft Hft. unfold get_file_path. cbv zeta.
      by rewrite Htargets, (targets_named d _ name _ _ ft Hname Hft). }
    split; [exact Hget|].
    unfold shell_log_path, unified_log_path, task_log_path.
    rewrite !Hget by (cbn; auto). unfold canonical, build_filename.
    rewrite (ReconcilerFacts.truthy_name name Hname).
    split; [|split]; intros [= H%in_dir_inj]; vm_compute in H; discriminate H.
  - intros Htargets Hunnamed.
    assert (Hctx : get_filename_context s
                   = shell_type s +:+ "_" +:+ session_id s +:+ "_" +:+ username s).
    { unfold get_filename_context. rewrite Hunnamed. by destruct (session_name s). }
    assert (Htask : get_task_filename_context s
                    = shell_type s +:+ "__" +:+ session_id s +:+ "__" +:+ username s).
    { unfold get_task_filename_context. rewrite Hunnamed. by destruct (session_name s). }
    unfold shell_log_path, unified_log_path, task_log_path, get_file_path. cbv zeta.
    rewrite Htargets, !lookup_empty. cbn [String.eqb Ascii.eqb Bool.eqb].
    fold s. rewrite Hctx, Htask. unfold canonical, build_filename, FILE_PREFIX. cbn [truthy].
    rewrite !StrFacts.app_nil_l.
    split; [by rewrite !StrFacts.app_assoc|]. split; [by rewrite !StrFacts.app_assoc|].
    split; [by rewrite !StrFacts.app_assoc|].
    split.
    { intros [= H%in_dir_inj]. apply (f_equal String.length) in H.
      rewrite !StrFacts.length_app in H. cbn [String.length] in H. lia. }
    split; [|split]; intros [= H%in_dir_inj]; vm_compute in H; discriminate H.
  - intros Htargets ft H1 H2 H3. unfold get_file_path. cbv zeta.
    rewrite Htargets, lookup_empty.
    destruct (String.eqb_spec ft "shell"); [done|].
    destruct (String.eqb_spec ft "sesslog"); [done|].
    by destruct (String.eqb_spec ft "tasks").
Qed.

End LoggerFacts.

Module ResolverLaws.
Import Json Resolver ResolverSpec ResolverInv ResolverFacts TrackerSpec TrackerFacts
       TextSpec TextFacts.

(** *** The characters of a sanitized name *)

Lemma lower_char_not_upper a : Re.is_upper (Py.lower_char a) = false.
Proof. by destruct a as [[] [] [] [] [] [] [] []]. Qed.

Lemma lower_not_upper s : avoids Re.is_upper (Py.lower s) = true.
Proof.
  remember (String.length s) as n eqn:Hn. revert s Hn.
  induction n as [n IH] using lt_wf_ind. intros s Hn.
  destruct s as [|a [|b t1]]; [done| |].
  - cbn. by rewrite lower_char_not_upper.
  - assert (H1 : avoids Re.is_upper (Py.lower (String b t1)) = true).
    { apply (IH (String.length (String b t1))); [subst n; cbn; lia | done]. }
    assert (H2 : avoids Re.is_upper (Py.lower t1) = true).
    { apply (IH (String.length t1)); [subst n; cbn; lia | done]. }
    change (Py.lower (String a (String b t1)))
      with (if Ascii.eqb a "196" && Ascii.eqb b "176"
            then String "i" (String "204" (String "135" (Py.lower t1)))
            else match t1 with
                 | String c t2 =>
                     if Ascii.eqb a "226" && Ascii.eqb b "132" && Ascii.eqb c "170"
                     then String "k" (Py.lower t2)
                     else String (Py.lower_char a) (Py.lower (String b t1))
                 | EmptyString => String (Py.lower_char a) (Py.lower (String b t1))
                 end).
    destruct (Ascii.eqb a "196" && Ascii.eqb b "176").
    { cbn [avoids]. by rewrite H2. }
    destruct t1 as [|c t2].
    { cbn [avoids]. by rewrite lower_char_not_upper, H1. }
    destruct (Ascii.eqb a "226" && Ascii.eqb b "132" && Ascii.eqb c "170").
    + cbn [avoids]. rewrite (IH (String.length t2)); [done | subst n; cbn; lia | done].
    + cbn [avoids]. by rewrite lower_char_not_upper, H1.
Qed.

Lemma kept_char a :
  Re.is_upper a = false -> name_char (if keep_char a then a else "-"%char) = true.
Proof. destruct a as [[] [] [] [] [] [] [] []]; intros H; try discriminate H; reflexivity. Qed.

Lemma smap_named s :
  avoids Re.is_upper s = true ->
  named (Py.smap (fun a => if keep_char a then a else "-"%char) s) = true.
Proof.
  unfold named. induction s as [|a s IH]; [done|]. cbn [avoids Py.smap].
  intros [Ha Hs]%andb_prop. apply negb_true_iff in Ha. by rewrite kept_char, IH.
Qed.

Lemma collapse_hyphens_avoids p s :
  avoids p s = true -> avoids p (collapse_hyphens s) = true.
Proof.
  induction s as [|a t IH]; [done|]. cbn [avoids]. intros [Ha Ht]%andb_prop.
  cbn [collapse_hyphens]. destruct (is_hyphen a).
  - destruct t as [|b t']; [cbn [avoids]; by rewrite Ha|].
    destruct (is_hyphen b); [by apply IH|]. cbn [avoids]. rewrite Ha. by apply IH.
  - cbn [avoids]. rewrite Ha. by apply IH.
Qed.

Lemma lstrip_chars_avoids p q s :
  avoids p s = true -> avoids p (Py.lstrip_chars q s) = true.
Proof.
  induction s as [|a t IH]; [done|]. intros H. cbn [Py.lstrip_chars].
  destruct (q a); [|done]. apply IH. cbn [avoids] in H. by apply andb_prop in H as [_ H].
Qed.

Lemma avoids_prefix p x z : avoids p (x +:+ z) = true -> avoids p x = true.
Proof. rewrite avoids_app. by intros [H _]%andb_prop. Qed.

Lemma rstrip_chars_avoids p q s :
  avoids p s = true -> avoids p (Py.rstrip_chars q s) = true.
Proof.
  intros H. destruct (rstrip_prefix q s) as [z Hz]. rewrite Hz in H.
  by apply avoids_prefix in H.
Qed.

Lemma sanitize_named name : named (sanitize_folder_name name) = true.
Proof.
  unfold sanitize_folder_name. apply rstrip_chars_avoids, lstrip_chars_avoids,
    collapse_hyphens_avoids, smap_named, lower_not_upper.
Qed.

Lemma usable_parts_named l : Forall (fun p => named (sanitized p) = true) (usable_parts l).
Proof.
  induction l as [|x l IH]; [constructor|]. cbn [usable_parts].
  destruct (negb _); [|done]. constructor; [|done]. apply sanitize_named.
Qed.

Lemma join_named segs :
  Forall (fun s => named s = true) segs -> named (Py.join "--" segs) = true.
Proof.
  induction 1 as [|x l Hx Hl IH]; [done|]. destruct l as [|y l]; [done|].
  rewrite join_cons. unfold named in *. by rewrite !avoids_app, Hx, IH.
Qed.

Lemma take_avoids p n s : avoids p s = true -> avoids p (Py.take n s) = true.
Proof.
  intros H. destruct (take_prefix n s) as [z Hz]. rewrite <- Hz in H.
  by apply avoids_prefix in H.
Qed.

Lemma before_last_prefix sep s pre :
  Py.before_last sep s = Some pre -> exists z, s = pre +:+ z.
Proof.
  revert pre. induction s as [|a t IH]; [done|]. intros pre. cbn [Py.before_last].
  destruct (Py.before_last sep t) as [r|].
  - intros [= <-]. destruct (IH r eq_refl) as [z ->]. by exists z.
  - destruct (String.prefix sep (String a t)); [|done]. intros [= <-]. by eexists.
Qed.

Lemma rsplit_head_prefix sep s : exists z, s = Py.rsplit_head sep s +:+ z.
Proof.
  unfold Py.rsplit_head. destruct (Py.before_last sep s) as [pre|] eqn:E.
  - by apply before_last_prefix in E.
  - exists "". by rewrite StrFacts.app_nil_r.
Qed.

Lemma take_length n s : (String.length (Py.take n s) <= n)%nat.
Proof.
  unfold Py.take. revert s. induction n as [|n IH]; intros [|a s]; cbn; try lia.
  specialize (IH s). lia.
Qed.

Lemma prefix_length (x z : string) : (String.length x <= String.length (x +:+ z))%nat.
Proof. rewrite StrFacts.length_app. lia. Qed.

Lemma segments_named cwd i :
  Forall (fun s => named s = true) (List.map sanitized (drop i (segments cwd))).
Proof.
  apply Forall_map. apply Forall_drop. apply (usable_parts_named (last4 (path_parts cwd))).
Qed.

Lemma hyphen_first_prefix x z : x <> "" -> hyphen_first (x +:+ z) = hyphen_first x.
Proof. by destruct x. Qed.

Lemma name_char_safe a :
  name_char a = true ->
  Reconciler.unsafe_char a = false /\ is_ascii a = true /\ Py.is_space a = false /\
  Ascii.eqb a Py.CR = false.
Proof. destruct a as [[] [] [] [] [] [] [] []]; intros H; try discriminate H; done. Qed.

Lemma named_smap_safe s :
  named s = true ->
  Py.smap (fun a => if Reconciler.unsafe_char a then "_"%char else a) s = s.
Proof.
  unfold named. induction s as [|a s IH]; [done|]. cbn [avoids Py.smap].
  intros [Ha Hs]%andb_prop. rewrite negb_involutive in Ha.
  destruct (name_char_safe a Ha) as (-> & _). by rewrite IH.
Qed.

(** what the name [derive_session_name_from_cwd] returns is made of *)
Lemma derive_shape cwd name :
  derive_session_name_from_cwd cwd = Some name ->
  exists full z, full = name +:+ z /\ name <> "" /\ named full = true /\
                 hyphen_first full = false /\ (String.length name <= 50)%nat.
Proof.
  rewrite derive_unfold. destruct (last (segments cwd)) as [leaf|] eqn:El; [|done].
  destruct (leaf_alone leaf) eqn:Hleaf.
  - intros [= <-]. destruct (take_prefix 50 (sanitized leaf)) as [z Hz].
    exists (sanitized leaf), z. split; [done|].
    apply last_Some in El as [l' El].
    pose proof (usable_parts_named (last4 (path_parts cwd))) as Hn.
    pose proof (usable_parts_clean (last4 (path_parts cwd))) as Hc.
    fold (segments cwd) in Hn, Hc. rewrite El in Hn, Hc.
    apply Forall_app in Hn as [_ Hn]. apply Forall_app in Hc as [_ Hc].
    rewrite Forall_singleton in Hn. rewrite Forall_singleton in Hc.
    apply clean_inv in Hc as (_ & _ & a & t & Ht & Ha).
    split; [|split; [done|split; [|apply take_length]]].
    + rewrite Ht. unfold Py.take. by cbn.
    + by rewrite Ht.
  - set (segs := List.map sanitized (drop (start_index (segments cwd)) (segments cwd))).
    pose proof (segments_named cwd (start_index (segments cwd))) as Hn. fold segs in Hn.
    pose proof (segments_clean cwd (start_index (segments cwd))) as Hc. fold segs in Hc.
    assert (Hne : segs <> []).
    { destruct (start_index_nearest (segments cwd)) as [_ [Hlt | Hnil]].
      - intros E. apply (f_equal length) in E. subst segs.
        rewrite length_map, length_drop in E. cbn in E. lia.
      - rewrite Hnil in El. discriminate. }
    destruct segs as [|x rest] eqn:Esegs; [done|].
    intros Hd. assert (Hname : name = shorten (Py.join "--" (x :: rest)))
      by (by injection Hd).
    clear Hd. subst name.
    assert (Hx : clean x = true) by (by inversion Hc).
    apply clean_inv in Hx as (_ & _ & a & t & Hxt & Ha).
    destruct (join_head "--" x rest) as [tl Hjoin].
    assert (Hfirst : hyphen_first (Py.join "--" (x :: rest)) = false).
    { rewrite Hjoin, Hxt. done. }
    exists (Py.join "--" (x :: rest)).
    unfold shorten. destruct (Nat.ltb_spec 50 (String.length (Py.join "--" (x :: rest)))).
    + destruct (take_prefix 50 (Py.join "--" (x :: rest))) as [z1 Hz1].
      destruct (rsplit_head_prefix "--" (Py.take 50 (Py.join "--" (x :: rest)))) as [z2 Hz2].
      exists (z2 +:+ z1). split; [by rewrite <- StrFacts.app_assoc, <- Hz2, Hz1|].
      split; [|split; [by apply join_named|split; [done|]]].
      * destruct (shorten_long (x :: rest) Hc H) as [Hp Hb]. unfold shorten in Hp, Hb.
        destruct (Nat.ltb_spec 50 (String.length (Py.join "--" (x :: rest)))); [|lia].
        destruct (pair_free (Py.take 50 (Py.join "--" (x :: rest)))) eqn:Epf.
        -- rewrite Hp by done. rewrite Hjoin, Hxt. unfold Py.take. by cbn.
        -- destruct (Hb eq_refl) as (k & Hk & ->).
           destruct k as [|k]; [lia|]. cbn [take].
           destruct (join_head "--" x (take k rest)) as [tl' ->]. by rewrite Hxt.
      * pose proof (take_length 50 (Py.join "--" (x :: rest))) as Ht50.
        pose proof (prefix_length (Py.rsplit_head "--" (Py.take 50 (Py.join "--" (x :: rest))))
                      z2) as Hpre. rewrite <- Hz2 in Hpre. lia.
    + exists "". rewrite StrFacts.app_nil_r. split; [done|].
      split; [by rewrite Hjoin, Hxt|]. split; [by apply join_named|]. split; [done|lia].
Qed.

Lemma derived_name_shape_named cwd name :
  derive_session_name_from_cwd cwd = Some name -> named name = true /\ name <> "".
Proof.
  intros (full & z & -> & Hne & Hnamed & _)%derive_shape.
  split; [by apply avoids_prefix in Hnamed | done].
Qed.

(** X10.  A name derived from the working directory is safe in a file
    name.  It is not empty, has at most 50 characters, all of them
    lower-case letters, digits, underscores or hyphens, and does not
    start with a hyphen.  So [sanitize_dirname] leaves it as it is and
    the session directory is called by the name itself, followed by the
    session id and the user. *)
Theorem derived_name_safe cwd name :
  derive_session_name_from_cwd cwd = Some name ->
  name <> "" /\ (String.length name <= 50)%nat /\ named name = true /\
  hyphen_first name = false /\
  Reconciler.sanitize_dirname name 50 = name /\
  (forall sid user,
     Reconciler.build_session_directory (Some name) sid user
     = name +:+ "__" +:+ sid +:+ "_" +:+ user).
Proof.
  intros (full & z & -> & Hne & Hnamed & Hfirst & Hlen)%derive_shape.
  assert (Hn : named name = true) by (by apply avoids_prefix in Hnamed).
  assert (Hs : Reconciler.sanitize_dirname name 50 = name).
  { unfold Reconciler.sanitize_dirname. rewrite named_smap_safe by done.
    by apply (take_all 50). }
  split; [done|]. split; [done|]. split; [done|].
  split; [by rewrite hyphen_first_prefix in Hfirst|]. split; [done|].
  intros sid user. unfold Reconciler.build_session_directory. rewrite Hs.
  cbn [Reconciler.truthy]. by destruct (String.eqb_spec name "").
Qed.

Lemma derived_name_safe_witness :
  derive_session_name_from_cwd "/home/user/My Project (v2)" = Some "my-project-v2" /\
  Reconciler.build_session_directory (Some "my-project-v2") "abc-123" "alice"
  = "my-project-v2__abc-123_alice".
Proof.
  assert (H : derive_session_name_from_cwd "/home/user/My Project (v2)" = Some "my-project-v2")
    by (vm_compute; reflexivity).
  split; [exact H|].
  destruct (derived_name_safe _ _ H) as (_ & _ & _ & _ & _ & Hdir).
  rewrite Hdir. reflexivity.
Defined.

(** *** The name in the cache *)

Lemma named_avoids (p : ascii -> bool) s :
  (forall c, p c = true -> name_char c = false) -> named s = true -> avoids p s = true.
Proof.
  intros Hp. unfold named. apply avoids_weaken. intros c Hc. by rewrite (Hp c Hc).
Qed.

Lemma named_valid s : named s = true -> Py.utf8_valid s = true.
Proof.
  intros H. apply LoggerFacts.utf8_valid_ascii. revert H. apply named_avoids.
  intros c Hc. destruct (name_char c) eqn:E; [|done].
  destruct (name_char_safe c E) as (_ & Ha & _). by rewrite Ha in Hc.
Qed.

Lemma named_read_text s : named s = true -> Py.read_text s = s.
Proof.
  intros H. rewrite <- (StrFacts.app_nil_r s) at 1. rewrite read_text_app.
  - apply StrFacts.app_nil_r.
  - revert H. apply named_avoids. intros c Hc. unfold is_cr in Hc.
    destruct (name_char c) eqn:E; [|done].
    destruct (name_char_safe c E) as (_ & _ & _ & Hcr). congruence.
Qed.

Lemma rstrip_avoids s : avoids Py.is_space s = true -> Py.rstrip s = s.
Proof.
  induction s as [|a t IH]; [done|]. cbn [avoids]. intros [Ha Ht]%andb_prop.
  apply negb_true_iff in Ha. cbn [Py.rstrip]. rewrite IH by done.
  destruct t; [by rewrite Ha|done].
Qed.

Lemma named_strip s : named s = true -> Py.strip s = s.
Proof.
  intros H. assert (Hs : avoids Py.is_space s = true).
  { revert H. apply named_avoids. intros c Hc. destruct (name_char c) eqn:E; [|done].
    destruct (name_char_safe c E) as (_ & _ & Hsp & _). congruence. }
  unfold Py.strip. rewrite rstrip_avoids by done.
  destruct s as [|a t]; [done|]. cbn [avoids] in Hs. apply andb_prop in Hs as [Ha _].
  apply negb_true_iff in Ha. cbn [Py.lstrip]. by rewrite Ha.
Qed.

Lemma index_path_neq tp sid : sessions_index_path tp <> name_cache_path sid.
Proof.
  intros E. apply (f_equal Py.last_char) in E. revert E.
  unfold name_cache_path.
  change (state_dir +:+ "/" +:+ sid +:+ ".name-cache")
    with (state_dir +:+ ("/" +:+ sid +:+ ".name-cache")).
  rewrite (StrFacts.last_char_app state_dir) by done.
  change ("/" +:+ sid +:+ ".name-cache") with (("/" +:+ sid) +:+ ".name-cache").
  rewrite (StrFacts.last_char_app ("/" +:+ sid)) by done.
  unfold sessions_index_path, sibling.
  destruct (Py.before_last "/" tp) as [[|a dir]|].
  - by rewrite (StrFacts.last_char_app "/").
  - change (String a dir +:+ "/" +:+ "sessions-index.json")
      with (String a dir +:+ ("/" +:+ "sessions-index.json")).
    by rewrite (StrFacts.last_char_app (String a dir)).
  - done.
Qed.

(** a session without a name, once a name is put in its cache *)
Lemma get_session_name_cached files sid tp name :
  tp <> name_cache_path sid ->
  truthy (get_session_name files sid tp).1 = false ->
  named name = true -> name <> "" ->
  get_session_name (<[name_cache_path sid := name]> files) sid tp
  = (JStr name, <[name_cache_path sid := name]> files).
Proof.
  intros Htp Hfalsy Hnamed Hne. unfold get_session_name in *. cbv zeta in *.
  cbn [fst] in Hfalsy.
  assert (H1 : read_utf8 (<[name_cache_path sid := name]> files) tp = read_utf8 files tp).
  { unfold read_utf8. by rewrite lookup_insert_ne. }
  assert (H2 : index_title (<[name_cache_path sid := name]> files) (sessions_index_path tp) sid
               = index_title files (sessions_index_path tp) sid).
  { unfold index_title, read_utf8. rewrite lookup_insert_ne; [done|].
    intros E. symmetry in E. by apply index_path_neq in E. }
  rewrite !H1, !H2.
  set (m := if String.eqb tp "" then JNull
            else if negb (truthy match read_utf8 files tp with
                                 | Some text => scan_transcript (Py.readlines text) JNull
                                 | None => JNull
                                 end)
                 then index_title files (sessions_index_path tp) sid
                 else match read_utf8 files tp with
                      | Some text => scan_transcript (Py.readlines text) JNull
                      | None => JNull
                      end) in *.
  assert (Hm : truthy m = false).
  { destruct (truthy m) eqn:E; [|done]. cbn [negb] in Hfalsy. congruence. }
  rewrite Hm. cbn [negb].
  unfold read_utf8. rewrite lookup_insert_eq. unfold Py.decode_utf8.
  rewrite named_valid, named_read_text, named_strip by done.
  destruct (String.eqb_spec name "") as [|_]; [done|]. cbn [negb truthy].
  destruct (String.eqb_spec name "") as [|_]; [done|]. cbn [negb].
  by rewrite insert_insert_eq.
Qed.

Lemma get_session_name_falsy files sid tp :
  truthy (get_session_name files sid tp).1 = false ->
  (get_session_name files sid tp).2 = files.
Proof.
  unfold get_session_name. cbn [fst snd]. by intros ->.
Qed.

(** X11.  The name given on session start is the name the later hooks
    find.  When [apply_auto_name_on_session_start] applies a name, that
    name is in the cache of the session, [get_session_name] returns it
    for the same transcript and leaves the files as they are, and a
    second session start, from whatever directory, applies no other
    name and changes no file. *)
Theorem auto_name_resolved files sid tp cwd name :
  tp <> name_cache_path sid ->
  (apply_auto_name_on_session_start files sid tp cwd "SessionStart").1 = Some name ->
  let files' := (apply_auto_name_on_session_start files sid tp cwd "SessionStart").2 in
  files' !! name_cache_path sid = Some name /\
  get_session_name files' sid tp = (JStr name, files') /\
  (forall cwd', apply_auto_name_on_session_start files' sid tp cwd' "SessionStart"
                = (None, files')).
Proof.
  intros Htp. unfold apply_auto_name_on_session_start at 1 2.
  cbn [String.eqb Ascii.eqb Bool.eqb negb].
  pose proof (get_session_name_falsy files sid tp) as Hfiles.
  destruct (get_session_name files sid tp) as [existing files1] eqn:Eg.
  cbn [fst snd] in Hfiles.
  destruct (truthy existing) eqn:Hex; [done|]. rewrite Hfiles by done.
  destruct (derive_session_name_from_cwd cwd) as [auto|] eqn:Ed; [|done].
  destruct (String.eqb_spec auto "") as [|Hne]; [done|].
  cbn [fst snd]. intros [= ->]. cbv zeta.
  destruct (derived_name_shape_named cwd name Ed) as [Hnamed _].
  assert (Hget : get_session_name (<[name_cache_path sid := name]> files) sid tp
                 = (JStr name, <[name_cache_path sid := name]> files)).
  { apply get_session_name_cached; try done. by rewrite Eg. }
  split; [apply lookup_insert_eq|]. split; [exact Hget|].
  intros cwd'. unfold apply_auto_name_on_session_start.
  cbn [String.eqb Ascii.eqb Bool.eqb negb]. rewrite Hget. cbn [truthy].
  by destruct (String.eqb_spec name "").
Qed.

Lemma auto_name_resolved_witness :
  "/proj/abc-123.jsonl" <> name_cache_path "abc-123" /\
  (apply_auto_name_on_session_start ∅ "abc-123" "/proj/abc-123.jsonl" "/home/user/my-project"
     "SessionStart").1 = Some "my-project" /\
  (get_session_name
     (apply_auto_name_on_session_start ∅ "abc-123" "/proj/abc-123.jsonl"
        "/home/user/my-project" "SessionStart").2
     "abc-123" "/proj/abc-123.jsonl").1 = JStr "my-project".
Proof.
  assert (H1 : "/proj/abc-123.jsonl" <> name_cache_path "abc-123") by discriminate.
  assert (H2 : (apply_auto_name_on_session_start ∅ "abc-123" "/proj/abc-123.jsonl"
                  "/home/user/my-project" "SessionStart").1 = Some "my-project")
    by (vm_compute; reflexivity).
  split; [exact H1|]. split; [exact H2|].
  pose proof (auto_name_resolved ∅ "abc-123" "/proj/abc-123.jsonl" "/home/user/my-project"
                "my-project" H1 H2) as H.
  cbv zeta in H. destruct H as (_ & -> & _). reflexivity.
Defined.

(** *** Sanitizing twice *)

Lemma name_char_kept a :
  name_char a = true ->
  Py.lower_char a = a /\ keep_char a = true /\
  Ascii.eqb a "196" = false /\ Ascii.eqb a "226" = false.
Proof. destruct a as [[] [] [] [] [] [] [] []]; intros H; try discriminate H; done. Qed.

Lemma lower_named s : named s = true -> Py.lower s = s.
Proof.
  unfold named. induction s as [|a t IH]; [done|]. cbn [avoids].
  intros [Ha Ht]%andb_prop. rewrite negb_involutive in Ha.
  destruct (name_char_kept a Ha) as (Hl & _ & H196 & H226).
  specialize (IH Ht). destruct t as [|b t1].
  - cbn. by rewrite Hl.
  - change (Py.lower (String a (String b t1)))
      with (if Ascii.eqb a "196" && Ascii.eqb b "176"
            then String "i" (String "204" (String "135" (Py.lower t1)))
            else match t1 with
                 | String c t2 =>
                     if Ascii.eqb a "226" && Ascii.eqb b "132" && Ascii.eqb c "170"
                     then String "k" (Py.lower t2)
                     else String (Py.lower_char a) (Py.lower (String b t1))
                 | EmptyString => String (Py.lower_char a) (Py.lower (String b t1))
                 end).
    rewrite H196, H226. cbn [andb]. rewrite Hl, IH. by destruct t1.
Qed.

Lemma smap_kept s :
  named s = true -> Py.smap (fun a => if keep_char a then a else "-"%char) s = s.
Proof.
  unfold named. induction s as [|a t IH]; [done|]. cbn [avoids Py.smap].
  intros [Ha Ht]%andb_prop. rewrite negb_involutive in Ha.
  destruct (name_char_kept a Ha) as (_ & -> & _). by rewrite IH.
Qed.

Lemma collapse_pair_free s : pair_free s = true -> collapse_hyphens s = s.
Proof.
  induction s as [|a t IH]; [done|]. cbn [pair_free]. intros [Ha Ht]%andb_prop.
  apply negb_true_iff in Ha. cbn [collapse_hyphens]. rewrite IH by done.
  destruct (is_hyphen a); [|done]. destruct t as [|b t']; [done|].
  cbn [hyphen_first andb] in Ha. by rewrite Ha.
Qed.

Lemma lstrip_no_hyphen s : hyphen_first s = false -> Py.lstrip_chars is_hyphen s = s.
Proof. destruct s as [|a t]; [done|]. cbn. by intros ->. Qed.

Lemma rstrip_no_hyphen s : hyphen_last s = false -> Py.rstrip_chars is_hyphen s = s.
Proof.
  induction s as [|a t IH]; [done|]. intros H. cbn [Py.rstrip_chars].
  destruct t as [|b t'].
  - cbn in H |- *. by rewrite H.
  - rewrite IH by done. done.
Qed.

(** X12.  Sanitizing a folder name twice is sanitizing it once: the
    name [_sanitize_folder_name] returns is made of lower-case letters,
    digits, underscores and single hyphens, with no hyphen at either
    end, and the function leaves such a name as it is. *)
Theorem sanitize_folder_name_idempotent name :
  let once := sanitize_folder_name name in
  sanitize_folder_name once = once /\
  named once = true /\ pair_free once = true /\
  hyphen_first once = false /\ hyphen_last once = false.
Proof.
  intros once.
  assert (Hn : named once = true) by apply sanitize_named.
  assert (Hc : pair_free once = true /\ hyphen_first once = false /\ hyphen_last once = false).
  { destruct (String.eqb_spec once "") as [-> | Hne]; [done|].
    pose proof (sanitize_clean name Hne) as Hclean. fold once in Hclean.
    unfold clean in Hclean.
    apply andb_prop in Hclean as [[[_ Hp]%andb_prop Hf]%andb_prop Hl].
    apply negb_true_iff in Hf, Hl. done. }
  destruct Hc as (Hp & Hf & Hl). split; [|done].
  unfold sanitize_folder_name at 1.
  by rewrite lower_named, smap_kept, collapse_pair_free, lstrip_no_hyphen, rstrip_no_hyphen.
Qed.

End ResolverLaws.

Module NamingFacts.
Import Re Reconciler ReconcilerSpec NamingSpec TrackerSpec TrackerFacts ReFacts.

(** the greedy loop finds a match when one of its splits has one *)
Lemma many_some {A} (p : ascii -> bool) (least : nat) (pre rest : string) (n : nat)
    (k : string -> option A) :
  avoids (fun a => negb (p a)) pre = true ->
  (least <= n + String.length pre)%nat ->
  k rest <> None ->
  many p least (pre +:+ rest) n k <> None.
Proof.
  revert n. induction pre as [|c pre IH]; intros n Hp Hn Hk.
  - rewrite StrFacts.app_nil_l. cbn [String.length] in Hn.
    assert (Hle : Nat.leb least n = true) by (apply Nat.leb_le; lia).
    destruct rest as [|a t]; cbn [many]; rewrite ?Hle; [done|].
    destruct (p a); [|done]. by destruct (many p least t (S n) k).
  - cbn [avoids] in Hp. apply andb_prop in Hp as [Hc Hp].
    rewrite negb_involutive in Hc. rewrite StrFacts.app_cons. cbn [many]. rewrite Hc.
    specialize (IH (S n) Hp ltac:(cbn [String.length] in Hn; lia) Hk).
    by destruct (many p least (pre +:+ rest) (S n) k).
Qed.

Lemma run_many {A} p least (r : re) s caps (k : string -> list string -> option A) :
  run (Seq (Many p least) r) s caps k = many p least s 0 (fun t => run r t caps k).
Proof. reflexivity. Qed.

(** the pattern of [find_session_files] on a name of the expected form *)
Lemma session_file_matches prefix ft sid user run1 mid :
  run1 <> "" -> avoids is_underscore run1 = true -> avoids is_lf mid = true ->
  word_like user = true ->
  matches (session_file_re prefix ft sid)
    ("." +:+ prefix +:+ ft +:+ "_" +:+ run1 +:+ "_" +:+ mid +:+ sid +:+ "_" +:+ user +:+ ".log")
  = true.
Proof.
  intros Hne Hrun Hmid [Hu1 Hu2]%andb_prop.
  assert (H : rmatch (session_file_re prefix ft sid)
                ("." +:+ prefix +:+ ft +:+ "_" +:+ run1 +:+ "_" +:+ mid +:+ sid +:+ "_" +:+ user
                 +:+ ".log") <> None).
  { unfold rmatch, session_file_re. cbn [seq].
    rewrite !run_lit_app. rewrite run_many. apply many_some.
    - revert Hrun. apply avoids_weaken. intros c Hc. unfold not_underscore in Hc.
      by rewrite negb_involutive in Hc.
    - destruct run1; [done|]. cbn. lia.
    - rewrite run_lit_app, run_many. apply many_some.
      + revert Hmid. apply avoids_weaken. intros c Hc. unfold dot in Hc.
        by rewrite negb_involutive in Hc.
      + lia.
      + rewrite !run_lit_app, run_many. apply many_some.
        * done.
        * apply negb_true_iff in Hu1. destruct user; [done|]. cbn. lia.
        * by erewrite run_log_suffix. }
  unfold matches. by destruct (rmatch _ _).
Qed.

(** the first run of characters of a shell type, up to its first
    underscore *)
Lemma first_run shell :
  shell_like shell = true ->
  exists run1 m,
    run1 <> "" /\ avoids is_underscore run1 = true /\ avoids is_lf m = true /\
    forall t, shell +:+ "_" +:+ t = run1 +:+ "_" +:+ m +:+ t.
Proof.
  destruct shell as [|a s]; [done|]. cbn [shell_like avoids].
  intros [Ha [_ Hs]%andb_prop]%andb_prop.
  assert (H : exists r m, avoids is_underscore r = true /\ avoids is_lf m = true /\
                          forall t, s +:+ "_" +:+ t = r +:+ "_" +:+ m +:+ t).
  { clear a Ha. induction s as [|b s IH].
    - exists "", "". by split.
    - cbn [avoids] in Hs. apply andb_prop in Hs as [Hb Hs].
      destruct (is_underscore b) eqn:Eb.
      + exists "", (s +:+ "_"). split; [done|]. split.
        * by rewrite avoids_app, Hs.
        * intros t. unfold is_underscore in Eb. apply Ascii.eqb_eq in Eb. subst b.
          by rewrite !StrFacts.app_assoc.
      + destruct (IH Hs) as (r & m & Hr & Hm & Heq). exists (String b r), m.
        split; [cbn [avoids]; by rewrite Eb|]. split; [done|].
        intros t. by rewrite (StrFacts.app_cons b s), (StrFacts.app_cons b r), Heq. }
  destruct H as (r & m & Hr & Hm & Heq). exists (String a r), m.
  split; [done|]. split; [cbn [avoids]; by rewrite Ha|]. split; [done|].
  intros t. by rewrite (StrFacts.app_cons a s), (StrFacts.app_cons a r), Heq.
Qed.

Lemma format_03d_digits n : Py.all_digits (format_03d n) = true.
Proof.
  unfold format_03d. pose proof (StrFacts.str_N_digits (Z.to_N n)) as H.
  destruct (String.length (Py.str_N (Z.to_N n))) as [|[|[|?]]]; try done.
Qed.

(** X13.  The reconciler finds the files the logger names.  Take a
    shell type that starts with a character other than an underscore,
    a user name of ASCII letters, digits and underscores, and no line
    feed in the shell type and the session name.  Then every name
    [build_filename] gives for a session, without a session name, with
    one, and with a sequence number, matches the pattern of
    [find_session_files] for the same session id, prefix and file type:
    a file of the directory called so is among the files found. *)
Theorem build_filename_found d e prefix ft shell name sid user seq :
  shell_like shell = true -> word_like user = true ->
  avoids is_lf (default "" name) = true ->
  In e d -> ename e = build_filename prefix ft shell name sid user seq ->
  In e (find_session_files d sid prefix ft).
Proof.
  intros Hshell Huser Hname Hin He. unfold find_session_files.
  apply filter_In. split; [done|]. rewrite He. clear He Hin.
  destruct (first_run shell Hshell) as (run1 & m & Hne & Hrun & Hm & Heq).
  unfold build_filename. destruct (truthy name) eqn:Htr; [destruct name as [nm|]|].
  - cbn [default] in Hname. unfold id in Hname. destruct seq as [n|].
    + change ("__" +:+ nm +:+ "--" +:+ format_03d n +:+ "__" +:+ sid +:+ "_" +:+ user +:+ ".log")
        with ("_" +:+ "_" +:+ nm +:+ "--" +:+ format_03d n +:+ "__" +:+ sid +:+ "_" +:+ user
              +:+ ".log").
      rewrite Heq.
      replace (m +:+ "_" +:+ nm +:+ "--" +:+ format_03d n +:+ "__" +:+ sid +:+ "_" +:+ user
               +:+ ".log")
        with ((m +:+ "_" +:+ nm +:+ "--" +:+ format_03d n +:+ "__") +:+ sid +:+ "_" +:+ user
              +:+ ".log") by (by rewrite !StrFacts.app_assoc).
      apply session_file_matches; try done.
      rewrite !avoids_app, Hm, Hname.
      rewrite (digits_avoid is_lf (format_03d n)); [done | | apply format_03d_digits].
      intros a Ha. by destruct a as [[] [] [] [] [] [] [] []].
    + change ("__" +:+ nm +:+ "__" +:+ sid +:+ "_" +:+ user +:+ ".log")
        with ("_" +:+ "_" +:+ nm +:+ "__" +:+ sid +:+ "_" +:+ user +:+ ".log").
      rewrite Heq.
      replace (m +:+ "_" +:+ nm +:+ "__" +:+ sid +:+ "_" +:+ user +:+ ".log")
        with ((m +:+ "_" +:+ nm +:+ "__") +:+ sid +:+ "_" +:+ user +:+ ".log")
        by (by rewrite !StrFacts.app_assoc).
      apply session_file_matches; try done.
      by rewrite !avoids_app, Hm, Hname.
  - done.
  - rewrite Heq. by apply session_file_matches.
Qed.

Lemma build_filename_found_witness :
  shell_like "tmux_main" = true /\ word_like "alice" = true /\
  In {| ename := ".sesslog_tmux_main__fix-auth--007__abc-123_alice.log";
        emtime := 5; edata := "" |}
     (find_session_files
        [{| ename := ".sesslog_tmux_main__fix-auth--007__abc-123_alice.log";
            emtime := 5; edata := "" |}]
        "abc-123" "" "sesslog").
Proof.
  split; [reflexivity|]. split; [reflexivity|].
  apply (build_filename_found _ _ "" "sesslog" "tmux_main" (Some "fix-auth") "abc-123" "alice"
           (Some 7)); [reflexivity | reflexivity | reflexivity | by left | reflexivity].
Defined.

End NamingFacts.

Module ConfigFacts.
Import Entry.

Lemma category_todo tool_name :
  categorize_tool tool_name = "todo" <-> tool_name = "TodoWrite".
Proof.
  unfold categorize_tool. split.
  - destruct (String.prefix "mcp__" tool_name); [done|].
    destruct (TOOL_CATEGORIES !! tool_name) as [c|] eqn:E; [|done].
    destruct (String.eqb_spec c ""); [done|]. cbn [negb]. intros ->.
    unfold TOOL_CATEGORIES in E. apply elem_of_list_to_map_2 in E.
    repeat (apply elem_of_cons in E as [E | E]; [by inversion E|]).
    by apply elem_of_nil in E.
  - intros ->. reflexivity.
Qed.

Lemma default_action_only tool_name :
  should_use_action_only tool_name default_config = true <-> tool_name = "TodoWrite".
Proof.
  assert (Hcat : default false (action_only default_config !! categorize_tool tool_name) = true
                 <-> tool_name = "TodoWrite").
  { rewrite <- category_todo. split.
    - destruct (action_only default_config !! categorize_tool tool_name) as [b|] eqn:E;
        [|done]. cbn [default]. unfold id. intros ->.
      cbn [action_only default_config] in E. apply elem_of_list_to_map_2 in E.
      repeat (apply elem_of_cons in E as [E | E]; [by inversion E|]).
      by apply elem_of_nil in E.
    - by intros ->. }
  unfold should_use_action_only. cbv zeta. cbn [action_only_overrides default_config].
  destruct (decide (tool_name = "TodoWrite")) as [-> | Hne].
  - done.
  - by rewrite lookup_singleton_ne.
Qed.

(** X14.  What the default configuration logs.  Every tool is logged.
    The entry is the full time stamp followed by the tool name, a colon
    and the command between braces; only for [TodoWrite] is the command
    left out.  The description, the tool input and the working
    directory never appear. *)
Theorem default_entry tool content ts cwd dumps :
  should_log_tool (name tool) default_config = true /\
  (should_use_action_only (name tool) default_config = true <-> name tool = "TodoWrite") /\
  generate_entry tool default_config content ts cwd dumps
  = "[[" +:+ strftime_full ts +:+ "]] {" +:+
    (if String.eqb (name tool) "TodoWrite" then "TodoWrite" else name tool +:+ ": " +:+ content)
    +:+ " }".
Proof.
  split; [done|]. split; [apply default_action_only|].
  unfold generate_entry. cbv zeta.
  cbn [datetime_mode pwd_enabled verbosity default_config Z.eqb].
  change (format_datetime "full" ts) with ("[[" +:+ strftime_full ts +:+ "]] ").
  rewrite !StrFacts.app_assoc, StrFacts.app_nil_r.
  destruct (should_use_action_only (name tool) default_config) eqn:E.
  - apply default_action_only in E. by rewrite E.
  - destruct (String.eqb_spec (name tool) "TodoWrite") as [Heq | _]; [|done].
    apply default_action_only in Heq. congruence.
Qed.

End ConfigFacts.

Module SettingsFacts.
Import Json Settings.

Lemma get_cons k v rest key :
  get ((k, v) :: rest) key
  = match get rest key with
    | Some w => Some w
    | None => if String.eqb k key then Some v else None
    end.
Proof. reflexivity. Qed.

Lemma get_none d key : get d key = None <-> ~ In key (keys d).
Proof.
  induction d as [|[k v] d IH]; [split; [intros _ [] | done]|].
  rewrite get_cons. cbn [keys List.map fst In].
  destruct (get d key) as [w|] eqn:E.
  - split; [done|]. intros H. exfalso.
    destruct (in_dec string_dec key (keys d)) as [Hin | Hn]; [apply H; by right|].
    apply IH in Hn. done.
  - destruct (String.eqb_spec k key) as [-> | Hne].
    + split; [done|]. intros H. exfalso. apply H. by left.
    + split; [|done]. intros _ [H | H]; [done|]. by apply IH in H.
Qed.

Lemma get_dict_set_ne d key v k : k <> key -> get (dict_set d key v) k = get d k.
Proof.
  intros Hk. induction d as [|[k' w] d IH].
  - cbn. destruct (String.eqb_spec key k); [congruence|done].
  - cbn [dict_set]. destruct (String.eqb_spec k' key) as [-> | Hne].
    + rewrite !get_cons. destruct (get d k); [done|].
      by destruct (String.eqb_spec key k).
    + by rewrite !get_cons, IH.
Qed.

Lemma keys_dict_set d key v :
  keys (dict_set d key v)
  = match get d key with Some _ => keys d | None => (keys d ++ [key])%list end.
Proof.
  induction d as [|[k w] d IH]; [done|]. cbn [dict_set]. rewrite get_cons.
  destruct (String.eqb_spec k key) as [-> | Hne].
  - by destruct (get d key).
  - cbn [keys List.map fst]. fold (keys (dict_set d key v)). rewrite IH.
    by destruct (get d key).
Qed.

Lemma In_keys_dict_set d key v k :
  In k (keys (dict_set d key v)) <-> In k (keys d) \/ k = key.
Proof.
  rewrite keys_dict_set. destruct (get d key) as [w|] eqn:E.
  - split; [auto|]. intros [H | ->]; [done|].
    destruct (in_dec string_dec key (keys d)) as [Hin | Hn]; [done|].
    apply get_none in Hn. congruence.
  - rewrite in_app_iff. cbn [In]. split.
    + intros [H | [<- | []]]; auto.
    + intros [H | ->]; auto.
Qed.

Lemma NoDup_dict_set d key v :
  List.NoDup (keys d) -> List.NoDup (keys (dict_set d key v)).
Proof.
  intros Hd. rewrite keys_dict_set. destruct (get d key) as [w|] eqn:E; [done|].
  apply get_none in E. apply NoDup_ListNoDup. apply NoDup_app.
  split; [by apply NoDup_ListNoDup|]. split; [|apply NoDup_singleton].
  intros x Hx [= ->]%list_elem_of_singleton. apply E. by apply list_elem_of_In.
Qed.

Lemma get_dict_set_eq d key v :
  List.NoDup (keys d) -> get (dict_set d key v) key = Some v.
Proof.
  induction d as [|[k w] d IH]; intros Hd.
  - cbn. by rewrite String.eqb_refl.
  - cbn [keys List.map fst] in Hd. apply List.NoDup_cons_iff in Hd as [Hk Hd].
    cbn [dict_set]. destruct (String.eqb_spec k key) as [-> | Hne].
    + rewrite get_cons. apply get_none in Hk. by rewrite Hk, String.eqb_refl.
    + by rewrite get_cons, IH.
Qed.

Lemma merge_configs_nil base : merge_configs base [] = base.
Proof. reflexivity. Qed.

Lemma merge_configs_cons base key value rest :
  merge_configs base ((key, value) :: rest)
  = merge_configs
      (dict_set base key
         match get base key, value with
         | Some (JObj b), JObj o => JObj (merge_configs b o)
         | _, _ => value
         end) rest.
Proof.
  unfold merge_configs. cbn [merge_into].
  destruct (get base key) as [[| | | | |b]|]; try done. by destruct value.
Qed.

(** X15.  [merge_configs] merges key by key, the override first.  For
    dicts with distinct keys the result has distinct keys, namely the
    keys of either dict, and under a key it holds: the value of the
    base when the override has none; the merge of the two values when
    both are dicts; the value of the override otherwise. *)
Theorem merge_configs_lookup override :
  forall base,
  List.NoDup (keys base) -> List.NoDup (keys override) ->
  List.NoDup (keys (merge_configs base override)) /\
  (forall k, In k (keys (merge_configs base override))
             <-> In k (keys base) \/ In k (keys override)) /\
  (forall k,
     get (merge_configs base override) k
     = match get override k with
       | None => get base k
       | Some v =>
           match get base k, v with
           | Some (JObj b), JObj o => Some (JObj (merge_configs b o))
           | _, _ => Some v
           end
       end).
Proof.
  induction override as [|[key value] rest IH]; intros base Hb Ho.
  - rewrite merge_configs_nil. split; [done|]. split; [|done].
    intros k. cbn. tauto.
  - cbn [keys List.map fst] in Ho. apply List.NoDup_cons_iff in Ho as [Hkey Ho].
    fold (keys rest) in Hkey, Ho.
    rewrite merge_configs_cons.
    set (x := match get base key, value with
              | Some (JObj b), JObj o => JObj (merge_configs b o)
              | _, _ => value
              end).
    destruct (IH (dict_set base key x) (NoDup_dict_set base key x Hb) Ho) as (Hn & Hk & Hg).
    split; [exact Hn|]. split.
    + intros k. rewrite Hk, In_keys_dict_set. cbn [keys List.map fst In].
      fold (keys rest). split.
      * intros [[H | ->] | H]; auto.
      * intros [H | [<- | H]]; auto.
    + intros k. rewrite Hg, get_cons.
      destruct (get rest k) as [v|] eqn:Er.
      * assert (Hne : k <> key).
        { intros ->. apply get_none in Hkey. congruence. }
        by rewrite get_dict_set_ne.
      * destruct (String.eqb_spec key k) as [<- | Hne].
        -- rewrite get_dict_set_eq by done. subst x.
           destruct (get base key) as [[| | | | |b]|]; try done. by destruct value.
        -- by rewrite get_dict_set_ne.
Qed.

Lemma merge_configs_lookup_witness :
  List.NoDup (keys [("verbosity", JNum "2"); ("filter", JObj [("include", JArr [])])]) /\
  List.NoDup (keys [("filter", JObj [("mode", JStr "all")]); ("pwd", JBool true)]) /\
  get (merge_configs [("verbosity", JNum "2"); ("filter", JObj [("include", JArr [])])]
         [("filter", JObj [("mode", JStr "all")]); ("pwd", JBool true)]) "filter"
  = Some (JObj [("include", JArr []); ("mode", JStr "all")]).
Proof.
  assert (H1 : List.NoDup (keys [("verbosity", JNum "2");
                                 ("filter", JObj [("include", JArr [])])]))
    by (apply ReconcilerFacts.distinct_NoDup; reflexivity).
  assert (H2 : List.NoDup (keys [("filter", JObj [("mode", JStr "all")]); ("pwd", JBool true)]))
    by (apply ReconcilerFacts.distinct_NoDup; reflexivity).
  split; [exact H1|]. split; [exact H2|].
  destruct (merge_configs_lookup _ _ H1 H2) as (_ & _ & Hg). rewrite Hg. reflexivity.
Defined.

End SettingsFacts.

Module GapFacts.
Import Writer TrackerSpec TrackerFacts TextSpec TextFacts WriterFacts WriterLaws.

Lemma last_char_none s : Py.last_char s = None -> s = "".
Proof. destruct s as [|a t]; [done|]. cbn. by destruct (Py.last_char t). Qed.

Lemma remove_nul_last s :
  Py.last_char s = Some Py.LF -> Py.last_char (Py.remove_char Py.nul s) = Some Py.LF.
Proof.
  induction s as [|a t IH]; [done|]. intros H.
  change (Py.last_char (String a t))
    with (match Py.last_char t with None => Some a | r => r end) in H.
  change (Py.remove_char Py.nul (String a t))
    with (if Ascii.eqb a Py.nul then Py.remove_char Py.nul t
          else String a (Py.remove_char Py.nul t)).
  destruct (Py.last_char t) as [c|] eqn:E.
  - specialize (IH H). destruct (Ascii.eqb a Py.nul); [exact IH|].
    change (Py.last_char (String a (Py.remove_char Py.nul t)))
      with (match Py.last_char (Py.remove_char Py.nul t) with None => Some a | r => r end).
    by rewrite IH.
  - apply last_char_none in E. subst t. injection H as ->. reflexivity.
Qed.

Lemma remove_nul_terminated s :
  terminated s = true -> terminated (Py.remove_char Py.nul s) = true.
Proof.
  unfold terminated. destruct (Py.last_char s) as [c|] eqn:E.
  - intros Hc. apply Ascii.eqb_eq in Hc. subst c. by rewrite remove_nul_last.
  - intros _. apply last_char_none in E. by subst s.
Qed.

Lemma one_line_no_cr s : one_line s = true -> avoids is_cr s = true.
Proof.
  apply avoids_weaken. intros c Hc. unfold is_cr in Hc. unfold is_linebreak.
  by rewrite Hc, orb_true_r.
Qed.

Lemma read_text_plain s : avoids is_cr s = true -> Py.read_text s = s.
Proof.
  intros H. rewrite <- (StrFacts.app_nil_r s) at 1. rewrite read_text_app by done.
  apply StrFacts.app_nil_r.
Qed.

(** the last line of a text that ends with a line without a line break *)
Lemma last_line head b :
  terminated head = true -> avoids is_cr head = true -> one_line b = true ->
  last (Py.readlines (head +:+ b +:+ Py.newline)) = Some (b +:+ Py.newline).
Proof.
  intros Hh Hcr Hb. unfold Py.readlines.
  rewrite read_text_plain.
  2:{ rewrite !avoids_app, Hcr, (one_line_no_cr b Hb). done. }
  rewrite readlines_app by done.
  rewrite <- (StrFacts.app_nil_r Py.newline), readlines_go_line by done.
  cbn [Py.readlines_go String.rev_app]. rewrite last_snoc.
  by rewrite StrFacts.app_nil_r.
Qed.

(** X16.  The gap check sees the last line only.  Take an entry that is
    some complete lines followed by a last line, with no carriage
    return, appended without failure to a log the writer left.  Then
    [check_time_gap] answers as it would on a log that holds nothing
    but that last line: the stamp at the head of an entry of several
    lines, as a command with a line feed or a failure entry with its
    error output makes it, is not seen. *)
Theorem gap_check_reads_last_line tok files p gap mode ev head b :
  written (text_of (files !! p)) = true ->
  Py.utf8_valid head = true -> Py.utf8_valid b = true ->
  terminated head = true -> avoids is_cr head = true -> one_line b = true ->
  let files' := final files (atomic_append no_faults tok files p (head +:+ b) gap) in
  check_time_gap files' p mode ev 1800
  = check_time_gap {[p := Py.remove_char Py.nul b +:+ Py.newline]} p mode ev 1800 /\
  (find_stamp (Py.remove_char Py.nul b +:+ Py.newline) = None ->
   check_time_gap files' p mode ev 1800 = false).
Proof.
  intros Hw Hvh Hvb Hth Hcr Hb files'.
  assert (Hv : Py.utf8_valid (head +:+ b) = true) by (by apply utf8_valid_app).
  destruct (appended_log tok files p (head +:+ b) gap Hw Hv) as (Hlines & _ & Hnew).
  cbv zeta in Hlines, Hnew. fold files' in Hlines, Hnew.
  assert (Hp : files' !! p = Some (text_of (files' !! p))).
  { subst files'. by rewrite append_written. }
  set (rb := Py.remove_char Py.nul b).
  assert (Hrb : one_line rb = true) by (by apply avoids_remove_char).
  assert (Hlast : last (Py.readlines (text_of (files' !! p))) = Some (rb +:+ Py.newline)).
  { rewrite Hlines, !app_assoc, last_app.
    rewrite remove_char_app, StrFacts.app_assoc. fold rb.
    rewrite last_line; [done | by apply remove_nul_terminated | by apply avoids_remove_char
                        | done]. }
  assert (Hsingle : last (Py.readlines (rb +:+ Py.newline)) = Some (rb +:+ Py.newline)).
  { by apply (last_line "" rb). }
  assert (Hvalid : Py.utf8_valid (rb +:+ Py.newline) = true).
  { apply utf8_valid_app; [by apply utf8_valid_remove_nul|done]. }
  assert (Heq : check_time_gap files' p mode ev 1800
                = check_time_gap {[p := rb +:+ Py.newline]} p mode ev 1800).
  { unfold check_time_gap. destruct (String.eqb mode "none"); [done|].
    rewrite Hp, lookup_singleton_eq. unfold last_timestamp.
    apply andb_prop in Hnew as [[-> _]%andb_prop _]. by rewrite Hvalid, Hlast, Hsingle. }
  split; [exact Heq|]. intros Hnone. rewrite Heq.
  unfold check_time_gap. destruct (String.eqb mode "none"); [done|].
  rewrite lookup_singleton_eq. unfold last_timestamp. by rewrite Hvalid, Hsingle, Hnone.
Qed.

Lemma gap_check_reads_last_line_witness :
  written (text_of (Samples.fs0 !! Samples.log_path)) = true /\
  terminated ("[[2026-01-05 09:30:15]] {Bash: cat <<EOF" +:+ Py.newline) = true /\
  check_time_gap
    (final Samples.fs0
       (atomic_append no_faults "k3x9" Samples.fs0 Samples.log_path
          (("[[2026-01-05 09:30:15]] {Bash: cat <<EOF" +:+ Py.newline) +:+ "EOF }") false))
    Samples.log_path "full" (63903288615000000 + 7200 * usec_per_sec) 1800 = false.
Proof.
  split; [vm_compute; reflexivity|]. split; [reflexivity|].
  pose proof (gap_check_reads_last_line "k3x9" Samples.fs0 Samples.log_path false "full"
                (63903288615000000 + 7200 * usec_per_sec)
                ("[[2026-01-05 09:30:15]] {Bash: cat <<EOF" +:+ Py.newline) "EOF }"
                ltac:(vm_compute; reflexivity) ltac:(vm_compute; reflexivity)
                ltac:(vm_compute; reflexivity) ltac:(vm_compute; reflexivity)
                ltac:(vm_compute; reflexivity) ltac:(vm_compute; reflexivity)) as H.
  cbv zeta in H. destruct H as [_ H]. apply H. vm_compute. reflexivity.
Defined.

End GapFacts.

Module DirectoryFacts.
Import Re Reconciler ReconcilerSpec NamingSpec NamingFacts TrackerSpec TrackerFacts ReFacts
       ReconcilerLaws.

(** the greedy loop where every longer split fails *)
Lemma many_fail {A} (p : ascii -> bool) (least : nat) (s : string) (n : nat)
    (k : string -> option A) :
  (forall z z', z <> "" -> s = z +:+ z' -> avoids (fun a => negb (p a)) z = true ->
                k z' = None) ->
  many p least s n k = if Nat.leb least n then k s else None.
Proof.
  revert n. induction s as [|a t IH]; intros n H; [done|]. cbn [many].
  destruct (p a) eqn:Ea; [|done].
  rewrite IH.
  - rewrite (H (String a "") t); [|done|done|cbn; by rewrite Ea].
    by destruct (Nat.leb least (S n)).
  - intros z z' Hz -> Hp. apply (H (String a z) z'); [done|done|].
    cbn [avoids]. by rewrite Ea, Hp.
Qed.

Lemma many_first {A} (p : ascii -> bool) (least : nat) (pre rest : string) (n : nat)
    (k : string -> option A) (v : A) :
  avoids (fun a => negb (p a)) pre = true ->
  (least <= n + String.length pre)%nat ->
  k rest = Some v ->
  (forall z z', z <> "" -> rest = z +:+ z' -> avoids (fun a => negb (p a)) z = true ->
                k z' = None) ->
  many p least (pre +:+ rest) n k = Some v.
Proof.
  revert n. induction pre as [|c pre IH]; intros n Hp Hn Hk Hfail.
  - rewrite StrFacts.app_nil_l, many_fail by done. cbn [String.length] in Hn.
    destruct (Nat.leb_spec least n); [done|lia].
  - cbn [avoids] in Hp. apply andb_prop in Hp as [Hc Hp]. rewrite negb_involutive in Hc.
    rewrite StrFacts.app_cons. cbn [many]. rewrite Hc.
    by rewrite IH; [|done|cbn [String.length] in Hn; lia|done|done].
Qed.

Lemma unsafe_lf a : (if unsafe_char a then "_"%char else a) <> Py.LF.
Proof. by destruct a as [[] [] [] [] [] [] [] []]. Qed.

Lemma sanitize_dirname_no_lf name n : avoids is_lf (sanitize_dirname name n) = true.
Proof.
  unfold sanitize_dirname.
  assert (H : avoids is_lf (Py.smap (fun a => if unsafe_char a then "_"%char else a) name)
              = true).
  { induction name as [|a t IH]; [done|]. cbn [Py.smap avoids]. rewrite IH.
    unfold is_lf. destruct (Ascii.eqb_spec (if unsafe_char a then "_"%char else a) Py.LF)
      as [E|]; [|done]. by apply unsafe_lf in E. }
  revert H. generalize (Py.smap (fun a => if unsafe_char a then "_"%char else a) name).
  intros s H. destruct (ResolverFacts.take_prefix n s) as [z Hz]. unfold Py.take in Hz.
  rewrite <- Hz, avoids_app in H. by apply andb_prop in H as [H _].
Qed.

(** X17.  The name of a session directory reads back.  For a session
    with a name of at most 50 bytes, which [sanitize_dirname] does not
    cut, when the directory name [build_session_directory] gives does
    not start with two underscores and the text [__<id>_] does not
    occur again after the name, [extract_name_from_directory] returns
    the sanitized name the directory was built from.  The directory of
    an unnamed session, and any directory whose name starts with two
    underscores, reads back as unnamed. *)
Theorem directory_name_read_back name sid user :
  name <> "" -> (String.length name <= 50)%nat ->
  String.prefix "__" (build_session_directory (Some name) sid user) = false ->
  Py.contains ("__" +:+ sid +:+ "_") ("_" +:+ sid +:+ "_" +:+ user) = false ->
  extract_name_from_directory (build_session_directory (Some name) sid user) sid
  = Some (sanitize_dirname name 50) /\
  extract_name_from_directory (build_session_directory None sid user) sid = None /\
  (forall d, String.prefix "__" d = true -> extract_name_from_directory d sid = None).
Proof.
  intros Hne _ Hpre Hocc.
  split; [|split].
  2:{ unfold extract_name_from_directory, build_session_directory. cbn [truthy].
      by rewrite (StrFacts.prefix_self_app "__"). }
  2:{ intros d Hd. unfold extract_name_from_directory. by rewrite Hd. }
  unfold extract_name_from_directory. rewrite Hpre.
  unfold build_session_directory in *. rewrite (ReconcilerFacts.truthy_name name Hne) in *.
  set (sn := sanitize_dirname name 50) in *.
  assert (Hsn : sn <> "").
  { intros E. rewrite E, StrFacts.app_nil_l, (StrFacts.prefix_self_app "__") in Hpre. done. }
  unfold rmatch. cbn [seq run].
  set (k := fun t : string =>
              match strip_lit "__" t with
              | Some t0 =>
                  match strip_lit sid t0 with
                  | Some t1 =>
                      match strip_lit "_" t1 with
                      | Some t2 =>
                          Some (([] ++ [String.substring 0
                                   (String.length (sn +:+ "__" +:+ sid +:+ "_" +:+ user)
                                    - String.length t)
                                   (sn +:+ "__" +:+ sid +:+ "_" +:+ user)])%list, t2)
                      | None => None
                      end
                  | None => None
                  end
              | None => None
              end).
  rewrite (many_first dot 1 sn ("__" +:+ sid +:+ "_" +:+ user) 0 k ([sn], user)).
  - done.
  - pose proof (sanitize_dirname_no_lf name 50) as H. fold sn in H. revert H.
    apply avoids_weaken. intros c Hc. unfold dot in Hc. by rewrite negb_involutive in Hc.
  - destruct sn; [done|]. cbn. lia.
  - unfold k. rewrite (strip_lit_app "__"), (strip_lit_app sid), (strip_lit_app "_").
    by rewrite substring_head.
  - intros z z' Hz Heq _. unfold k.
    destruct (strip_lit "__" z') as [t0|] eqn:E0; [|done].
    destruct (strip_lit sid t0) as [t1|] eqn:E1; [|done].
    destruct (strip_lit "_" t1) as [t2|] eqn:E2; [|done].
    apply strip_lit_inv in E0, E1, E2. subst t1 t0 z'.
    exfalso. destruct z as [|c z0]; [done|].
    change ("__" +:+ sid +:+ "_" +:+ user) with (String "_" ("_" +:+ sid +:+ "_" +:+ user))
      in Heq.
    rewrite StrFacts.app_cons in Heq.
    assert (Heq' : "_" +:+ sid +:+ "_" +:+ user = z0 +:+ "__" +:+ sid +:+ "_" +:+ t2)
      by (by injection Heq).
    rewrite Heq' in Hocc.
    rewrite contains_skip in Hocc; [done|]. apply contains_here.
    replace ("__" +:+ sid +:+ "_" +:+ t2) with (("__" +:+ sid +:+ "_") +:+ t2)
      by (by rewrite !StrFacts.app_assoc).
    apply StrFacts.prefix_self_app.
Qed.

Lemma directory_name_read_back_witness :
  "fix: auth" <> "" /\ (String.length "fix: auth" <= 50)%nat /\
  build_session_directory (Some "fix: auth") "abc-123" "alice" = "fix_ auth__abc-123_alice" /\
  extract_name_from_directory "fix_ auth__abc-123_alice" "abc-123" = Some "fix_ auth".
Proof.
  split; [done|]. split; [cbn; lia|]. split; [reflexivity|].
  apply (directory_name_read_back "fix: auth" "abc-123" "alice");
    [done | cbn; lia | reflexivity | reflexivity].
Defined.

End DirectoryFacts.

Module RenameFacts.
Import Re Reconciler ReconcilerSpec NamingSpec RenameSpec NamingFacts TrackerSpec TrackerFacts
       ReFacts ReconcilerLaws.

(** what the greedy loop consumed when it answers *)
Lemma many_inv {A} (p : ascii -> bool) (least : nat) (s : string) (n : nat)
    (k : string -> option A) (v : A) :
  many p least s n k = Some v ->
  exists pre rest,
    s = pre +:+ rest /\ avoids (fun a => negb (p a)) pre = true /\
    (least <= n + String.length pre)%nat /\ k rest = Some v.
Proof.
  revert n. induction s as [|a t IH]; intros n H; cbn [many] in H.
  - destruct (Nat.leb_spec least n); [|done].
    exists "", "". cbn [String.length]. repeat split; [lia|done].
  - assert (Hstop : (if Nat.leb least n then k (String a t) else None) = Some v ->
                    exists pre rest,
                      String a t = pre +:+ rest /\ avoids (fun a => negb (p a)) pre = true /\
                      (least <= n + String.length pre)%nat /\ k rest = Some v).
    { intros H'. destruct (Nat.leb_spec least n); [|done].
      exists "", (String a t). cbn [String.length]. repeat split; [lia|done]. }
    destruct (p a) eqn:Ea; [|by apply Hstop].
    destruct (many p least t (S n) k) as [x|] eqn:Em; [|by apply Hstop].
    injection H as ->. destruct (IH _ Em) as (pre & rest & -> & Hp & Hn & Hk).
    exists (String a pre), rest. cbn [avoids String.length]. rewrite Ea, Hp.
    repeat split; [lia|done].
Qed.

(** the first character of a class in a text *)
Lemma first_of_class (p : ascii -> bool) (s : string) :
  avoids p s = false ->
  exists h b t, s = h +:+ String b t /\ avoids p h = true /\ p b = true.
Proof.
  induction s as [|a s IH]; [done|]. cbn [avoids]. destruct (p a) eqn:Ea.
  - intros _. by exists "", a, s.
  - intros H. destruct (IH H) as (h & b & t & -> & Hh & Hb).
    exists (String a h), b, t. cbn [avoids]. by rewrite Ea, Hh.
Qed.

(** two splits of one text at the first character of a class agree *)
Lemma first_of_class_unique (p : ascii -> bool) (x y : string) (bx bY : ascii)
    (tx ty : string) :
  avoids p x = true -> avoids p y = true -> p bx = true -> p bY = true ->
  x +:+ String bx tx = y +:+ String bY ty -> x = y /\ tx = ty.
Proof.
  revert y. induction x as [|a x IH]; intros [|c y] Hx Hy Hbx Hby Heq.
  - rewrite !StrFacts.app_nil_l in Heq. split; [done|]. by injection Heq.
  - rewrite StrFacts.app_nil_l, StrFacts.app_cons in Heq.
    assert (bx = c) as -> by (by injection Heq).
    cbn [avoids] in Hy. by rewrite Hbx in Hy.
  - rewrite StrFacts.app_nil_l, StrFacts.app_cons in Heq.
    assert (a = bY) as -> by (by injection Heq).
    cbn [avoids] in Hx. by rewrite Hby in Hx.
  - rewrite !StrFacts.app_cons in Heq.
    assert (a = c) as -> by (by injection Heq).
    assert (Heq' : x +:+ String bx tx = y +:+ String bY ty) by (by injection Heq).
    cbn [avoids] in Hx, Hy. apply andb_prop in Hx as [_ Hx]. apply andb_prop in Hy as [_ Hy].
    destruct (IH y Hx Hy Hbx Hby Heq') as [-> ->]. done.
Qed.

Lemma app_inv_tail (x y z : string) : x +:+ z = y +:+ z -> x = y.
Proof.
  revert y. induction x as [|a x IH]; intros [|c y] H.
  - done.
  - apply (f_equal String.length) in H. rewrite StrFacts.app_nil_l in H.
    rewrite StrFacts.app_cons in H. cbn [String.length] in H.
    rewrite StrFacts.length_app in H. lia.
  - apply (f_equal String.length) in H. rewrite StrFacts.app_nil_l in H.
    rewrite StrFacts.app_cons in H. cbn [String.length] in H.
    rewrite StrFacts.length_app in H. lia.
  - rewrite !StrFacts.app_cons in H.
    assert (a = c) as -> by (by injection H).
    assert (H' : x +:+ z = y +:+ z) by (by injection H).
    by rewrite (IH y H').
Qed.

(** a match of the pattern splits the name around [_<id>_] *)
Lemma unnamed_match_inv sid s caps rest :
  rmatch (unnamed_re sid) s = Some (caps, rest) ->
  exists g,
    s = "." +:+ g +:+ "_" +:+ sid +:+ "_" +:+ rest /\ caps = ["." +:+ g] /\
    avoids (fun a => negb (word_or_dot a)) g = true.
Proof.
  unfold rmatch, unnamed_re. cbn [seq run]. intros H.
  destruct (strip_lit "." s) as [s1|] eqn:E1; [|done].
  apply strip_lit_inv in E1. subst s.
  apply many_inv in H as (w & r1 & -> & Hw & _ & H).
  destruct (strip_lit "_" r1) as [s2|] eqn:E2; [|done].
  apply strip_lit_inv in E2. subst r1.
  apply many_inv in H as (x & r2 & -> & Hx & _ & H).
  destruct (strip_lit "_" r2) as [s3|] eqn:E3; [|done].
  apply strip_lit_inv in E3. subst r2.
  destruct (strip_lit sid s3) as [s4|] eqn:E4; [|done].
  apply strip_lit_inv in E4. subst s3.
  destruct (strip_lit "_" s4) as [s5|] eqn:E5; [|done].
  apply strip_lit_inv in E5. subst s4.
  exists (w +:+ "_" +:+ x).
  assert (Hc : caps = ["." +:+ w +:+ "_" +:+ x] /\ rest = s5).
  { replace ("." +:+ w +:+ "_" +:+ x +:+ "_" +:+ sid +:+ "_" +:+ s5)
      with (("." +:+ w +:+ "_" +:+ x) +:+ "_" +:+ sid +:+ "_" +:+ s5) in H
      by (by rewrite !StrFacts.app_assoc).
    rewrite substring_head in H. cbn [app] in H. split; congruence. }
  destruct Hc as [-> ->]. rewrite !StrFacts.app_assoc. split; [done|]. split; [done|].
  rewrite !avoids_app, Hx. rewrite andb_true_r.
  replace (avoids (fun a => negb (word_or_dot a)) w) with true; [done|].
  symmetry. revert Hw. apply avoids_weaken. intros c Hc. unfold word_or_dot in Hc.
  apply negb_true_iff in Hc. apply orb_false_iff in Hc as [Hc _]. by rewrite Hc.
Qed.

(** the pattern matches a name of the unnamed form *)
Lemma unnamed_match_some sid w x rest :
  w <> "" -> avoids (fun a => negb (word a)) w = true ->
  x <> "" -> avoids (fun a => negb (word_or_dot a)) x = true ->
  rmatch (unnamed_re sid) ("." +:+ w +:+ "_" +:+ x +:+ "_" +:+ sid +:+ "_" +:+ rest) <> None.
Proof.
  intros Hw1 Hw Hx1 Hx. unfold rmatch, unnamed_re. cbn [seq run].
  rewrite (strip_lit_app ".").
  apply many_some; [done| destruct w; [done|cbn; lia] |].
  cbv beta. rewrite (strip_lit_app "_").
  apply many_some; [done| destruct x; [done|cbn; lia] |].
  cbv beta. by rewrite (strip_lit_app "_"), (strip_lit_app sid), (strip_lit_app "_").
Qed.

(** the name before [_<id>_] is fixed by the session id *)
Lemma anchor_unique sid g q r r' :
  avoids (fun a => negb (word_or_dot a)) sid = false ->
  avoids (fun a => negb (word_or_dot a)) g = true ->
  avoids (fun a => negb (word_or_dot a)) q = true ->
  g +:+ "_" +:+ sid +:+ "_" +:+ r = q +:+ "_" +:+ sid +:+ "_" +:+ r' ->
  g = q /\ r = r'.
Proof.
  intros Hsid Hg Hq Heq.
  destruct (first_of_class _ _ Hsid) as (h & b & t & -> & Hh & Hb).
  assert (Heq' : (g +:+ "_" +:+ h) +:+ String b (t +:+ "_" +:+ r)
                 = (q +:+ "_" +:+ h) +:+ String b (t +:+ "_" +:+ r')).
  { repeat rewrite StrFacts.app_assoc. repeat rewrite StrFacts.app_assoc in Heq.
    repeat rewrite StrFacts.app_cons. repeat rewrite StrFacts.app_cons in Heq.
    repeat rewrite StrFacts.app_nil_l. repeat rewrite StrFacts.app_nil_l in Heq. exact Heq. }
  apply (first_of_class_unique (fun a => negb (word_or_dot a))) in Heq' as [H1 H2].
  - split.
    + by apply (app_inv_tail _ _ ("_" +:+ h)).
    + apply LoggerFacts.app_inv_head in H2. by apply (LoggerFacts.app_inv_head "_").
  - by rewrite !avoids_app, Hg, Hh.
  - by rewrite !avoids_app, Hq, Hh.
  - done.
  - done.
Qed.

(** X18.  The two renaming paths agree on names.  When a session that
    had no name gets one, [_rename_files_for_session_change] computes
    for the unnamed log file of a category exactly the name
    [build_filename] gives for the named session, so the per-category
    reconciler finds the file at its target name.  This holds when the
    prefix and file type are ASCII letters, digits and underscores, the
    shell type is made of those and dots, and the session id holds an
    ASCII character outside that class (the hyphen of a GUID).  A file
    whose name does not contain [_<id>_] gets no new name. *)
Theorem unnamed_log_gets_target_name old prefix ft shell new sid user :
  truthy old = false -> new <> "" ->
  run_of word (prefix +:+ ft) = true ->
  run_of word_or_dot shell = true ->
  has_separator sid = true ->
  renamed_for_session old new sid (build_filename prefix ft shell None sid user None)
  = Some (build_filename prefix ft shell (Some new) sid user None) /\
  (forall n, Py.contains ("_" +:+ sid +:+ "_") n = false ->
             renamed_for_session old new sid n = None).
Proof.
  intros Hold Hnew [Hp1 Hp]%andb_prop [Hs1 Hs]%andb_prop Hsep.
  assert (Hsid : avoids (fun a => negb (word_or_dot a)) sid = false).
  { unfold has_separator in Hsep. apply negb_true_iff in Hsep.
    destruct (avoids (fun a => negb (word_or_dot a)) sid) eqn:E; [|done].
    rewrite <- Hsep. symmetry. revert E. apply avoids_weaken.
    intros c Hc. unfold separator in Hc. by apply andb_prop in Hc as [_ Hc]. }
  apply negb_true_iff in Hp1, Hs1.
  assert (Hp1' : prefix +:+ ft <> "") by (by intros E; rewrite E in Hp1).
  assert (Hs1' : shell <> "") by (by intros E; rewrite E in Hs1).
  assert (Hbranch : forall n,
            renamed_for_session old new sid n =
            match rmatch (unnamed_re sid) n with
            | Some (g :: _, rest) =>
                Some (g +:+ "__" +:+ new +:+ "__" +:+ sid +:+ "_" +:+ rest)
            | _ => None
            end).
  { intros n. unfold renamed_for_session. rewrite Hold. by destruct old. }
  split.
  - rewrite Hbranch. unfold build_filename.
    rewrite (ReconcilerFacts.truthy_name new Hnew). cbn [truthy].
    replace ("." +:+ prefix +:+ ft +:+ "_" +:+ shell +:+ "_" +:+ sid +:+ "_" +:+ user +:+ ".log")
      with ("." +:+ (prefix +:+ ft) +:+ "_" +:+ shell +:+ "_" +:+ sid +:+ "_" +:+ user +:+ ".log")
      by (by rewrite !StrFacts.app_assoc).
    pose proof (unnamed_match_some sid (prefix +:+ ft) shell (user +:+ ".log") Hp1' Hp Hs1' Hs)
      as Hsome.
    revert Hsome.
    destruct (rmatch (unnamed_re sid) _) as [[caps rest]|] eqn:E; [intros _|by intros []].
    apply unnamed_match_inv in E as (g & Heq & -> & Hg).
    apply (LoggerFacts.app_inv_head ".") in Heq.
    replace ((prefix +:+ ft) +:+ "_" +:+ shell +:+ "_" +:+ sid +:+ "_" +:+ user +:+ ".log")
      with (((prefix +:+ ft) +:+ "_" +:+ shell) +:+ "_" +:+ sid +:+ "_" +:+ user +:+ ".log")
      in Heq by (by rewrite !StrFacts.app_assoc).
    apply anchor_unique in Heq as [Hg' Hr]; [|done| |done].
    + subst g rest. f_equal. by rewrite !StrFacts.app_assoc.
    + assert (Hpw : avoids (fun a => negb (word_or_dot a)) (prefix +:+ ft) = true).
      { revert Hp. apply avoids_weaken. intros c Hc. unfold word_or_dot in Hc.
        apply negb_true_iff in Hc. apply orb_false_iff in Hc as [Hc _]. by rewrite Hc. }
      rewrite (avoids_app _ (prefix +:+ ft)), Hpw, avoids_app, Hs. reflexivity.
  - intros n Hn. rewrite Hbranch.
    destruct (rmatch (unnamed_re sid) n) as [[caps rest]|] eqn:E; [|done].
    apply unnamed_match_inv in E as (g & -> & -> & _). exfalso.
    replace ("." +:+ g +:+ "_" +:+ sid +:+ "_" +:+ rest)
      with (("." +:+ g) +:+ ("_" +:+ sid +:+ "_") +:+ rest) in Hn
      by (by rewrite !StrFacts.app_assoc).
    rewrite contains_skip in Hn; [done|]. apply contains_here, StrFacts.prefix_self_app.
Qed.

Lemma unnamed_log_gets_target_name_witness :
  run_of word ("" +:+ "sesslog") = true /\ run_of word_or_dot "bash" = true /\
  has_separator "abc-123" = true /\
  renamed_for_session None "fix-auth" "abc-123" ".sesslog_bash_abc-123_alice.log"
  = Some ".sesslog_bash__fix-auth__abc-123_alice.log".
Proof.
  split; [reflexivity|]. split; [reflexivity|]. split; [reflexivity|].
  apply (unnamed_log_gets_target_name None "" "sesslog" "bash" "fix-auth" "abc-123" "alice");
    [reflexivity | done | reflexivity | reflexivity | reflexivity].
Defined.

End RenameFacts.

Module LoggerWriteFacts.
Import Reconciler Tracker Writer Logger LoggerSpec LoggerWrite TrackerSpec TrackerFacts TextSpec
       TextFacts WriterFacts WriterLaws EntrySpec EntryFacts LoggerFacts.

(** one entry, written without failure to a log the writer left *)
Lemma entry_append tok files p content gap :
  files !! temp_path p tok = None ->
  written (text_of (files !! p)) = true ->
  Py.utf8_valid content = true ->
  let o := atomic_append Writer.no_faults tok files p content gap in
  raised o = false /\
  exists new,
    final files o = <[p := new]> files /\
    Py.readlines new
    = (Py.readlines (text_of (files !! p)) ++ gap_lines gap ++ entry_lines content)%list /\
    written new = true.
Proof.
  intros Hfresh Hw Hv o. subst o.
  split; [by apply atomic_append_not_raised|].
  pose proof (appended_log tok files p content gap Hw Hv) as (Hlines & _ & Hnew).
  cbv zeta in Hlines, Hnew.
  rewrite atomic_append_final in Hlines, Hnew |- * by done.
  cbn [f_mkdir Writer.no_faults] in Hlines, Hnew |- *.
  assert (Hvo : Py.utf8_valid (text_of (files !! p)) = true).
  { by apply andb_prop in Hw as [[Hvo _]%andb_prop _]. }
  rewrite guarded_failure_none in Hlines, Hnew |- * by done.
  rewrite lookup_insert_eq in Hlines, Hnew. cbn [text_of default] in Hlines, Hnew.
  unfold id in Hlines, Hnew.
  eexists. split; [reflexivity|]. split; [exact Hlines|exact Hnew].
Qed.

Lemma format_datetime_valid mode ts t :
  Entry.instant ts = Some t -> Py.utf8_valid (Entry.format_datetime mode ts) = true.
Proof.
  intros Ht%instant_inv. unfold Entry.format_datetime.
  destruct (String.eqb mode "date").
  - pose proof Ht as (Hy & Hm & Hd & HH & HM & HS)%mk_datetime_inv.
    apply utf8_valid_app; [done|]. apply utf8_valid_app; [|done].
    apply utf8_valid_ascii. unfold Entry.strftime_date, Entry.pad4.
    repeat (progress (rewrite ?StrFacts.app_cons, ?StrFacts.app_nil_l, ?avoids_app;
                      cbn [avoids])).
    rewrite !pad2_ascii by (Z.div_mod_to_equations; lia).
    by rewrite !digit_ascii by (apply digit_char_digit; Z.div_mod_to_equations; lia).
  - destruct (String.eqb mode "full"); [|done].
    apply utf8_valid_app; [done|].
    apply utf8_valid_app; [by apply (strftime_full_valid ts _ Ht)|done].
Qed.

(** X19.  An entry reaches the shell log and the unified log, and the
    task log only for a task.  Take a logger whose three logs and their
    temporary files are six different files, logs as the writer left
    them, an entry and a task content that are UTF-8 texts, and no
    failure.  Then [log_entry] does not raise; the shell log and the
    unified log keep their lines and get the lines of the entry after
    them, each after an empty line exactly when [check_time_gap] finds a
    gap in that log as it was before the call; the task log gets the
    stamped task content when the category is [task] and the content is
    not empty, and keeps its lines otherwise; no other file changes. *)
Theorem log_entry_channels tok1 tok2 tok3 L files shell unified tasks entry category
    task_content ts t :
  shell_log_path L = Some shell -> unified_log_path L = Some unified ->
  task_log_path L = Some tasks ->
  List.NoDup [shell; unified; tasks; temp_path shell tok1; temp_path unified tok2;
              temp_path tasks tok3] ->
  files !! temp_path shell tok1 = None -> files !! temp_path unified tok2 = None ->
  files !! temp_path tasks tok3 = None ->
  written (text_of (files !! shell)) = true -> written (text_of (files !! unified)) = true ->
  written (text_of (files !! tasks)) = true ->
  Py.utf8_valid entry = true -> Py.utf8_valid (default "" task_content) = true ->
  Entry.instant ts = Some t ->
  let mode := Entry.datetime_mode (config L) in
  let r := log_entry no_faults tok1 tok2 tok3 L files entry category task_content ts t in
  let task_entry :=
    Entry.format_datetime mode ts +:+ "{" +:+ default "" task_content +:+ " }" in
  r.2 = false /\
  Py.readlines (text_of (r.1 !! shell))
  = (Py.readlines (text_of (files !! shell))
     ++ gap_lines (check_time_gap files shell mode t 1800) ++ entry_lines entry)%list /\
  Py.readlines (text_of (r.1 !! unified))
  = (Py.readlines (text_of (files !! unified))
     ++ gap_lines (check_time_gap files unified mode t 1800) ++ entry_lines entry)%list /\
  Py.readlines (text_of (r.1 !! tasks))
  = (Py.readlines (text_of (files !! tasks))
     ++ (if String.eqb category "task" && truthy task_content then entry_lines task_entry
         else []))%list /\
  (forall q, q <> shell -> q <> unified -> q <> tasks -> r.1 !! q = files !! q).
Proof.
  intros Hshell Hunified Htasks Hnd Hf1 Hf2 Hf3 Hw1 Hw2 Hw3 Hv Hvt Ht mode r task_entry.
  apply NoDup_ListNoDup in Hnd.
  apply NoDup_cons in Hnd as [Ha Hnd]. apply NoDup_cons in Hnd as [Hb Hnd].
  apply NoDup_cons in Hnd as [Hc _].
  rewrite !not_elem_of_cons in Ha. rewrite !not_elem_of_cons in Hb.
  rewrite !not_elem_of_cons in Hc.
  destruct Ha as (Hab & Hac & Had & Hae & Haf & _).
  destruct Hb as (Hbc & Hbd & Hbe & Hbf & _).
  destruct Hc as (Hcd & Hce & Hcf & _).
  subst r. unfold log_entry. rewrite Hshell, Hunified. cbv zeta. fold mode.
  cbn [f_shell f_unified f_tasks Logger.no_faults].
  set (g1 := check_time_gap files shell mode t 1800).
  set (g2 := check_time_gap files unified mode t 1800).
  destruct (entry_append tok1 files shell entry g1 Hf1 Hw1 Hv)
    as (Hr1 & new1 & Hfin1 & Hl1 & Hwr1).
  cbv zeta in Hr1, Hfin1. rewrite Hr1, Hfin1.
  destruct (entry_append tok2 (<[shell := new1]> files) unified entry g2)
    as (Hr2 & new2 & Hfin2 & Hl2 & Hwr2); try done.
  { by rewrite lookup_insert_ne by congruence. }
  { by rewrite lookup_insert_ne by congruence. }
  cbv zeta in Hr2, Hfin2. rewrite lookup_insert_ne in Hl2 by congruence.
  rewrite Hr2, Hfin2.
  destruct (String.eqb category "task" && truthy task_content) eqn:Ec.
  - rewrite Htasks. fold task_entry.
    destruct (entry_append tok3 (<[unified := new2]> (<[shell := new1]> files)) tasks
                task_entry false) as (Hr3 & new3 & Hfin3 & Hl3 & Hwr3).
    { by rewrite !lookup_insert_ne by congruence. }
    { by rewrite !lookup_insert_ne by congruence. }
    { subst task_entry. apply utf8_valid_app; [by apply (format_datetime_valid mode ts t)|].
      apply utf8_valid_app; [done|]. by apply utf8_valid_app. }
    cbv zeta in Hr3, Hfin3. rewrite !lookup_insert_ne in Hl3 by congruence.
    rewrite Hfin3. cbn [fst snd].
    split; [exact Hr3|]. split.
    { rewrite !lookup_insert_ne by congruence. by rewrite lookup_insert_eq. }
    split.
    { rewrite lookup_insert_ne by congruence. by rewrite lookup_insert_eq. }
    split.
    { by rewrite lookup_insert_eq. }
    intros q Hq1 Hq2 Hq3. by rewrite !lookup_insert_ne by congruence.
  - cbn [fst snd]. split; [done|]. split.
    { rewrite lookup_insert_ne by congruence. by rewrite lookup_insert_eq. }
    split.
    { by rewrite lookup_insert_eq. }
    split.
    { rewrite !lookup_insert_ne by congruence. by rewrite app_nil_r. }
    intros q Hq1 Hq2 Hq3. by rewrite !lookup_insert_ne by congruence.
Qed.

Lemma log_entry_channels_witness :
  shell_log_path sample_logger
  = Some "~/.claude/sesslogs/__abc-123_alice/.shell_bash_abc-123_alice.log" /\
  task_log_path sample_logger
  = Some "~/.claude/sesslogs/__abc-123_alice/.tasks_bash__abc-123__alice.log" /\
  (log_entry no_faults "k3x9" "p7q2" "m4t8" sample_logger ∅ "{Task: review }" "task"
     (Some "review") sample_time 63903288615250000).2 = false /\
  Py.readlines
    (text_of ((log_entry no_faults "k3x9" "p7q2" "m4t8" sample_logger ∅ "{Task: review }" "task"
                 (Some "review") sample_time 63903288615250000).1
              !! "~/.claude/sesslogs/__abc-123_alice/.shell_bash_abc-123_alice.log"))
  = ["{Task: review }" +:+ Py.newline] /\
  Py.readlines
    (text_of ((log_entry no_faults "k3x9" "p7q2" "m4t8" sample_logger ∅ "{Task: review }" "task"
                 (Some "review") sample_time 63903288615250000).1
              !! "~/.claude/sesslogs/__abc-123_alice/.tasks_bash__abc-123__alice.log"))
  = ["[[2026-01-05 09:30:15]] {review }" +:+ Py.newline].
Proof.
  split; [reflexivity|]. split; [reflexivity|].
  pose proof (log_entry_channels "k3x9" "p7q2" "m4t8" sample_logger ∅
                "~/.claude/sesslogs/__abc-123_alice/.shell_bash_abc-123_alice.log"
                "~/.claude/sesslogs/__abc-123_alice/.sesslog_bash_abc-123_alice.log"
                "~/.claude/sesslogs/__abc-123_alice/.tasks_bash__abc-123__alice.log"
                "{Task: review }" "task" (Some "review") sample_time 63903288615250000
                eq_refl eq_refl eq_refl
                ltac:(repeat constructor; vm_compute; intuition discriminate)
                eq_refl eq_refl eq_refl eq_refl eq_refl eq_refl
                ltac:(vm_compute; reflexivity) ltac:(vm_compute; reflexivity)
                ltac:(vm_compute; reflexivity)) as H.
  cbv zeta in H. destruct H as (H1 & H2 & _ & H4 & _).
  split; [exact H1|]. split.
  - rewrite H2. vm_compute. reflexivity.
  - rewrite H4. vm_compute. reflexivity.
Defined.

(** X20.  A failure entry reaches the shell log and the unified log, never
    after an empty line.  With the two logs and their temporary files
    four different files, logs as the writer left them, an entry that is
    a UTF-8 text and no failure, [log_failure] does not raise, both logs
    keep their lines and get the lines of the entry right after them,
    whatever the time since the last entry, and no other file changes. *)
Theorem log_failure_channels tok1 tok2 L files shell unified failure_entry :
  shell_log_path L = Some shell -> unified_log_path L = Some unified ->
  List.NoDup [shell; unified; temp_path shell tok1; temp_path unified tok2] ->
  files !! temp_path shell tok1 = None -> files !! temp_path unified tok2 = None ->
  written (text_of (files !! shell)) = true -> written (text_of (files !! unified)) = true ->
  Py.utf8_valid failure_entry = true ->
  let r := log_failure no_faults tok1 tok2 L files failure_entry in
  r.2 = false /\
  Py.readlines (text_of (r.1 !! shell))
  = (Py.readlines (text_of (files !! shell)) ++ entry_lines failure_entry)%list /\
  Py.readlines (text_of (r.1 !! unified))
  = (Py.readlines (text_of (files !! unified)) ++ entry_lines failure_entry)%list /\
  (forall q, q <> shell -> q <> unified -> r.1 !! q = files !! q).
Proof.
  intros Hshell Hunified Hnd Hf1 Hf2 Hw1 Hw2 Hv r.
  apply NoDup_ListNoDup in Hnd.
  apply NoDup_cons in Hnd as [Ha Hnd]. apply NoDup_cons in Hnd as [Hb _].
  rewrite !not_elem_of_cons in Ha. rewrite !not_elem_of_cons in Hb.
  destruct Ha as (Hab & Hac & Had & _).
  destruct Hb as (Hbc & Hbd & _).
  subst r. unfold log_failure. rewrite Hshell, Hunified. cbv zeta.
  cbn [f_shell f_unified Logger.no_faults].
  destruct (entry_append tok1 files shell failure_entry false Hf1 Hw1 Hv)
    as (Hr1 & new1 & Hfin1 & Hl1 & Hwr1).
  cbv zeta in Hr1, Hfin1. rewrite Hr1, Hfin1.
  destruct (entry_append tok2 (<[shell := new1]> files) unified failure_entry false)
    as (Hr2 & new2 & Hfin2 & Hl2 & Hwr2); try done.
  { by rewrite lookup_insert_ne by congruence. }
  { by rewrite lookup_insert_ne by congruence. }
  cbv zeta in Hr2, Hfin2. rewrite lookup_insert_ne in Hl2 by congruence.
  rewrite Hfin2. cbn [fst snd]. split; [exact Hr2|]. split.
  { rewrite lookup_insert_ne by congruence. by rewrite lookup_insert_eq. }
  split.
  { by rewrite lookup_insert_eq. }
  intros q Hq1 Hq2. by rewrite !lookup_insert_ne by congruence.
Qed.

Lemma log_failure_channels_witness :
  shell_log_path sample_logger
  = Some "~/.claude/sesslogs/__abc-123_alice/.shell_bash_abc-123_alice.log" /\
  (log_failure no_faults "k3x9" "p7q2" sample_logger ∅ "{FAILED: exit 1 }").2 = false /\
  Py.readlines
    (text_of ((log_failure no_faults "k3x9" "p7q2" sample_logger ∅ "{FAILED: exit 1 }").1
              !! "~/.claude/sesslogs/__abc-123_alice/.shell_bash_abc-123_alice.log"))
  = ["{FAILED: exit 1 }" +:+ Py.newline].
Proof.
  split; [reflexivity|].
  pose proof (log_failure_channels "k3x9" "p7q2" sample_logger ∅
                "~/.claude/sesslogs/__abc-123_alice/.shell_bash_abc-123_alice.log"
                "~/.claude/sesslogs/__abc-123_alice/.sesslog_bash_abc-123_alice.log"
                "{FAILED: exit 1 }" eq_refl eq_refl
                ltac:(repeat constructor; vm_compute; intuition discriminate)
                eq_refl eq_refl eq_refl eq_refl ltac:(vm_compute; reflexivity)) as H.
  cbv zeta in H. destruct H as (H1 & H2 & _).
  split; [exact H1|]. rewrite H2. vm_compute. reflexivity.
Defined.

End LoggerWriteFacts.
